(** * primrose-mcp-gorgias: a shallow embedding of the request pipeline

    The development follows the TypeScript sources of the Gorgias MCP
    server: credential extraction and validation ([types/env.ts]), the
    worker entry point ([index.ts]), the upstream client ([client.ts]),
    the pagination helpers ([utils/pagination.ts]), the response
    formatter ([utils/formatters.ts]) and the tool handlers ([tools/]).

    Conventions of the embedding.
    - A JavaScript value is a term of [value]; numbers are the integers
      (identifiers, counts, limits and HTTP statuses are all integral).
    - A string is a sequence of 8-bit code units, exact for ASCII text.
    - An object is the list of its own enumerable properties, in
      enumeration order.  A value is what JSON.parse and the object
      literals of the sources build: no member is a function.  Of the
      inherited members only the conversions [toString] and [valueOf]
      are modelled, in [ToString]; no other is read by the sources.
    - A computation that may throw returns a [completion].
    - What the JavaScript engine provides and the repository does not
      define (JSON.parse, Date) is collected in the record [Host]. *)

From Stdlib Require Import String Ascii List ZArith Bool Lia DecimalString DecimalPos.
Import ListNotations.
Open Scope string_scope.
Open Scope Z_scope.

Set Warnings "-register-all".

(* ===================================================================== *)
(** * Part I: definitions                                                  *)
(* ===================================================================== *)

(** ** JavaScript values and the operations the sources apply to them *)

Module JS.

Inductive value : Type :=
| VUndefined
| VNull
| VBool (b : bool)
| VNum (n : Z)
| VStr (s : string)
| VArr (elems : list value)
| VObj (props : list (string * value)).

(** Thrown values.  [JsError name message] is an instance of the
    built-in [Error] or of one of its standard subclasses.
    [ThrownValue text] is a thrown value that is no instance of [Error],
    given by what the sources read of such a value: its string
    conversion [String(error)]. *)
Inductive exn : Type :=
| JsError (name message : string)
| GorgiasApiError (message : string) (statusCode : Z)
| RateLimitError (message : string) (retryAfterSeconds : option Z)
| AuthenticationError (message : string)
| ThrownValue (text : string).

Inductive completion (A : Type) : Type :=
| Return (a : A)
| Throw (e : exn).
Arguments Return {A} a.
Arguments Throw {A} e.

Definition bind {A B} (c : completion A) (k : A -> completion B) : completion B :=
  match c with
  | Return a => k a
  | Throw e => Throw e
  end.

(** [try { c } catch (error) { h error }] *)
Definition try_catch {A} (c : completion A) (h : exn -> completion A) : completion A :=
  match c with
  | Return a => Return a
  | Throw e => h e
  end.

(** The computation returns: it does not throw. *)
Definition returns {A} (c : completion A) : Prop := exists a, c = Return a.

Definition TypeError (message : string) : exn := JsError "TypeError" message.

(** The double quote character, as a one-character string. *)
Definition dq : string := String (ascii_of_nat 34) EmptyString.

Definition Z_to_string (n : Z) : string := NilZero.string_of_int (Z.to_int n).

Definition str_length (s : string) : Z := Z.of_nat (String.length s).

(** ToBoolean *)
Definition truthy (v : value) : bool :=
  match v with
  | VUndefined | VNull => false
  | VBool b => b
  | VNum n => negb (n =? 0)
  | VStr s => negb (s =? "")%string
  | VArr _ | VObj _ => true
  end.

Definition nullish (v : value) : bool :=
  match v with
  | VUndefined | VNull => true
  | _ => false
  end.

(** [a || b] and [a ?? b] *)
Definition or_else (a b : value) : value := if truthy a then a else b.
Definition coalesce (a b : value) : value := if nullish a then b else a.

(** [arr.join(sep)] on an array of strings. *)
Definition join (sep : string) (parts : list string) : string :=
  String.concat sep parts.

Fixpoint assoc (k : string) (props : list (string * value)) : option value :=
  match props with
  | [] => None
  | (k', v) :: rest => if (k =? k')%string then Some v else assoc k rest
  end.

(** ToString of a value that is no object: a primitive. *)
Definition ToString_primitive (v : value) : string :=
  match v with
  | VUndefined => "undefined"
  | VNull => "null"
  | VBool true => "true"
  | VBool false => "false"
  | VNum n => Z_to_string n
  | VStr s => s
  | VArr _ | VObj _ => ""
  end.

(** ToString, as applied by [String(v)] and by template literals.
    An object is converted by its [toString] method and then by its
    [valueOf] method.  The inherited [toString] gives "[object Object]".
    An own member named toString hides it; in a value that was read from
    JSON such a member is no function, so it is passed over, [valueOf]
    (the inherited one returns the object itself, an own one is no
    function either) gives no primitive, and the conversion throws a
    [TypeError].  An array is converted by [join], which converts its
    elements, null and undefined to the empty string. *)
Fixpoint ToString (v : value) : completion string :=
  match v with
  | VArr elems =>
      bind
        ((fix each (l : list value) : completion (list string) :=
            match l with
            | [] => Return []
            | x :: rest =>
                bind (match x with
                      | VUndefined | VNull => Return ""
                      | _ => ToString x
                      end)
                     (fun s => bind (each rest) (fun ss => Return (s :: ss)))
            end) elems)
        (fun parts => Return (join "," parts))
  | VObj props =>
      match assoc "toString" props with
      | Some _ => Throw (TypeError "Cannot convert object to primitive value")
      | None => Return "[object Object]"
      end
  | _ => Return (ToString_primitive v)
  end.

(** ToPrimitive, as applied by a comparison with a number and by
    [new Date(v)]: an object or an array gives what its string
    conversion gives. *)
Definition ToPrimitive (v : value) : completion value :=
  match v with
  | VArr _ | VObj _ => bind (ToString v) (fun s => Return (VStr s))
  | _ => Return v
  end.

(** A canonical array index: the decimal numeral of a natural number. *)
Definition index_of_key (k : string) : option nat :=
  match NilZero.uint_of_string k with
  | Some u =>
      let n := Nat.of_uint u in
      if (NilZero.string_of_uint (Nat.to_uint n) =? k)%string then Some n else None
  | None => None
  end.

(** [v[k]] and [v.k]: reading a property throws on null and undefined
    and yields undefined when the property does not exist. *)
Definition get (v : value) (k : string) : completion value :=
  match v with
  | VUndefined =>
      Throw (TypeError ("Cannot read properties of undefined (reading '" ++ k ++ "')"))
  | VNull =>
      Throw (TypeError ("Cannot read properties of null (reading '" ++ k ++ "')"))
  | VObj props =>
      Return (match assoc k props with Some x => x | None => VUndefined end)
  | VArr elems =>
      if (k =? "length")%string then Return (VNum (Z.of_nat (List.length elems)))
      else match index_of_key k with
           | Some i => Return (nth i elems VUndefined)
           | None => Return VUndefined
           end
  | VStr s =>
      if (k =? "length")%string then Return (VNum (str_length s))
      else match index_of_key k with
           | Some i =>
               Return (match String.get i s with
                       | Some c => VStr (String c EmptyString)
                       | None => VUndefined
                       end)
           | None => Return VUndefined
           end
  | VBool _ | VNum _ => Return VUndefined
  end.

(** [v?.k] *)
Definition get_opt (v : value) (k : string) : value :=
  match get v k with
  | Return x => x
  | Throw _ => VUndefined
  end.

Definition index_keys (n : nat) : list string :=
  map (fun i => NilZero.string_of_uint (Nat.to_uint i)) (seq 0 n).

(** [Object.keys(v)] *)
Definition Object_keys (v : value) : completion (list string) :=
  match v with
  | VUndefined | VNull =>
      Throw (TypeError "Cannot convert undefined or null to object")
  | VObj props => Return (map fst props)
  | VArr elems => Return (index_keys (List.length elems))
  | VStr s => Return (index_keys (String.length s))
  | VBool _ | VNum _ => Return []
  end.

(** ** Characters *)

Definition is_upper (c : ascii) : bool :=
  let n := nat_of_ascii c in (65 <=? n)%nat && (n <=? 90)%nat.
Definition is_lower (c : ascii) : bool :=
  let n := nat_of_ascii c in (97 <=? n)%nat && (n <=? 122)%nat.
Definition is_digit (c : ascii) : bool :=
  let n := nat_of_ascii c in (48 <=? n)%nat && (n <=? 57)%nat.
Definition to_lower (c : ascii) : ascii :=
  if is_upper c then ascii_of_nat (nat_of_ascii c + 32) else c.
Definition to_upper (c : ascii) : ascii :=
  if is_lower c then ascii_of_nat (nat_of_ascii c - 32) else c.

(** White space and line terminators of the ASCII range. *)
Definition is_space (c : ascii) : bool :=
  let n := nat_of_ascii c in
  (n =? 32)%nat || ((9 <=? n)%nat && (n <=? 13)%nat).

Fixpoint lowercase (s : string) : string :=
  match s with
  | EmptyString => EmptyString
  | String c rest => String (to_lower c) (lowercase rest)
  end.

Fixpoint trim_start (s : string) : string :=
  match s with
  | String c rest => if is_space c then trim_start rest else s
  | EmptyString => EmptyString
  end.

Fixpoint trim_end (s : string) : string :=
  match s with
  | EmptyString => EmptyString
  | String c rest =>
      match trim_end rest with
      | EmptyString => if is_space c then EmptyString else String c EmptyString
      | t => String c t
      end
  end.

(** [s.trim()] *)
Definition trim (s : string) : string := trim_end (trim_start s).

(** ** Numerals *)

Definition digit_value (c : ascii) : Z := Z.of_nat (nat_of_ascii c - 48).

(** The value of the longest prefix of decimal digits, if there is one. *)
Fixpoint digits_prefix (s : string) (acc : option Z) : option Z :=
  match s with
  | String c rest =>
      if is_digit c then
        digits_prefix rest
          (Some (10 * (match acc with Some a => a | None => 0 end) + digit_value c))
      else acc
  | EmptyString => acc
  end.

(** [parseInt(s, 10)]; [None] is NaN. *)
Definition parseInt10 (s : string) : option Z :=
  match trim_start s with
  | String "-" rest => option_map Z.opp (digits_prefix rest None)
  | String "+" rest => digits_prefix rest None
  | t => digits_prefix t None
  end.

(** ** URLSearchParams *)

Definition hex_digit (n : nat) : ascii :=
  if (n <? 10)%nat then ascii_of_nat (48 + n) else ascii_of_nat (55 + n).

(** The application/x-www-form-urlencoded byte serializer. *)
Definition urlencode_char (c : ascii) : string :=
  let n := nat_of_ascii c in
  if is_digit c || is_upper c || is_lower c
     || (n =? 42)%nat || (n =? 45)%nat || (n =? 46)%nat || (n =? 95)%nat
  then String c EmptyString
  else if (n =? 32)%nat then "+"
  else String "%" (String (hex_digit (n / 16)) (String (hex_digit (n mod 16)) EmptyString)).

Fixpoint urlencode (s : string) : string :=
  match s with
  | EmptyString => EmptyString
  | String c rest => urlencode_char c ++ urlencode rest
  end.

Definition URLSearchParams := list (string * string).

(** [params.set(name, value)] *)
Fixpoint URLSearchParams_set (name v : string) (params : URLSearchParams)
  : URLSearchParams :=
  match params with
  | [] => [(name, v)]
  | (n, old) :: rest =>
      if (n =? name)%string
      then (name, v) :: filter (fun p => negb (fst p =? name)%string) rest
      else (n, old) :: URLSearchParams_set name v rest
  end.

(** [String(params)] *)
Definition URLSearchParams_toString (params : URLSearchParams) : string :=
  join "&" (map (fun p => urlencode (fst p) ++ "=" ++ urlencode (snd p)) params).

(** ** JSON.stringify *)

Definition nl : string := String (ascii_of_nat 10) EmptyString.

Definition hex_lower (n : nat) : ascii :=
  if (n <? 10)%nat then ascii_of_nat (48 + n) else ascii_of_nat (87 + n).

Definition escape_char (c : ascii) : string :=
  let n := nat_of_ascii c in
  if (n =? 34)%nat then "\" ++ dq
  else if (n =? 92)%nat then "\\"
  else if (n =? 8)%nat then "\b"
  else if (n =? 9)%nat then "\t"
  else if (n =? 10)%nat then "\n"
  else if (n =? 12)%nat then "\f"
  else if (n =? 13)%nat then "\r"
  else if (n <? 32)%nat then
    "\u00" ++ String (hex_lower (n / 16)) (String (hex_lower (n mod 16)) EmptyString)
  else String c EmptyString.

Fixpoint escape (s : string) : string :=
  match s with
  | EmptyString => EmptyString
  | String c rest => escape_char c ++ escape rest
  end.

Definition quote (s : string) : string := dq ++ escape s ++ dq.

(** The serialization of a value at indentation [indent], each level
    adding [gap]; [None] is the result undefined. *)
Fixpoint serialize (gap indent : string) (v : value) : option string :=
  match v with
  | VUndefined => None
  | VNull => Some "null"
  | VBool true => Some "true"
  | VBool false => Some "false"
  | VNum n => Some (Z_to_string n)
  | VStr s => Some (quote s)
  | VArr elems =>
      let inner := indent ++ gap in
      let parts :=
        map (fun x => match serialize gap inner x with
                      | Some t => t
                      | None => "null"
                      end) elems in
      Some (match parts with
            | [] => "[]"
            | _ =>
                if (gap =? "")%string then "[" ++ join "," parts ++ "]"
                else "[" ++ nl ++ inner ++ join ("," ++ nl ++ inner) parts
                     ++ nl ++ indent ++ "]"
            end)
  | VObj props =>
      let inner := indent ++ gap in
      let parts :=
        flat_map (fun p => match serialize gap inner (snd p) with
                           | Some t =>
                               [quote (fst p)
                                ++ (if (gap =? "")%string then ":" else ": ") ++ t]
                           | None => []
                           end) props in
      Some (match parts with
            | [] => "{}"
            | _ =>
                if (gap =? "")%string then "{" ++ join "," parts ++ "}"
                else "{" ++ nl ++ inner ++ join ("," ++ nl ++ inner) parts
                     ++ nl ++ indent ++ "}"
            end)
  end.

(** [JSON.stringify(v)] and [JSON.stringify(v, null, 2)] *)
Definition JSON_stringify (v : value) : option string := serialize "" "" v.
Definition JSON_stringify_2 (v : value) : option string := serialize "  " "" v.

(** ** btoa *)

Definition base64_digit (n : nat) : ascii :=
  if (n <? 26)%nat then ascii_of_nat (65 + n)
  else if (n <? 52)%nat then ascii_of_nat (71 + n)
  else if (n <? 62)%nat then ascii_of_nat (n - 4)
  else if (n =? 62)%nat then "+"%char
  else "/"%char.

(** [btoa(s)]: the base64 encoding of the code units of [s] *)
Fixpoint btoa (s : string) : string :=
  match s with
  | EmptyString => EmptyString
  | String a EmptyString =>
      let x := nat_of_ascii a in
      String (base64_digit (x / 4)) (String (base64_digit ((x mod 4) * 16)) "==")
  | String a (String b EmptyString) =>
      let x := nat_of_ascii a in
      let y := nat_of_ascii b in
      String (base64_digit (x / 4))
        (String (base64_digit ((x mod 4) * 16 + y / 16))
           (String (base64_digit ((y mod 16) * 4)) "="))
  | String a (String b (String c rest)) =>
      let x := nat_of_ascii a in
      let y := nat_of_ascii b in
      let z := nat_of_ascii c in
      String (base64_digit (x / 4))
        (String (base64_digit ((x mod 4) * 16 + y / 16))
           (String (base64_digit ((y mod 16) * 4 + z / 64))
              (String (base64_digit (z mod 64)) (btoa rest))))
  end.

(** ** Request and response headers *)

Definition Headers := list (string * string).

(** [headers.get(name)]: names compare without regard to case, the
    values of repeated names are combined with a comma and a space, and
    an absent name gives null. *)
Definition Headers_get (headers : Headers) (name : string) : option string :=
  match filter (fun h => (lowercase (fst h) =? lowercase name)%string) headers with
  | [] => None
  | found => Some (join ", " (map snd found))
  end.

End JS.

Import JS.

Notation "x <- c ;; k" := (bind c (fun x => k))
  (at level 61, c at next level, right associativity).

(** ** What the JavaScript engine provides *)

Record Host := {
  (** [JSON.parse(text)]; [None] when it throws a [SyntaxError] *)
  JSON_parse : string -> option value;
  (** the message of the [SyntaxError] that [JSON.parse(text)] throws *)
  JSON_parse_error : string -> string;
  (** [new Date(v).toISOString()] for a primitive [v]; [None] when it
      throws a [RangeError] *)
  Date_toISOString : value -> option string;
  (** [v <= n] for a string [v] *)
  le_number : value -> Z -> bool
}.

Definition parse_json (host : Host) (text : string) : completion value :=
  match JSON_parse host text with
  | Some v => Return v
  | None => Throw (JsError "SyntaxError" (JSON_parse_error host text))
  end.

(** ** Calls to the upstream service

    A computation of type [Eff A] has issued the HTTP requests of its
    first component, in order, and has then returned or thrown. *)

Module Http.

Record HttpRequest := {
  url : string;
  req_method : string;
  req_headers : Headers;
  (** [Some v] is the body [JSON.stringify(v)] *)
  req_body : option value
}.

Record HttpResponse := {
  status : Z;
  resp_headers : Headers;
  resp_body : string
}.

(** [response.ok] *)
Definition ok (response : HttpResponse) : bool :=
  (200 <=? status response) && (status response <=? 299).

(** The upstream service, as seen through the global [fetch]. *)
Definition Upstream := HttpRequest -> completion HttpResponse.

Definition Eff (A : Type) : Type := (list HttpRequest * completion A)%type.

Definition pure {A} (c : completion A) : Eff A := ([], c).

Definition perform (upstream : Upstream) (r : HttpRequest) : Eff HttpResponse :=
  ([r], upstream r).

Definition ebind {A B} (m : Eff A) (k : A -> Eff B) : Eff B :=
  match m with
  | (calls, Return a) => let (calls', c) := k a in ((calls ++ calls')%list, c)
  | (calls, Throw e) => (calls, Throw e)
  end.

(** [try { m } catch (error) { h error }] *)
Definition ecatch {A} (m : Eff A) (h : exn -> Eff A) : Eff A :=
  match m with
  | (calls, Return a) => (calls, Return a)
  | (calls, Throw e) => let (calls', c) := h e in ((calls ++ calls')%list, c)
  end.

Definition calls {A} (m : Eff A) : list HttpRequest := fst m.
Definition result {A} (m : Eff A) : completion A := snd m.

End Http.

Notation "x <-- c ;; k" := (Http.ebind c (fun x => k))
  (at level 61, c at next level, right associativity).

(** ** Tenant credentials ([types/env.ts]) *)

Module Env.

(** [GorgiasCredentials] *)
Record GorgiasCredentials := {
  domain : string;
  email : string;
  apiKey : string
}.

(** [Partial<GorgiasCredentials>]: an unset member is [None]. *)
Record PartialCredentials := {
  p_domain : option string;
  p_email : option string;
  p_apiKey : option string
}.

(** [x || undefined] for [x : string | null] *)
Definition or_undefined (x : option string) : option string :=
  match x with
  | Some s => if (s =? "")%string then None else Some s
  | None => None
  end.

(** [!x] for [x : string | undefined] *)
Definition falsy (x : option string) : bool :=
  match x with
  | Some s => (s =? "")%string
  | None => true
  end.

Definition parseGorgiasCredentials (headers : Headers) : PartialCredentials :=
  {| p_domain := or_undefined (Headers_get headers "X-Gorgias-Domain");
     p_email := or_undefined (Headers_get headers "X-Gorgias-Email");
     p_apiKey := or_undefined (Headers_get headers "X-Gorgias-API-Key") |}.

Definition validateGorgiasCredentials (credentials : PartialCredentials)
  : completion GorgiasCredentials :=
  let missing : list string := [] in
  let missing :=
    if falsy (p_domain credentials) then (missing ++ ["X-Gorgias-Domain"])%list else missing in
  let missing :=
    if falsy (p_email credentials) then (missing ++ ["X-Gorgias-Email"])%list else missing in
  let missing :=
    if falsy (p_apiKey credentials) then (missing ++ ["X-Gorgias-API-Key"])%list else missing in
  if (0 <? List.length missing)%nat then
    Throw (JsError "Error" ("Missing required headers: " ++ join ", " missing))
  else
    Return {| domain := match p_domain credentials with Some s => s | None => "" end;
              email := match p_email credentials with Some s => s | None => "" end;
              apiKey := match p_apiKey credentials with Some s => s | None => "" end |}.

End Env.

(** ** Error classes ([utils/errors.ts]) *)

Module Errors.

(** Modelled from the spec: [utils/errors.ts], which declares the
    classes [GorgiasApiError], [RateLimitError] and
    [AuthenticationError], is not among the sources.  The spec says
    that a rate-limit failure carries a pause and is marked retryable,
    that it is the only retryable failure of the taxonomy, and that it
    is a classified upstream failure like the other two. *)
Definition retryable (e : exn) : bool :=
  match e with
  | RateLimitError _ _ => true
  | _ => false
  end.

(** Modelled from the spec: [error instanceof GorgiasApiError] holds of
    the three classified upstream failures of [utils/errors.ts]. *)
Definition instanceof_GorgiasApiError (e : exn) : bool :=
  match e with
  | GorgiasApiError _ _ | RateLimitError _ _ | AuthenticationError _ => true
  | JsError _ _ | ThrownValue _ => false
  end.

(** [error instanceof Error] *)
Definition instanceof_Error (e : exn) : bool :=
  match e with
  | ThrownValue _ => false
  | _ => true
  end.

(** [error.message] of an [Error] instance; the sources read it of
    such instances only. *)
Definition message (e : exn) : string :=
  match e with
  | JsError _ m => m
  | GorgiasApiError m _ => m
  | RateLimitError m _ => m
  | AuthenticationError m => m
  | ThrownValue _ => ""
  end.

(** Modelled from the spec: the constructor of [GorgiasApiError] is in
    [utils/errors.ts], which is not among the sources.  The spec says
    that a generic upstream failure carries the message or error field
    of the body.  A field that is a string is carried as it is; a field
    that is no string is carried as the text that the inherited
    conversions give it (an object as "[object Object]", an array as its
    elements joined by commas). *)
Fixpoint message_text (v : value) : string :=
  match v with
  | VArr elems =>
      join ","
        (map (fun x => match x with
                       | VUndefined | VNull => ""
                       | _ => message_text x
                       end) elems)
  | VObj _ => "[object Object]"
  | _ => ToString_primitive v
  end.

End Errors.

(** ** The worker entry point ([index.ts]) *)

Module Worker.
Import Env.

Definition SERVER_NAME : string := "primrose-mcp-gorgias".
Definition SERVER_VERSION : string := "1.0.0".

(** The parts of a [Request] that [fetch] reads; [pathname] is
    [new URL(request.url).pathname]. *)
Record Request := {
  pathname : string;
  method : string;
  headers : Headers
}.

(** A response body: [BodyJson v] is the text [JSON.stringify(v)]. *)
Inductive Body :=
| BodyJson (v : value)
| BodyText (s : string).

Record Response := {
  status : Z;
  contentType : option string;
  body : Body
}.

(** What [fetch] does with a request: it answers by itself, or it
    builds the tenant's client and tool catalog with
    [createStatelessServer credentials] and hands the request to the
    protocol runtime, which invokes tools and thereby the upstream. *)
Inductive Outcome :=
| Respond (r : Response)
| ServeMcp (credentials : GorgiasCredentials).

Definition required_headers : list string :=
  ["X-Gorgias-Domain"; "X-Gorgias-Email"; "X-Gorgias-API-Key"].

Definition tool_names : list string :=
  [ "gorgias_test_connection"; "gorgias_get_account"; "gorgias_get_statistics";
    "gorgias_list_tickets"; "gorgias_get_ticket"; "gorgias_create_ticket";
    "gorgias_update_ticket"; "gorgias_delete_ticket"; "gorgias_add_ticket_tags";
    "gorgias_remove_ticket_tags"; "gorgias_list_messages"; "gorgias_get_message";
    "gorgias_create_message"; "gorgias_delete_message"; "gorgias_list_customers";
    "gorgias_get_customer"; "gorgias_create_customer"; "gorgias_update_customer";
    "gorgias_delete_customer"; "gorgias_merge_customers"; "gorgias_list_users";
    "gorgias_get_user"; "gorgias_list_teams"; "gorgias_get_team";
    "gorgias_create_team"; "gorgias_update_team"; "gorgias_delete_team";
    "gorgias_list_tags"; "gorgias_get_tag"; "gorgias_create_tag";
    "gorgias_update_tag"; "gorgias_delete_tag"; "gorgias_merge_tags";
    "gorgias_list_macros"; "gorgias_get_macro"; "gorgias_create_macro";
    "gorgias_update_macro"; "gorgias_delete_macro"; "gorgias_list_rules";
    "gorgias_get_rule"; "gorgias_create_rule"; "gorgias_update_rule";
    "gorgias_delete_rule"; "gorgias_list_integrations"; "gorgias_get_integration";
    "gorgias_create_integration"; "gorgias_update_integration";
    "gorgias_delete_integration"; "gorgias_list_views"; "gorgias_get_view";
    "gorgias_create_view"; "gorgias_update_view"; "gorgias_delete_view";
    "gorgias_list_view_items"; "gorgias_list_satisfaction_surveys";
    "gorgias_get_satisfaction_survey"; "gorgias_create_satisfaction_survey";
    "gorgias_list_custom_fields"; "gorgias_get_custom_field";
    "gorgias_create_custom_field"; "gorgias_update_custom_field";
    "gorgias_list_events"; "gorgias_get_event"; "gorgias_list_jobs";
    "gorgias_get_job"; "gorgias_create_job"; "gorgias_cancel_job";
    "gorgias_list_widgets"; "gorgias_get_widget"; "gorgias_create_widget";
    "gorgias_update_widget"; "gorgias_delete_widget" ].

Definition json_response (code : Z) (v : value) : Response :=
  {| status := code; contentType := Some "application/json"; body := BodyJson v |}.

Definition unauthorized (error : exn) : Response :=
  json_response 401
    (VObj [ ("error", VStr "Unauthorized");
            ("message",
              VStr (if Errors.instanceof_Error error then Errors.message error
                    else "Invalid credentials"));
            ("required_headers", VArr (map VStr required_headers)) ]).

Definition service_info : value :=
  VObj [ ("name", VStr SERVER_NAME);
         ("version", VStr SERVER_VERSION);
         ("description", VStr "Gorgias Helpdesk MCP Server - Multi-tenant");
         ("endpoints",
           VObj [ ("mcp", VStr "/mcp (POST) - Streamable HTTP MCP endpoint");
                  ("health", VStr "/health - Health check") ]);
         ("authentication",
           VObj [ ("description", VStr "Pass tenant credentials via request headers");
                  ("required_headers",
                    VObj [ ("X-Gorgias-Domain",
                             VStr ("Your Gorgias subdomain (e.g., " ++ dq ++ "mycompany"
                                   ++ dq ++ " for mycompany.gorgias.com)"));
                           ("X-Gorgias-Email", VStr "Your Gorgias account email");
                           ("X-Gorgias-API-Key", VStr "Your Gorgias API key") ]) ]);
         ("tools", VArr (map VStr tool_names)) ].

Definition fetch (request : Request) : Outcome :=
  if (pathname request =? "/health")%string then
    Respond (json_response 200
               (VObj [("status", VStr "ok"); ("server", VStr SERVER_NAME)]))
  else if ((pathname request =? "/mcp") && (method request =? "POST"))%string then
    let credentials := parseGorgiasCredentials (headers request) in
    match validateGorgiasCredentials credentials with
    | Throw error => Respond (unauthorized error)
    | Return credentials => ServeMcp credentials
    end
  else if (pathname request =? "/sse")%string then
    Respond {| status := 501; contentType := None;
               body := BodyText
                 "SSE endpoint requires Durable Objects. Enable in wrangler.jsonc." |}
  else
    Respond (json_response 200 service_info).

End Worker.

(** ** The upstream client ([client.ts]): the request path *)

Module Client.
Import Env Http.

Definition getBaseUrl (credentials : GorgiasCredentials) : string :=
  "https://" ++ domain credentials ++ ".gorgias.com/api".

Definition getAuthHeaders (credentials : GorgiasCredentials) : Headers :=
  [ ("Authorization",
      "Basic " ++ btoa (email credentials ++ ":" ++ apiKey credentials));
    ("Content-Type", "application/json") ].

(** [RequestInit], as the client fills it *)
Record RequestInit := {
  init_method : option string;
  init_body : option value
}.

Definition GET : RequestInit := {| init_method := None; init_body := None |}.
Definition DELETE : RequestInit := {| init_method := Some "DELETE"; init_body := None |}.
Definition POST (body : value) : RequestInit :=
  {| init_method := Some "POST"; init_body := Some body |}.
Definition PUT (body : value) : RequestInit :=
  {| init_method := Some "PUT"; init_body := Some body |}.

Definition default_message (code : Z) : string := "API error: " ++ Z_to_string code.

(** What [request] does with the response of [fetch]: the status is
    classified before any body is read. *)
Definition request_outcome (host : Host) (response : HttpResponse) : completion value :=
  if status response =? 429 then
    let retryAfter := Headers_get (resp_headers response) "Retry-After" in
    Throw (RateLimitError "Rate limit exceeded"
             (match retryAfter with
              | Some s => if (s =? "")%string then Some 60 else parseInt10 s
              | None => Some 60
              end))
  else if (status response =? 401) || (status response =? 403) then
    Throw (AuthenticationError "Authentication failed. Check your Gorgias credentials.")
  else if negb (ok response) then
    let errorBody := resp_body response in
    let message := VStr (default_message (status response)) in
    let message :=
      match
        try_catch
          (errorJson <- parse_json host errorBody ;;
           m <- get errorJson "message" ;;
           e <- get errorJson "error" ;;
           Return (or_else (or_else m e) message))
          (fun _ => Return message)
      with
      | Return m => m
      | Throw _ => message
      end in
    Throw (GorgiasApiError (Errors.message_text message) (status response))
  else if status response =? 204 then
    Return VUndefined
  else
    parse_json host (resp_body response).

Section WithTenant.
Variable host : Host.
Variable upstream : Upstream.
Variable credentials : GorgiasCredentials.

Definition request (endpoint : string) (options : RequestInit) : Eff value :=
  let url := getBaseUrl credentials ++ endpoint in
  response <-- perform upstream
                 {| url := url;
                    req_method := match init_method options with
                                  | Some m => m
                                  | None => "GET"
                                  end;
                    req_headers := getAuthHeaders credentials;
                    req_body := init_body options |} ;;
  pure (request_outcome host response).

End WithTenant.

(** ** Mapping functions: wire shape to internal shape *)

Fixpoint mapM {A B} (f : A -> completion B) (l : list A) : completion (list B) :=
  match l with
  | [] => Return []
  | x :: rest => y <- f x ;; ys <- mapM f rest ;; Return (y :: ys)
  end.

(** [arr.map(f)], where [expr] is the text of the expression [arr] *)
Definition array_map (expr : string) (f : value -> completion value) (arr : value)
  : completion value :=
  match arr with
  | VArr elems => l <- mapM f elems ;; Return (VArr l)
  | VUndefined =>
      Throw (TypeError "Cannot read properties of undefined (reading 'map')")
  | VNull =>
      Throw (TypeError "Cannot read properties of null (reading 'map')")
  | _ => Throw (TypeError (expr ++ ".map is not a function"))
  end.

(** The initialiser of a property in the object literal a mapping
    function returns: [raw.wire], or [raw.wire.map(f)]. *)
Inductive init :=
| Read (wire : string)
| ReadMap (wire : string) (f : value -> completion value)
| ReadWith (wire : string) (f : value -> completion value).

Definition wire_of (i : init) : string :=
  match i with
  | Read w => w
  | ReadMap w _ => w
  | ReadWith w _ => w
  end.

Definition eval_init (raw : value) (i : init) : completion value :=
  match i with
  | Read w => get raw w
  | ReadMap w f => arr <- get raw w ;; array_map ("raw." ++ w) f arr
  | ReadWith w f => x <- get raw w ;; f x
  end.

(** The object literal [{ k1: i1, ..., kn: in }] evaluated on [raw],
    property by property. *)
Fixpoint eval_props (raw : value) (props : list (string * init))
  : completion (list (string * value)) :=
  match props with
  | [] => Return []
  | (k, i) :: rest =>
      v <- eval_init raw i ;;
      vs <- eval_props raw rest ;;
      Return ((k, v) :: vs)
  end.

Definition object_literal (raw : value) (props : list (string * init))
  : completion value :=
  fields <- eval_props raw props ;; Return (VObj fields).

(** the arrow function applied to each attachment in [mapMessage] *)
Definition map_attachment_props : list (string * init) :=
  [ ("url", Read "url"); ("name", Read "name"); ("size", Read "size");
    ("contentType", Read "content_type") ].
Definition map_attachment (a : value) : completion value :=
  object_literal a map_attachment_props.

(** the arrow function applied to each channel in [mapCustomer] *)
Definition map_channel_props : list (string * init) :=
  [ ("id", Read "id"); ("type", Read "type"); ("address", Read "address");
    ("preferred", Read "preferred"); ("createdDatetime", Read "created_datetime") ].
Definition map_channel (c : value) : completion value :=
  object_literal c map_channel_props.

Definition mapTicket_props : list (string * init) :=
  [ ("id", Read "id"); ("externalId", Read "external_id"); ("subject", Read "subject");
    ("status", Read "status"); ("priority", Read "priority");
    ("channel", Read "channel"); ("via", Read "via"); ("fromAgent", Read "from_agent");
    ("customer", Read "customer"); ("assigneeUser", Read "assignee_user");
    ("assigneeTeam", Read "assignee_team"); ("messagesCount", Read "messages_count");
    ("isUnread", Read "is_unread"); ("spamStatus", Read "spam");
    ("createdDatetime", Read "created_datetime");
    ("updatedDatetime", Read "updated_datetime");
    ("openedDatetime", Read "opened_datetime");
    ("closedDatetime", Read "closed_datetime");
    ("lastReceivedMessageDatetime", Read "last_received_message_datetime");
    ("lastMessageDatetime", Read "last_message_datetime");
    ("snoozeUntilDatetime", Read "snooze_datetime"); ("tags", Read "tags");
    ("uri", Read "uri") ].
Definition mapTicket (raw : value) : completion value :=
  object_literal raw mapTicket_props.

Definition mapMessage_props : list (string * init) :=
  [ ("id", Read "id"); ("ticketId", Read "ticket_id"); ("channel", Read "channel");
    ("via", Read "via"); ("fromAgent", Read "from_agent"); ("sender", Read "sender");
    ("receiver", Read "receiver"); ("subject", Read "subject");
    ("bodyText", Read "body_text"); ("bodyHtml", Read "body_html");
    ("strippedText", Read "stripped_text"); ("strippedHtml", Read "stripped_html");
    ("publicHtml", Read "public_html");
    ("attachments", ReadMap "attachments" map_attachment); ("actions", Read "actions");
    ("headers", Read "headers"); ("macroId", Read "macro_id");
    ("ruleId", Read "rule_id"); ("integrationsData", Read "integrations");
    ("createdDatetime", Read "created_datetime");
    ("sentDatetime", Read "sent_datetime"); ("failedDatetime", Read "failed_datetime");
    ("openedDatetime", Read "opened_datetime"); ("uri", Read "uri") ].
Definition mapMessage (raw : value) : completion value :=
  object_literal raw mapMessage_props.

Definition mapCustomer_props : list (string * init) :=
  [ ("id", Read "id"); ("externalId", Read "external_id"); ("email", Read "email");
    ("name", Read "name"); ("firstname", Read "firstname");
    ("lastname", Read "lastname"); ("note", Read "note");
    ("language", Read "language"); ("timezone", Read "timezone");
    ("data", Read "data"); ("channels", ReadMap "channels" map_channel);
    ("integrations", Read "integrations"); ("meta", Read "meta");
    ("ticketsCount", Read "tickets_count");
    ("createdDatetime", Read "created_datetime");
    ("updatedDatetime", Read "updated_datetime"); ("uri", Read "uri") ].
Definition mapCustomer (raw : value) : completion value :=
  object_literal raw mapCustomer_props.

Definition mapUser_props : list (string * init) :=
  [ ("id", Read "id"); ("externalId", Read "external_id"); ("email", Read "email");
    ("name", Read "name"); ("firstname", Read "firstname");
    ("lastname", Read "lastname"); ("role", Read "role"); ("bio", Read "bio");
    ("active", Read "active"); ("timezone", Read "timezone");
    ("language", Read "language"); ("country", Read "country"); ("meta", Read "meta");
    ("createdDatetime", Read "created_datetime");
    ("updatedDatetime", Read "updated_datetime"); ("uri", Read "uri") ].
Definition mapUser (raw : value) : completion value :=
  object_literal raw mapUser_props.

Definition mapTeam_props : list (string * init) :=
  [ ("id", Read "id"); ("name", Read "name"); ("description", Read "description");
    ("decoration", Read "decoration"); ("members", Read "members");
    ("createdDatetime", Read "created_datetime"); ("uri", Read "uri") ].
Definition mapTeam (raw : value) : completion value :=
  object_literal raw mapTeam_props.

Definition mapTag_props : list (string * init) :=
  [ ("id", Read "id"); ("name", Read "name"); ("description", Read "description");
    ("decoration", Read "decoration"); ("usage", Read "usage");
    ("createdDatetime", Read "created_datetime");
    ("deletedDatetime", Read "deleted_datetime"); ("uri", Read "uri") ].
Definition mapTag (raw : value) : completion value :=
  object_literal raw mapTag_props.

Definition mapMacro_props : list (string * init) :=
  [ ("id", Read "id"); ("externalId", Read "external_id"); ("name", Read "name");
    ("intent", Read "intent"); ("language", Read "language"); ("usage", Read "usage");
    ("actions", Read "actions"); ("createdDatetime", Read "created_datetime");
    ("updatedDatetime", Read "updated_datetime");
    ("archivedDatetime", Read "archived_datetime"); ("uri", Read "uri") ].
Definition mapMacro (raw : value) : completion value :=
  object_literal raw mapMacro_props.

Definition mapRule_props : list (string * init) :=
  [ ("id", Read "id"); ("name", Read "name"); ("description", Read "description");
    ("code", Read "code"); ("codeAst", Read "code_ast");
    ("eventTypes", Read "event_types"); ("priority", Read "priority");
    ("createdDatetime", Read "created_datetime");
    ("updatedDatetime", Read "updated_datetime");
    ("deactivatedDatetime", Read "deactivated_datetime"); ("uri", Read "uri") ].
Definition mapRule (raw : value) : completion value :=
  object_literal raw mapRule_props.

Definition mapIntegration_props : list (string * init) :=
  [ ("id", Read "id"); ("name", Read "name"); ("type", Read "type");
    ("http", Read "http"); ("createdDatetime", Read "created_datetime");
    ("updatedDatetime", Read "updated_datetime"); ("managed", Read "managed");
    ("businessHoursId", Read "business_hours_id"); ("uri", Read "uri") ].
Definition mapIntegration (raw : value) : completion value :=
  object_literal raw mapIntegration_props.

Definition mapView_props : list (string * init) :=
  [ ("id", Read "id"); ("name", Read "name"); ("slug", Read "slug");
    ("filters", Read "filters"); ("orderBy", Read "order_by");
    ("orderDir", Read "order_dir"); ("visibility", Read "visibility");
    ("fields", Read "fields"); ("decoration", Read "decoration");
    ("createdDatetime", Read "created_datetime");
    ("updatedDatetime", Read "updated_datetime"); ("uri", Read "uri") ].
Definition mapView (raw : value) : completion value :=
  object_literal raw mapView_props.

Definition mapSatisfactionSurvey_props : list (string * init) :=
  [ ("id", Read "id"); ("score", Read "score"); ("bodyText", Read "body_text");
    ("customerId", Read "customer_id"); ("ticketId", Read "ticket_id");
    ("meta", Read "meta"); ("createdDatetime", Read "created_datetime");
    ("sentDatetime", Read "sent_datetime"); ("scoredDatetime", Read "scored_datetime");
    ("shouldSendDatetime", Read "should_send_datetime"); ("uri", Read "uri") ].
Definition mapSatisfactionSurvey (raw : value) : completion value :=
  object_literal raw mapSatisfactionSurvey_props.

Definition mapCustomField_props : list (string * init) :=
  [ ("id", Read "id"); ("externalId", Read "external_id");
    ("objectType", Read "object_type"); ("label", Read "label");
    ("description", Read "description"); ("priority", Read "priority");
    ("required", Read "required"); ("managedType", Read "managed_type");
    ("definition", Read "definition"); ("createdDatetime", Read "created_datetime");
    ("updatedDatetime", Read "updated_datetime");
    ("deactivatedDatetime", Read "deactivated_datetime"); ("uri", Read "uri") ].
Definition mapCustomField (raw : value) : completion value :=
  object_literal raw mapCustomField_props.

Definition mapEvent_props : list (string * init) :=
  [ ("id", Read "id"); ("context", Read "context"); ("type", Read "type");
    ("objectId", Read "object_id"); ("objectType", Read "object_type");
    ("userId", Read "user_id"); ("data", Read "data");
    ("createdDatetime", Read "created_datetime"); ("uri", Read "uri") ].
Definition mapEvent (raw : value) : completion value :=
  object_literal raw mapEvent_props.

Definition mapJob_props : list (string * init) :=
  [ ("id", Read "id"); ("type", Read "type"); ("status", Read "status");
    ("params", Read "params"); ("info", Read "info");
    ("scheduledDatetime", Read "scheduled_datetime");
    ("completedDatetime", Read "completed_datetime");
    ("createdDatetime", Read "created_datetime");
    ("updatedDatetime", Read "updated_datetime"); ("uri", Read "uri") ].
Definition mapJob (raw : value) : completion value :=
  object_literal raw mapJob_props.

Definition mapWidget_props : list (string * init) :=
  [ ("id", Read "id"); ("context", Read "context"); ("template", Read "template");
    ("order", Read "order"); ("integrationId", Read "integration_id");
    ("appId", Read "app_id"); ("createdDatetime", Read "created_datetime");
    ("updatedDatetime", Read "updated_datetime"); ("uri", Read "uri") ].
Definition mapWidget (raw : value) : completion value :=
  object_literal raw mapWidget_props.

(** [{ ...mapTicket(raw), messages: raw.messages.map(mapMessage) }] *)
Definition mapTicketWithMessages_props : list (string * init) :=
  (mapTicket_props ++ [ ("messages", ReadMap "messages" mapMessage) ])%list.
Definition mapTicketWithMessages (raw : value) : completion value :=
  object_literal raw mapTicketWithMessages_props.

(** The object literal that [getAccount] returns for the body [data]. *)
Definition account_props : list (string * init) :=
  [ ("domain", Read "domain"); ("status", Read "status"); ("settings", Read "settings");
    ("createdDatetime", Read "created_datetime");
    ("deactivatedDatetime", Read "deactivated_datetime") ].
Definition account_of (data : value) : completion value :=
  object_literal data account_props.

(** The object literal that [getStatistic] returns for the body [data]. *)
Definition statistic_meta_props : list (string * init) :=
  [ ("startDatetime", Read "start_datetime"); ("endDatetime", Read "end_datetime");
    ("previousStartDatetime", Read "previous_start_datetime");
    ("previousEndDatetime", Read "previous_end_datetime") ].
Definition statistic_props : list (string * init) :=
  [ ("data", Read "data");
    ("meta", ReadWith "meta" (fun meta => object_literal meta statistic_meta_props)) ].
Definition statistic_of (data : value) : completion value :=
  object_literal data statistic_props.

(** ** List parameters *)

Record PaginationParams := {
  limit : option Z;
  cursor : option string
}.

(** [TicketListParams extends PaginationParams] *)
Record TicketListParams := {
  ticket_page : PaginationParams;
  status : option string;
  channel : option string;
  assigneeUserId : option Z;
  assigneeTeamId : option Z;
  customerId : option Z;
  tagIds : option (list Z);
  createdDatetimeAfter : option string;
  createdDatetimeBefore : option string;
  updatedDatetimeAfter : option string;
  updatedDatetimeBefore : option string;
  orderBy : option string
}.

Record MessageListParams := {
  message_page : PaginationParams;
  message_ticketId : option Z
}.

Record CustomerListParams := {
  customer_page : PaginationParams;
  customer_email : option string
}.

Record SurveyListParams := {
  survey_page : PaginationParams;
  survey_ticketId : option Z;
  survey_customerId : option Z
}.

Record CustomFieldListParams := {
  field_objectType : option string
}.

Record EventListParams := {
  event_page : PaginationParams;
  event_objectType : option string;
  event_objectId : option Z;
  event_type : option string
}.

(** [if (params?.x) queryParams.set(name, String(params.x))] for a
    numeric member: unset and zero are falsy. *)
Definition set_number (name : string) (x : option Z) (queryParams : URLSearchParams)
  : URLSearchParams :=
  match x with
  | Some n => if n =? 0 then queryParams
              else URLSearchParams_set name (Z_to_string n) queryParams
  | None => queryParams
  end.

(** [if (params?.x) queryParams.set(name, params.x)] for a string
    member: unset and empty are falsy. *)
Definition set_string (name : string) (x : option string) (queryParams : URLSearchParams)
  : URLSearchParams :=
  match x with
  | Some v => if (v =? "")%string then queryParams
              else URLSearchParams_set name v queryParams
  | None => queryParams
  end.

(** [{ items: data.data.map(mapper), nextCursor: data.meta?.next_cursor }] *)
Definition paginated (mapper : value -> completion value) (data : value)
  : completion value :=
  rows <- get data "data" ;;
  items <- array_map "data.data" mapper rows ;;
  meta <- get data "meta" ;;
  Return (VObj [("items", items); ("nextCursor", get_opt meta "next_cursor")]).

(** [data.data.map(mapper)] *)
Definition mapped (mapper : value -> completion value) (data : value)
  : completion value :=
  rows <- get data "data" ;;
  array_map "data.data" mapper rows.

Section Operations.
Variable host : Host.
Variable upstream : Upstream.
Variable credentials : GorgiasCredentials.

Let request := request host upstream credentials.

Definition listTickets (params : TicketListParams) : Eff value :=
  let queryParams : URLSearchParams := [] in
  let queryParams := set_number "limit" (limit (ticket_page params)) queryParams in
  let queryParams := set_string "cursor" (cursor (ticket_page params)) queryParams in
  let queryParams := set_string "status" (status params) queryParams in
  let queryParams := set_string "channel" (channel params) queryParams in
  let queryParams := set_number "assignee_user_id" (assigneeUserId params) queryParams in
  let queryParams := set_number "assignee_team_id" (assigneeTeamId params) queryParams in
  let queryParams := set_number "customer_id" (customerId params) queryParams in
  let queryParams :=
    set_string "created_datetime_after" (createdDatetimeAfter params) queryParams in
  let queryParams :=
    set_string "created_datetime_before" (createdDatetimeBefore params) queryParams in
  let queryParams :=
    set_string "updated_datetime_after" (updatedDatetimeAfter params) queryParams in
  let queryParams :=
    set_string "updated_datetime_before" (updatedDatetimeBefore params) queryParams in
  let queryParams := set_string "order_by" (orderBy params) queryParams in
  data <-- request ("/tickets?" ++ URLSearchParams_toString queryParams) GET ;;
  pure (paginated mapTicket data).

Definition listMessages (params : MessageListParams) : Eff value :=
  let queryParams : URLSearchParams := [] in
  let queryParams := set_number "limit" (limit (message_page params)) queryParams in
  let queryParams := set_string "cursor" (cursor (message_page params)) queryParams in
  let queryParams := set_number "ticket_id" (message_ticketId params) queryParams in
  data <-- request ("/messages?" ++ URLSearchParams_toString queryParams) GET ;;
  pure (paginated mapMessage data).

Definition listCustomers (params : CustomerListParams) : Eff value :=
  let queryParams : URLSearchParams := [] in
  let queryParams := set_number "limit" (limit (customer_page params)) queryParams in
  let queryParams := set_string "cursor" (cursor (customer_page params)) queryParams in
  let queryParams := set_string "email" (customer_email params) queryParams in
  data <-- request ("/customers?" ++ URLSearchParams_toString queryParams) GET ;;
  pure (paginated mapCustomer data).

Definition listUsers (params : PaginationParams) : Eff value :=
  let queryParams : URLSearchParams := [] in
  let queryParams := set_number "limit" (limit params) queryParams in
  let queryParams := set_string "cursor" (cursor params) queryParams in
  data <-- request ("/users?" ++ URLSearchParams_toString queryParams) GET ;;
  pure (paginated mapUser data).

Definition listTeams : Eff value :=
  data <-- request "/teams" GET ;;
  pure (mapped mapTeam data).

Definition listTags : Eff value :=
  data <-- request "/tags" GET ;;
  pure (mapped mapTag data).

Definition listMacros (params : PaginationParams) : Eff value :=
  let queryParams : URLSearchParams := [] in
  let queryParams := set_number "limit" (limit params) queryParams in
  let queryParams := set_string "cursor" (cursor params) queryParams in
  data <-- request ("/macros?" ++ URLSearchParams_toString queryParams) GET ;;
  pure (paginated mapMacro data).

(** [createMacro(input)], with [input] the members of the body *)
Definition createMacro (name actions intent language : value) : Eff value :=
  let body :=
    VObj [("name", name); ("actions", actions); ("intent", intent);
          ("language", language)] in
  data <-- request "/macros" (POST body) ;;
  pure (mapMacro data).

Definition listRules (params : PaginationParams) : Eff value :=
  let queryParams : URLSearchParams := [] in
  let queryParams := set_number "limit" (limit params) queryParams in
  let queryParams := set_string "cursor" (cursor params) queryParams in
  data <-- request ("/rules?" ++ URLSearchParams_toString queryParams) GET ;;
  pure (paginated mapRule data).

Definition listIntegrations : Eff value :=
  data <-- request "/integrations" GET ;;
  pure (mapped mapIntegration data).

Definition listViews : Eff value :=
  data <-- request "/views" GET ;;
  pure (mapped mapView data).

Definition listViewItems (viewId : Z) (params : PaginationParams) : Eff value :=
  let queryParams : URLSearchParams := [] in
  let queryParams := set_number "limit" (limit params) queryParams in
  let queryParams := set_string "cursor" (cursor params) queryParams in
  data <-- request ("/views/" ++ Z_to_string viewId ++ "/items?"
                    ++ URLSearchParams_toString queryParams) GET ;;
  pure (paginated mapTicket data).

Definition listSatisfactionSurveys (params : SurveyListParams) : Eff value :=
  let queryParams : URLSearchParams := [] in
  let queryParams := set_number "limit" (limit (survey_page params)) queryParams in
  let queryParams := set_string "cursor" (cursor (survey_page params)) queryParams in
  let queryParams := set_number "ticket_id" (survey_ticketId params) queryParams in
  let queryParams := set_number "customer_id" (survey_customerId params) queryParams in
  data <-- request ("/satisfaction-surveys?" ++ URLSearchParams_toString queryParams)
           GET ;;
  pure (paginated mapSatisfactionSurvey data).

Definition listCustomFields (params : CustomFieldListParams) : Eff value :=
  let queryParams : URLSearchParams := [] in
  let queryParams := set_string "object_type" (field_objectType params) queryParams in
  data <-- request ("/custom-fields?" ++ URLSearchParams_toString queryParams) GET ;;
  pure (mapped mapCustomField data).

Definition listEvents (params : EventListParams) : Eff value :=
  let queryParams : URLSearchParams := [] in
  let queryParams := set_number "limit" (limit (event_page params)) queryParams in
  let queryParams := set_string "cursor" (cursor (event_page params)) queryParams in
  let queryParams := set_string "object_type" (event_objectType params) queryParams in
  let queryParams := set_number "object_id" (event_objectId params) queryParams in
  let queryParams := set_string "type" (event_type params) queryParams in
  data <-- request ("/events?" ++ URLSearchParams_toString queryParams) GET ;;
  pure (paginated mapEvent data).

Definition listJobs (params : PaginationParams) : Eff value :=
  let queryParams : URLSearchParams := [] in
  let queryParams := set_number "limit" (limit params) queryParams in
  let queryParams := set_string "cursor" (cursor params) queryParams in
  data <-- request ("/jobs?" ++ URLSearchParams_toString queryParams) GET ;;
  pure (paginated mapJob data).

Definition listWidgets : Eff value :=
  data <-- request "/widgets" GET ;;
  pure (mapped mapWidget data).

End Operations.

End Client.

(** ** Pagination helpers ([utils/pagination.ts]) *)

Module Pagination.
Import Client.

Definition PAGINATION_DEFAULTS_limit : Z := 20.
Definition PAGINATION_DEFAULTS_maxLimit : Z := 100.

(** [params?.limit || PAGINATION_DEFAULTS.limit] *)
Definition limit_or_default (params : PaginationParams) : Z :=
  match limit params with
  | Some n => if n =? 0 then PAGINATION_DEFAULTS_limit else n
  | None => PAGINATION_DEFAULTS_limit
  end.

Definition normalizePaginationParams (params : PaginationParams) (maxLimit : Z)
  : PaginationParams :=
  {| limit := Some (Z.min (limit_or_default params) maxLimit);
     cursor := cursor params |}.

End Pagination.

(** ** The response formatter ([utils/formatters.ts]) *)

Module Formatters.

(** [ToolResponse]: the texts of the content items, and [isError].
    A text is [None] when the source stores undefined there. *)
Record ToolResponse := {
  content : list (option string);
  isError : option bool
}.

Inductive ResponseFormat := json | markdown.

Definition capitalize (str : string) : string :=
  match str with
  | EmptyString => EmptyString
  | String c rest => String (to_upper c) rest
  end.

(** [key.replace(/([A-Z])/g, ' $1')] *)
Fixpoint space_capitals (key : string) : string :=
  match key with
  | EmptyString => EmptyString
  | String c rest =>
      if is_upper c then String " " (String c (space_capitals rest))
      else String c (space_capitals rest)
  end.

(** [s.replace(/^./, (str) => str.toUpperCase())]: the dot matches any
    character but a line terminator. *)
Definition upper_first (s : string) : string :=
  match s with
  | EmptyString => EmptyString
  | String c rest =>
      if ((nat_of_ascii c =? 10) || (nat_of_ascii c =? 13))%nat then s
      else String (to_upper c) rest
  end.

Definition formatKey (key : string) : string :=
  trim (upper_first (space_capitals key)).

(** [s.replace(/s$/, '')] *)
Fixpoint drop_final_s (s : string) : string :=
  match s with
  | EmptyString => EmptyString
  | String c EmptyString => if (nat_of_ascii c =? 115)%nat then EmptyString else s
  | String c rest => String c (drop_final_s rest)
  end.

(** [s.split('T')[0]] *)
Fixpoint before_T (s : string) : string :=
  match s with
  | EmptyString => EmptyString
  | String c rest =>
      if (nat_of_ascii c =? 84)%nat then EmptyString else String c (before_T rest)
  end.

Section WithHost.
Variable host : Host.

(** [v <= n]: an array or an object is first converted to a
    primitive, which throws when its string conversion does. *)
Definition le (v : value) (n : Z) : completion bool :=
  match v with
  | VNum m => Return (m <=? n)
  | VUndefined => Return false
  | VNull => Return (0 <=? n)
  | VBool true => Return (1 <=? n)
  | VBool false => Return (0 <=? n)
  | VStr _ => Return (le_number host v n)
  | VArr _ | VObj _ => p <- ToPrimitive v ;; Return (le_number host p n)
  end.

Definition truncate (str : value) (maxLength : Z) : completion value :=
  len <- get str "length" ;;
  fits <- le len maxLength ;;
  if fits then Return str
  else match str with
       | VStr s => Return (VStr (substring 0 (Z.to_nat (maxLength - 3)) s ++ "..."))
       | _ => Throw (TypeError "str.substring is not a function")
       end.

(** [new Date(dateString)] converts an object or an array to a
    primitive first; what that conversion or [toISOString] throws is
    caught. *)
Definition formatDate (dateString : value) : value :=
  if negb (truthy dateString) then VStr "-"
  else match ToPrimitive dateString with
       | Return p =>
           match Date_toISOString host p with
           | Some iso => VStr (before_T iso)
           | None => dateString
           end
       | Throw _ => dateString
       end.

(** [x ? truncate(x, n) : '-'] *)
Definition truncated (x : value) (n : Z) : completion value :=
  if truthy x then truncate x n else Return (VStr "-").

(** [`| ${c1} | ... | ${cn} |`]: the cells are converted to strings from
    left to right. *)
Definition row (cells : list value) : completion string :=
  texts <- Client.mapM ToString cells ;;
  Return ("| " ++ join " | " texts ++ " |").

Definition yes_no (x : value) : value :=
  if truthy x then VStr "Yes" else VStr "No".

(** [x.name || `${x.firstname || ''} ${x.lastname || ''}`.trim() || '-']:
    the template is evaluated when the name is falsy. *)
Definition display_name (name firstname lastname : value) : completion value :=
  if truthy name then Return name
  else
    first <- ToString (or_else firstname (VStr "")) ;;
    last <- ToString (or_else lastname (VStr "")) ;;
    Return (or_else (VStr (trim (first ++ " " ++ last))) (VStr "-")).

(** A table: the two header lines, then one line per item. *)
Definition table (header rule : string) (line : value -> completion string)
           (items : list value) : completion string :=
  lines <- Client.mapM line items ;;
  Return (join nl (header :: rule :: lines)).

Definition formatTicketsTable : list value -> completion string :=
  table "| ID | Subject | Status | Priority | Channel | Customer | Created |"
        "|---|---|---|---|---|---|---|"
    (fun ticket =>
       c <- get ticket "customer" ;;
       let customer :=
         or_else (or_else (get_opt c "email") (get_opt c "name")) (VStr "-") in
       s <- get ticket "subject" ;;
       subject <- truncated s 40 ;;
       d <- get ticket "createdDatetime" ;;
       let created := formatDate d in
       id <- get ticket "id" ;;
       status <- get ticket "status" ;;
       priority <- get ticket "priority" ;;
       channel <- get ticket "channel" ;;
       row [id; subject; status; or_else priority (VStr "-"); channel; customer; created]).

Definition formatMessagesTable : list value -> completion string :=
  table "| ID | Ticket | Channel | From Agent | Sender | Created |"
        "|---|---|---|---|---|---|"
    (fun message =>
       s <- get message "sender" ;;
       let sender :=
         or_else (or_else (get_opt s "email") (get_opt s "name")) (VStr "-") in
       d <- get message "createdDatetime" ;;
       let created := formatDate d in
       id <- get message "id" ;;
       ticketId <- get message "ticketId" ;;
       channel <- get message "channel" ;;
       fromAgent <- get message "fromAgent" ;;
       row [id; ticketId; channel; yes_no fromAgent; sender; created]).

Definition formatCustomersTable : list value -> completion string :=
  table "| ID | Name | Email | Language | Tickets | Created |"
        "|---|---|---|---|---|---|"
    (fun customer =>
       n <- get customer "name" ;;
       f <- get customer "firstname" ;;
       l <- get customer "lastname" ;;
       name <- display_name n f l ;;
       d <- get customer "createdDatetime" ;;
       let created := formatDate d in
       id <- get customer "id" ;;
       email <- get customer "email" ;;
       language <- get customer "language" ;;
       ticketsCount <- get customer "ticketsCount" ;;
       row [id; name; or_else email (VStr "-"); or_else language (VStr "-");
            ticketsCount; created]).

Definition formatUsersTable : list value -> completion string :=
  table "| ID | Name | Email | Role | Active | Created |"
        "|---|---|---|---|---|---|"
    (fun user =>
       n <- get user "name" ;;
       f <- get user "firstname" ;;
       l <- get user "lastname" ;;
       name <- display_name n f l ;;
       d <- get user "createdDatetime" ;;
       let created := formatDate d in
       id <- get user "id" ;;
       email <- get user "email" ;;
       role <- get user "role" ;;
       active <- get user "active" ;;
       row [id; name; email; or_else (get_opt role "name") (VStr "-");
            yes_no active; created]).

Definition formatTeamsTable : list value -> completion string :=
  table "| ID | Name | Description | Members | Created |"
        "|---|---|---|---|---|"
    (fun team =>
       x <- get team "description" ;;
       description <- truncated x 30 ;;
       d <- get team "createdDatetime" ;;
       let created := formatDate d in
       id <- get team "id" ;;
       name <- get team "name" ;;
       members <- get team "members" ;;
       row [id; name; description; or_else (get_opt members "length") (VNum 0);
            created]).

Definition formatTagsTable : list value -> completion string :=
  table "| ID | Name | Description | Usage | Created |"
        "|---|---|---|---|---|"
    (fun tag =>
       x <- get tag "description" ;;
       description <- truncated x 30 ;;
       d <- get tag "createdDatetime" ;;
       let created := formatDate d in
       id <- get tag "id" ;;
       name <- get tag "name" ;;
       usage <- get tag "usage" ;;
       row [id; name; description; usage; created]).

Definition formatMacrosTable : list value -> completion string :=
  table "| ID | Name | Intent | Language | Usage | Created |"
        "|---|---|---|---|---|---|"
    (fun macro =>
       d <- get macro "createdDatetime" ;;
       let created := formatDate d in
       id <- get macro "id" ;;
       name <- get macro "name" ;;
       intent <- get macro "intent" ;;
       language <- get macro "language" ;;
       usage <- get macro "usage" ;;
       row [id; name; or_else intent (VStr "-"); or_else language (VStr "-");
            usage; created]).

Definition formatRulesTable : list value -> completion string :=
  table "| ID | Name | Event Types | Priority | Active | Created |"
        "|---|---|---|---|---|---|"
    (fun rule =>
       x <- get rule "deactivatedDatetime" ;;
       let active := if truthy x then VStr "No" else VStr "Yes" in
       d <- get rule "createdDatetime" ;;
       let created := formatDate d in
       id <- get rule "id" ;;
       name <- get rule "name" ;;
       eventTypes <- get rule "eventTypes" ;;
       priority <- get rule "priority" ;;
       row [id; name; eventTypes; priority; active; created]).

Definition formatSatisfactionSurveysTable : list value -> completion string :=
  table "| ID | Score | Ticket | Customer | Scored At | Created |"
        "|---|---|---|---|---|---|"
    (fun survey =>
       x <- get survey "score" ;;
       score <- match x with
                | VNull => Return "-"
                | _ => ToString x
                end ;;
       y <- get survey "scoredDatetime" ;;
       let scoredAt := if truthy y then formatDate y else VStr "-" in
       d <- get survey "createdDatetime" ;;
       let created := formatDate d in
       id <- get survey "id" ;;
       ticketId <- get survey "ticketId" ;;
       customerId <- get survey "customerId" ;;
       row [id; VStr score; ticketId; customerId; scoredAt; created]).

Definition formatGenericTable (items : list value) : completion string :=
  match items with
  | [] => Return "_No items_"
  | first :: _ =>
      all_keys <- Object_keys first ;;
      let keys := firstn 5 all_keys in
      let header := "| " ++ join " | " keys ++ " |" in
      let rule := "|" ++ join "|" (map (fun _ => "---") keys) ++ "|" in
      lines <- Client.mapM
                 (fun record =>
                    values <- Client.mapM
                                (fun k =>
                                   x <- get record k ;;
                                   ToString (coalesce x (VStr "-")))
                                keys ;;
                    Return ("| " ++ join " | " values ++ " |"))
                 items ;;
      Return (join nl (header :: rule :: lines))
  end.

Definition formatArrayAsMarkdown (data : list value) (_entityType : string)
  : completion string :=
  formatGenericTable data.

(** [data] is the list of the object's own properties; a value that
    is neither null nor undefined and for which [typeof] does not give
    'object' is a primitive. *)
Definition formatObjectAsMarkdown (data : list (string * value)) (entityType : string)
  : string :=
  let lines := ["## " ++ capitalize (drop_final_s entityType); ""] in
  let entries :=
    flat_map
      (fun entry =>
         let key := fst entry in
         let value := snd entry in
         match value with
         | VNull | VUndefined => []
         | VArr _ | VObj _ =>
             [ "**" ++ formatKey key ++ ":**";
               "```json";
               match JSON_stringify_2 value with Some t => t | None => "" end;
               "```" ]
         | VBool _ | VNum _ | VStr _ =>
             [ "**" ++ formatKey key ++ ":** " ++ ToString_primitive value ]
         end)
      data in
  join nl (app lines entries).

Definition isPaginatedResponse (data : value) : bool :=
  match data with
  | VObj props =>
      match assoc "items" props with
      | Some (VArr _) => true
      | _ => false
      end
  | _ => false
  end.

(** [items] is [data.items], an array by [isPaginatedResponse], and
    [nextCursor] is [data.nextCursor]. *)
Definition formatPaginatedAsMarkdown (items : list value) (nextCursor : value)
           (entityType : string) : completion string :=
  let lines :=
    [ "## " ++ capitalize entityType;
      "";
      "**Showing:** " ++ Z_to_string (Z.of_nat (List.length items)) ++ " items" ] in
  lines <-
    (if truthy nextCursor then
       c <- ToString nextCursor ;;
       Return (app lines ["**More available:** Yes (cursor: `" ++ c ++ "`)"])
     else Return lines) ;;
  let lines := app lines [""] in
  if (List.length items =? 0)%nat then
    Return (join nl (app lines ["_No items found._"]))
  else
    body <-
      (if (entityType =? "tickets")%string then formatTicketsTable items
       else if (entityType =? "messages")%string then formatMessagesTable items
       else if (entityType =? "customers")%string then formatCustomersTable items
       else if (entityType =? "users")%string then formatUsersTable items
       else if (entityType =? "teams")%string then formatTeamsTable items
       else if (entityType =? "tags")%string then formatTagsTable items
       else if (entityType =? "macros")%string then formatMacrosTable items
       else if (entityType =? "rules")%string then formatRulesTable items
       else if (entityType =? "satisfaction_surveys")%string
            then formatSatisfactionSurveysTable items
       else formatGenericTable items) ;;
    Return (join nl (app lines [body])).

Definition formatAsMarkdown (data : value) (entityType : string) : completion string :=
  if isPaginatedResponse data then
    formatPaginatedAsMarkdown
      (match get_opt data "items" with VArr items => items | _ => [] end)
      (get_opt data "nextCursor") entityType
  else
    match data with
    | VArr elems => formatArrayAsMarkdown elems entityType
    | VObj props => Return (formatObjectAsMarkdown props entityType)
    | _ => ToString data
    end.

Definition formatResponse (data : value) (format : ResponseFormat) (entityType : string)
  : completion ToolResponse :=
  match format with
  | markdown =>
      text <- formatAsMarkdown data entityType ;;
      Return {| content := [Some text]; isError := None |}
  | json =>
      Return {| content := [JSON_stringify_2 data]; isError := None |}
  end.

(** [formatErrorForLogging] of [utils/errors.ts], which is not among
    the sources, is a parameter of the formatter. *)
Variable formatErrorForLogging : exn -> value.

Definition formatError (error : exn) : ToolResponse :=
  let errorInfo := formatErrorForLogging error in
  let message :=
    if Errors.instanceof_GorgiasApiError error then
      "Error: " ++ Errors.message error
      ++ (if Errors.retryable error then " (retryable)" else "")
    else if Errors.instanceof_Error error then
      "Error: " ++ Errors.message error
    else
      "Error: " ++ match error with ThrownValue text => text | _ => "" end in
  {| content :=
       [JSON_stringify_2 (VObj [("error", VStr message); ("details", errorInfo)])];
     isError := Some true |}.

End WithHost.

End Formatters.

(** ** Input schemas of the tools (zod) *)

Module Zod.

(** The outcome of parsing one argument: a value, or an issue with the
    path and the code zod reports.  Only the first issue is kept. *)
Inductive parsed (A : Type) : Type :=
| Valid (a : A)
| Invalid (path code : string).
Arguments Valid {A} a.
Arguments Invalid {A} path code.

Definition andThen {A B} (p : parsed A) (k : A -> parsed B) : parsed B :=
  match p with
  | Valid a => k a
  | Invalid path code => Invalid path code
  end.

(** [z.number().int().min(lo).max(hi).default(d)] *)
Definition number_int_min_max_default (lo hi d : Z) (path : string) (v : value)
  : parsed Z :=
  match v with
  | VUndefined => Valid d
  | VNum n =>
      if n <? lo then Invalid path "too_small"
      else if hi <? n then Invalid path "too_big"
      else Valid n
  | _ => Invalid path "invalid_type"
  end.

(** [z.number().int()] *)
Definition number_int (path : string) (v : value) : parsed Z :=
  match v with
  | VNum n => Valid n
  | _ => Invalid path "invalid_type"
  end.

(** [z.number().int().optional()] *)
Definition number_int_optional (path : string) (v : value) : parsed (option Z) :=
  match v with
  | VUndefined => Valid None
  | VNum n => Valid (Some n)
  | _ => Invalid path "invalid_type"
  end.

(** [z.string()] *)
Definition string_required (path : string) (v : value) : parsed string :=
  match v with
  | VStr s => Valid s
  | _ => Invalid path "invalid_type"
  end.

(** [z.string().optional()] *)
Definition string_optional (path : string) (v : value) : parsed (option string) :=
  match v with
  | VUndefined => Valid None
  | VStr s => Valid (Some s)
  | _ => Invalid path "invalid_type"
  end.

(** [z.enum(options).optional()] *)
Definition enum_optional (options : list string) (path : string) (v : value)
  : parsed (option string) :=
  match v with
  | VUndefined => Valid None
  | VStr s =>
      if existsb (String.eqb s) options then Valid (Some s)
      else Invalid path "invalid_enum_value"
  | _ => Invalid path "invalid_type"
  end.

(** [z.enum(['json', 'markdown']).default('json')] *)
Definition format_default_json (path : string) (v : value)
  : parsed Formatters.ResponseFormat :=
  match v with
  | VUndefined => Valid Formatters.json
  | VStr s =>
      if (s =? "json")%string then Valid Formatters.json
      else if (s =? "markdown")%string then Valid Formatters.markdown
      else Invalid path "invalid_enum_value"
  | _ => Invalid path "invalid_type"
  end.

(** The arguments of a tool call are an object. *)
Definition object (args : value) : parsed value :=
  match args with
  | VObj _ => Valid args
  | _ => Invalid "" "invalid_type"
  end.

(** The member [name] of the arguments, parsed by [schema]. *)
Definition member {A} (schema : string -> value -> parsed A) (args : value) (name : string)
  : parsed A :=
  schema name (get_opt args name).

(** [limit: z.number().int().min(1).max(100).default(20)] *)
Definition limit (args : value) : parsed Z :=
  member (number_int_min_max_default 1 100 20) args "limit".

End Zod.

Notation "x <~ c ;; k" := (Zod.andThen c (fun x => k))
  (at level 61, c at next level, right associativity).

(** ** The tool handlers ([tools/]) *)

Module Tools.
Import Http Client Formatters.

(** What a tool call comes to: the protocol runtime refuses arguments
    that do not parse against the tool's schema, without running the
    handler; otherwise the handler completes. *)
Inductive CallResult :=
| InvalidParams (path code : string)
| Completed (r : completion ToolResponse).

Definition call {A} (schema : value -> Zod.parsed A) (handler : A -> Eff ToolResponse)
           (args : value) : list HttpRequest * CallResult :=
  match schema args with
  | Zod.Invalid path code => ([], InvalidParams path code)
  | Zod.Valid a => let (issued, r) := handler a in (issued, Completed r)
  end.

Definition of_option (x : option string) : value :=
  match x with
  | Some s => VStr s
  | None => VUndefined
  end.

Section WithClient.
Variable host : Host.
Variable formatErrorForLogging : exn -> value.
Variable upstream : Upstream.
Variable credentials : Env.GorgiasCredentials.

(** [try { body } catch (error) { return formatError(error); }] *)
Definition guarded (body : Eff ToolResponse) : Eff ToolResponse :=
  ecatch body (fun error => pure (Return (formatError formatErrorForLogging error))).

Definition page (limit : Z) (cursor : option string) : PaginationParams :=
  {| limit := Some limit; cursor := cursor |}.

Definition gorgias_list_tickets : value -> list HttpRequest * CallResult :=
  call
    (fun args =>
       _ <~ Zod.object args ;;
       limit <~ Zod.limit args ;;
       cursor <~ Zod.member Zod.string_optional args "cursor" ;;
       status <~ Zod.member (Zod.enum_optional ["open"; "closed"]) args "status" ;;
       assigneeUserId <~ Zod.member Zod.number_int_optional args "assigneeUserId" ;;
       assigneeTeamId <~ Zod.member Zod.number_int_optional args "assigneeTeamId" ;;
       customerId <~ Zod.member Zod.number_int_optional args "customerId" ;;
       channel <~ Zod.member Zod.string_optional args "channel" ;;
       format <~ Zod.member Zod.format_default_json args "format" ;;
       Zod.Valid
         ({| ticket_page := page limit cursor;
             status := status;
             channel := channel;
             assigneeUserId := assigneeUserId;
             assigneeTeamId := assigneeTeamId;
             customerId := customerId;
             tagIds := None;
             createdDatetimeAfter := None;
             createdDatetimeBefore := None;
             updatedDatetimeAfter := None;
             updatedDatetimeBefore := None;
             orderBy := None |}, format))
    (fun a =>
       guarded
         (result <-- listTickets host upstream credentials (fst a) ;;
          pure (formatResponse host result (snd a) "tickets"))).

Definition gorgias_list_messages : value -> list HttpRequest * CallResult :=
  call
    (fun args =>
       _ <~ Zod.object args ;;
       limit <~ Zod.limit args ;;
       cursor <~ Zod.member Zod.string_optional args "cursor" ;;
       ticketId <~ Zod.member Zod.number_int_optional args "ticketId" ;;
       format <~ Zod.member Zod.format_default_json args "format" ;;
       Zod.Valid
         ({| message_page := page limit cursor; message_ticketId := ticketId |}, format))
    (fun a =>
       guarded
         (result <-- listMessages host upstream credentials (fst a) ;;
          pure (formatResponse host result (snd a) "messages"))).

Definition gorgias_list_customers : value -> list HttpRequest * CallResult :=
  call
    (fun args =>
       _ <~ Zod.object args ;;
       limit <~ Zod.limit args ;;
       cursor <~ Zod.member Zod.string_optional args "cursor" ;;
       email <~ Zod.member Zod.string_optional args "email" ;;
       format <~ Zod.member Zod.format_default_json args "format" ;;
       Zod.Valid
         ({| customer_page := page limit cursor; customer_email := email |}, format))
    (fun a =>
       guarded
         (result <-- listCustomers host upstream credentials (fst a) ;;
          pure (formatResponse host result (snd a) "customers"))).

(** The schema shared by the tools that take [limit], [cursor] and
    [format] only. *)
Definition page_schema (args : value) : Zod.parsed (PaginationParams * ResponseFormat) :=
  _ <~ Zod.object args ;;
  limit <~ Zod.limit args ;;
  cursor <~ Zod.member Zod.string_optional args "cursor" ;;
  format <~ Zod.member Zod.format_default_json args "format" ;;
  Zod.Valid (page limit cursor, format).

Definition gorgias_list_users : value -> list HttpRequest * CallResult :=
  call page_schema
    (fun a =>
       guarded
         (result <-- listUsers host upstream credentials (fst a) ;;
          pure (formatResponse host result (snd a) "users"))).

Definition gorgias_list_macros : value -> list HttpRequest * CallResult :=
  call page_schema
    (fun a =>
       guarded
         (result <-- listMacros host upstream credentials (fst a) ;;
          pure (formatResponse host result (snd a) "macros"))).

Definition gorgias_list_rules : value -> list HttpRequest * CallResult :=
  call page_schema
    (fun a =>
       guarded
         (result <-- listRules host upstream credentials (fst a) ;;
          pure (formatResponse host result (snd a) "rules"))).

Definition gorgias_list_jobs : value -> list HttpRequest * CallResult :=
  call page_schema
    (fun a =>
       guarded
         (result <-- listJobs host upstream credentials (fst a) ;;
          pure (formatResponse host result (snd a) "jobs"))).

Definition gorgias_list_view_items : value -> list HttpRequest * CallResult :=
  call
    (fun args =>
       _ <~ Zod.object args ;;
       viewId <~ Zod.member Zod.number_int args "viewId" ;;
       limit <~ Zod.limit args ;;
       cursor <~ Zod.member Zod.string_optional args "cursor" ;;
       format <~ Zod.member Zod.format_default_json args "format" ;;
       Zod.Valid (viewId, page limit cursor, format))
    (fun a =>
       guarded
         (result <-- listViewItems host upstream credentials (fst (fst a)) (snd (fst a)) ;;
          pure (formatResponse host result (snd a) "tickets"))).

Definition gorgias_list_satisfaction_surveys : value -> list HttpRequest * CallResult :=
  call
    (fun args =>
       _ <~ Zod.object args ;;
       limit <~ Zod.limit args ;;
       cursor <~ Zod.member Zod.string_optional args "cursor" ;;
       ticketId <~ Zod.member Zod.number_int_optional args "ticketId" ;;
       customerId <~ Zod.member Zod.number_int_optional args "customerId" ;;
       format <~ Zod.member Zod.format_default_json args "format" ;;
       Zod.Valid
         ({| survey_page := page limit cursor;
             survey_ticketId := ticketId;
             survey_customerId := customerId |}, format))
    (fun a =>
       guarded
         (result <-- listSatisfactionSurveys host upstream credentials (fst a) ;;
          pure (formatResponse host result (snd a) "satisfaction_surveys"))).

Definition gorgias_list_events : value -> list HttpRequest * CallResult :=
  call
    (fun args =>
       _ <~ Zod.object args ;;
       limit <~ Zod.limit args ;;
       cursor <~ Zod.member Zod.string_optional args "cursor" ;;
       objectType <~ Zod.member Zod.string_optional args "objectType" ;;
       objectId <~ Zod.member Zod.number_int_optional args "objectId" ;;
       type <~ Zod.member Zod.string_optional args "type" ;;
       format <~ Zod.member Zod.format_default_json args "format" ;;
       Zod.Valid
         ({| event_page := page limit cursor;
             event_objectType := objectType;
             event_objectId := objectId;
             event_type := type |}, format))
    (fun a =>
       guarded
         (result <-- listEvents host upstream credentials (fst a) ;;
          pure (formatResponse host result (snd a) "events"))).

(** The schema of the list tools that take [format] only. *)
Definition format_schema (args : value) : Zod.parsed ResponseFormat :=
  _ <~ Zod.object args ;;
  format <~ Zod.member Zod.format_default_json args "format" ;;
  Zod.Valid format.

Definition gorgias_list_teams : value -> list HttpRequest * CallResult :=
  call format_schema
    (fun format =>
       guarded
         (teams <-- listTeams host upstream credentials ;;
          pure (formatResponse host (VObj [("items", teams)]) format "teams"))).

Definition gorgias_list_tags : value -> list HttpRequest * CallResult :=
  call format_schema
    (fun format =>
       guarded
         (tags <-- listTags host upstream credentials ;;
          pure (formatResponse host (VObj [("items", tags)]) format "tags"))).

Definition gorgias_list_integrations : value -> list HttpRequest * CallResult :=
  call format_schema
    (fun format =>
       guarded
         (integrations <-- listIntegrations host upstream credentials ;;
          pure (formatResponse host (VObj [("items", integrations)]) format
                  "integrations"))).

Definition gorgias_list_views : value -> list HttpRequest * CallResult :=
  call format_schema
    (fun format =>
       guarded
         (views <-- listViews host upstream credentials ;;
          pure (formatResponse host (VObj [("items", views)]) format "views"))).

Definition gorgias_list_custom_fields : value -> list HttpRequest * CallResult :=
  call
    (fun args =>
       _ <~ Zod.object args ;;
       objectType <~
         Zod.member (Zod.enum_optional ["ticket"; "customer"]) args "objectType" ;;
       format <~ Zod.member Zod.format_default_json args "format" ;;
       Zod.Valid ({| field_objectType := objectType |}, format))
    (fun a =>
       guarded
         (customFields <-- listCustomFields host upstream credentials (fst a) ;;
          pure (formatResponse host (VObj [("items", customFields)]) (snd a)
                  "custom_fields"))).

Definition gorgias_list_widgets : value -> list HttpRequest * CallResult :=
  call format_schema
    (fun format =>
       guarded
         (widgets <-- listWidgets host upstream credentials ;;
          pure (formatResponse host (VObj [("items", widgets)]) format "widgets"))).

(** The arguments of [gorgias_create_macro] *)
Record CreateMacroArgs := {
  arg_name : string;
  arg_actionsJson : string;
  arg_intent : option string;
  arg_language : option string
}.

Definition create_macro_schema (args : value) : Zod.parsed CreateMacroArgs :=
  _ <~ Zod.object args ;;
  name <~ Zod.member Zod.string_required args "name" ;;
  actionsJson <~ Zod.member Zod.string_required args "actionsJson" ;;
  intent <~ Zod.member Zod.string_optional args "intent" ;;
  language <~ Zod.member Zod.string_optional args "language" ;;
  Zod.Valid {| arg_name := name; arg_actionsJson := actionsJson;
               arg_intent := intent; arg_language := language |}.

Definition create_macro_handler (a : CreateMacroArgs) : Eff ToolResponse :=
  guarded
    (actions <-- pure (parse_json host (arg_actionsJson a)) ;;
     macro <-- createMacro host upstream credentials
                 (VStr (arg_name a)) actions
                 (of_option (arg_intent a)) (of_option (arg_language a)) ;;
     pure (Return
             {| content :=
                  [JSON_stringify_2
                     (VObj [("success", VBool true);
                            ("message", VStr "Macro created");
                            ("macro", macro)])];
                isError := None |})).

Definition gorgias_create_macro : value -> list HttpRequest * CallResult :=
  call create_macro_schema create_macro_handler.

End WithClient.

End Tools.

(** ** A host for the examples

    [Sample.host] reads the JSON texts whose numbers are integers and
    that use no \u escape, and renders the timestamps written as
    YYYY-MM-DDTHH:MM:SSZ. *)

Module Sample.

Definition is_json_space (c : ascii) : bool :=
  let n := nat_of_ascii c in
  ((n =? 32) || (n =? 9) || (n =? 10) || (n =? 13))%nat.

Fixpoint skip_ws (s : string) : string :=
  match s with
  | String c rest => if is_json_space c then skip_ws rest else s
  | EmptyString => EmptyString
  end.

Definition unescape (c : ascii) : option ascii :=
  let n := nat_of_ascii c in
  if ((n =? 34) || (n =? 92) || (n =? 47))%nat then Some c
  else if (n =? 98)%nat then Some (ascii_of_nat 8)
  else if (n =? 102)%nat then Some (ascii_of_nat 12)
  else if (n =? 110)%nat then Some (ascii_of_nat 10)
  else if (n =? 114)%nat then Some (ascii_of_nat 13)
  else if (n =? 116)%nat then Some (ascii_of_nat 9)
  else None.

(** The characters of a string literal after its opening quote, and the
    text after its closing quote. *)
Fixpoint read_string (s : string) : option (string * string) :=
  match s with
  | EmptyString => None
  | String c rest =>
      let n := nat_of_ascii c in
      if (n =? 34)%nat then Some (EmptyString, rest)
      else if (n =? 92)%nat then
        match rest with
        | String e rest' =>
            match unescape e, read_string rest' with
            | Some ch, Some (t, r) => Some (String ch t, r)
            | _, _ => None
            end
        | EmptyString => None
        end
      else if (n <? 32)%nat then None
      else match read_string rest with
           | Some (t, r) => Some (String c t, r)
           | None => None
           end
  end.

Fixpoint read_digits (s : string) (acc : Z) : Z * string :=
  match s with
  | String c rest =>
      if is_digit c then read_digits rest (10 * acc + digit_value c) else (acc, s)
  | EmptyString => (acc, s)
  end.

(** A numeral without sign: digits with no leading zero, not followed by
    a fraction or an exponent. *)
Definition read_natural (s : string) : option (Z * string) :=
  match s with
  | String c rest =>
      if is_digit c then
        let (n, r) := read_digits s 0 in
        let leading_zero :=
          (nat_of_ascii c =? 48)%nat
          && match rest with String d _ => is_digit d | EmptyString => false end in
        let continued :=
          match r with
          | String d _ => existsb (Ascii.eqb d) ["."%char; "e"%char; "E"%char]
          | EmptyString => false
          end in
        if leading_zero || continued then None else Some (n, r)
      else None
  | EmptyString => None
  end.

Definition read_literal (word : string) (v : value) (s : string) : option (value * string) :=
  if prefix word s
  then Some (v, substring (String.length word) (String.length s - String.length word) s)
  else None.

(** [props] with the member [k] set to [v], in place when it exists *)
Fixpoint obj_set (k : string) (v : value) (props : list (string * value))
  : list (string * value) :=
  match props with
  | [] => [(k, v)]
  | (k', v') :: rest =>
      if (k =? k')%string then (k, v) :: rest else (k', v') :: obj_set k v rest
  end.

Fixpoint read_value (fuel : nat) (s : string) : option (value * string) :=
  match fuel with
  | O => None
  | S f =>
      match skip_ws s with
      | EmptyString => None
      | String c rest =>
          let n := nat_of_ascii c in
          if (n =? 123)%nat then
            match skip_ws rest with
            | String d r =>
                if (nat_of_ascii d =? 125)%nat then Some (VObj [], r)
                else match read_members f (String d r) with
                     | Some (props, r') =>
                         Some (VObj (fold_left (fun acc p => obj_set (fst p) (snd p) acc)
                                       props []), r')
                     | None => None
                     end
            | EmptyString => None
            end
          else if (n =? 91)%nat then
            match skip_ws rest with
            | String d r =>
                if (nat_of_ascii d =? 93)%nat then Some (VArr [], r)
                else match read_elements f (String d r) with
                     | Some (elems, r') => Some (VArr elems, r')
                     | None => None
                     end
            | EmptyString => None
            end
          else if (n =? 34)%nat then
            match read_string rest with
            | Some (t, r) => Some (VStr t, r)
            | None => None
            end
          else if (n =? 45)%nat then
            match read_natural rest with
            | Some (m, r) => Some (VNum (- m), r)
            | None => None
            end
          else if is_digit c then
            match read_natural (String c rest) with
            | Some (m, r) => Some (VNum m, r)
            | None => None
            end
          else if (n =? 116)%nat then read_literal "true" (VBool true) (String c rest)
          else if (n =? 102)%nat then read_literal "false" (VBool false) (String c rest)
          else if (n =? 110)%nat then read_literal "null" VNull (String c rest)
          else None
      end
  end
with read_elements (fuel : nat) (s : string) : option (list value * string) :=
  match fuel with
  | O => None
  | S f =>
      match read_value f s with
      | Some (v, r) =>
          match skip_ws r with
          | String d r' =>
              if (nat_of_ascii d =? 44)%nat then
                match read_elements f r' with
                | Some (vs, r'') => Some (v :: vs, r'')
                | None => None
                end
              else if (nat_of_ascii d =? 93)%nat then Some ([v], r')
              else None
          | EmptyString => None
          end
      | None => None
      end
  end
with read_members (fuel : nat) (s : string) : option (list (string * value) * string) :=
  match fuel with
  | O => None
  | S f =>
      match skip_ws s with
      | String q r0 =>
          if (nat_of_ascii q =? 34)%nat then
            match read_string r0 with
            | Some (k, r1) =>
                match skip_ws r1 with
                | String colon r2 =>
                    if (nat_of_ascii colon =? 58)%nat then
                      match read_value f r2 with
                      | Some (v, r3) =>
                          match skip_ws r3 with
                          | String d r4 =>
                              if (nat_of_ascii d =? 44)%nat then
                                match read_members f r4 with
                                | Some (ms, r5) => Some ((k, v) :: ms, r5)
                                | None => None
                                end
                              else if (nat_of_ascii d =? 125)%nat then Some ([(k, v)], r4)
                              else None
                          | EmptyString => None
                          end
                      | None => None
                      end
                    else None
                | EmptyString => None
                end
            | None => None
            end
          else None
      | EmptyString => None
      end
  end.

Definition read_json (text : string) : option value :=
  match read_value (2 * String.length text + 2) text with
  | Some (v, rest) =>
      match skip_ws rest with
      | EmptyString => Some v
      | _ => None
      end
  | None => None
  end.

(** YYYY-MM-DDTHH:MM:SSZ, digit for digit *)
Definition is_timestamp (s : string) : bool :=
  (String.length s =? 20)%nat
  && forallb
       (fun i =>
          match String.get i s with
          | Some c =>
              if existsb (Nat.eqb i) [4; 7]%nat then (nat_of_ascii c =? 45)%nat
              else if (i =? 10)%nat then (nat_of_ascii c =? 84)%nat
              else if existsb (Nat.eqb i) [13; 16]%nat then (nat_of_ascii c =? 58)%nat
              else if (i =? 19)%nat then (nat_of_ascii c =? 90)%nat
              else is_digit c
          | None => false
          end)
       (seq 0 20).

Definition host : Host :=
  {| JSON_parse := read_json;
     JSON_parse_error := fun text => "Unexpected token in JSON: " ++ text;
     Date_toISOString :=
       fun v =>
         match v with
         | VStr s => if is_timestamp s then Some (substring 0 19 s ++ ".000Z") else None
         | _ => None
         end;
     le_number := fun _ _ => false |}.

(** The same engine with a JSON.parse that refuses every text. *)
Definition offline : Host :=
  {| JSON_parse := fun _ => None;
     JSON_parse_error := fun _ => "Unexpected end of JSON input";
     Date_toISOString := Date_toISOString host;
     le_number := le_number host |}.

(** [formatErrorForLogging] for the examples: the name and the message *)
Definition formatErrorForLogging (e : exn) : value :=
  VObj [ ("name", VStr (match e with
                        | JsError name _ => name
                        | GorgiasApiError _ _ => "GorgiasApiError"
                        | RateLimitError _ _ => "RateLimitError"
                        | AuthenticationError _ => "AuthenticationError"
                        | ThrownValue _ => "Unknown"
                        end));
         ("message", VStr (Errors.message e)) ].

Definition credentials : Env.GorgiasCredentials :=
  {| Env.domain := "acme"; Env.email := "agent@acme.io"; Env.apiKey := "secret" |}.

(** An upstream that answers every request with the same response. *)
Definition always (response : Http.HttpResponse) : Http.Upstream :=
  fun _ => Return response.

Definition json_reply (code : Z) (text : string) : Http.HttpResponse :=
  {| Http.status := code;
     Http.resp_headers := [("Content-Type", "application/json")];
     Http.resp_body := text |}.

(** The body [{"data": []}] and an upstream that always answers 200
    with it. *)
Definition empty_page_text : string := "{" ++ dq ++ "data" ++ dq ++ ": []}".

Definition empty_upstream : Http.Upstream := always (json_reply 200 empty_page_text).

Definition no_filter (limit : option Z) : Client.CustomerListParams :=
  {| Client.customer_page := {| Client.limit := limit; Client.cursor := None |};
     Client.customer_email := None |}.

End Sample.

(** ** Notions used to state the properties of the request path *)

Module RequestSpec.



End RequestSpec.

(** ** Entity kinds and their declared shapes

    The field names of the wire shapes are those of the [Raw...]
    interfaces of [client.ts] (for Account and Statistic, of the type
    annotations in [getAccount] and [getStatistic]); the field names of
    the internal shapes are those of the [Gorgias...] interfaces of
    [types/entities.ts]. *)

Module Entities.
Import Client.

Definition RawTicket_fields : list string :=
  [ "id"; "external_id"; "subject"; "status"; "priority"; "channel"; "via";
    "from_agent"; "customer"; "assignee_user"; "assignee_team"; "messages_count";
    "is_unread"; "spam"; "created_datetime"; "updated_datetime"; "opened_datetime";
    "closed_datetime"; "last_received_message_datetime"; "last_message_datetime";
    "snooze_datetime"; "tags"; "uri" ].

Definition RawMessage_fields : list string :=
  [ "id"; "ticket_id"; "channel"; "via"; "from_agent"; "sender"; "receiver"; "subject";
    "body_text"; "body_html"; "stripped_text"; "stripped_html"; "public_html";
    "attachments"; "actions"; "headers"; "macro_id"; "rule_id"; "integrations";
    "created_datetime"; "sent_datetime"; "failed_datetime"; "opened_datetime"; "uri" ].

Definition RawCustomer_fields : list string :=
  [ "id"; "external_id"; "email"; "name"; "firstname"; "lastname"; "note"; "language";
    "timezone"; "data"; "channels"; "integrations"; "meta"; "tickets_count";
    "created_datetime"; "updated_datetime"; "uri" ].

Definition RawUser_fields : list string :=
  [ "id"; "external_id"; "email"; "name"; "firstname"; "lastname"; "role"; "bio";
    "active"; "timezone"; "language"; "country"; "meta"; "created_datetime";
    "updated_datetime"; "uri" ].

Definition RawTeam_fields : list string :=
  [ "id"; "name"; "description"; "decoration"; "members"; "created_datetime"; "uri" ].

Definition RawTag_fields : list string :=
  [ "id"; "name"; "description"; "decoration"; "usage"; "created_datetime";
    "deleted_datetime"; "uri" ].

Definition RawMacro_fields : list string :=
  [ "id"; "external_id"; "name"; "intent"; "language"; "usage"; "actions";
    "created_datetime"; "updated_datetime"; "archived_datetime"; "uri" ].

Definition RawRule_fields : list string :=
  [ "id"; "name"; "description"; "code"; "code_ast"; "event_types"; "priority";
    "created_datetime"; "updated_datetime"; "deactivated_datetime"; "uri" ].

Definition RawIntegration_fields : list string :=
  [ "id"; "name"; "type"; "http"; "created_datetime"; "updated_datetime"; "managed";
    "business_hours_id"; "uri" ].

Definition RawView_fields : list string :=
  [ "id"; "name"; "slug"; "filters"; "order_by"; "order_dir"; "visibility"; "fields";
    "decoration"; "created_datetime"; "updated_datetime"; "uri" ].

Definition RawSatisfactionSurvey_fields : list string :=
  [ "id"; "score"; "body_text"; "customer_id"; "ticket_id"; "meta"; "created_datetime";
    "sent_datetime"; "scored_datetime"; "should_send_datetime"; "uri" ].

Definition RawCustomField_fields : list string :=
  [ "id"; "external_id"; "object_type"; "label"; "description"; "priority"; "required";
    "managed_type"; "definition"; "created_datetime"; "updated_datetime";
    "deactivated_datetime"; "uri" ].

Definition RawEvent_fields : list string :=
  [ "id"; "context"; "type"; "object_id"; "object_type"; "user_id"; "data";
    "created_datetime"; "uri" ].

Definition RawJob_fields : list string :=
  [ "id"; "type"; "status"; "params"; "info"; "scheduled_datetime";
    "completed_datetime"; "created_datetime"; "updated_datetime"; "uri" ].

Definition RawWidget_fields : list string :=
  [ "id"; "context"; "template"; "order"; "integration_id"; "app_id";
    "created_datetime"; "updated_datetime"; "uri" ].
















Definition RawTicketWithMessages_fields : list string :=
  (RawTicket_fields ++ ["messages"])%list.


Definition RawAccount_fields : list string :=
  [ "domain"; "status"; "settings"; "created_datetime"; "deactivated_datetime" ].


Definition RawStatistic_fields : list string := [ "data"; "meta" ].


Inductive kind :=
| Ticket
| TicketWithMessages
| Message
| Customer
| User
| Team
| Tag
| Macro
| Rule
| Integration
| View
| SatisfactionSurvey
| CustomField
| Event
| Job
| Widget
| Account
| Statistic.

Definition all_kinds : list kind :=
  [ Ticket; TicketWithMessages; Message; Customer; User; Team;
    Tag; Macro; Rule; Integration; View; SatisfactionSurvey;
    CustomField; Event; Job; Widget; Account; Statistic ].

(** The function that maps the wire shape of a kind to its internal shape. *)
Definition mapper (k : kind) : value -> completion value :=
  match k with
  | Ticket => mapTicket
  | TicketWithMessages => mapTicketWithMessages
  | Message => mapMessage
  | Customer => mapCustomer
  | User => mapUser
  | Team => mapTeam
  | Tag => mapTag
  | Macro => mapMacro
  | Rule => mapRule
  | Integration => mapIntegration
  | View => mapView
  | SatisfactionSurvey => mapSatisfactionSurvey
  | CustomField => mapCustomField
  | Event => mapEvent
  | Job => mapJob
  | Widget => mapWidget
  | Account => account_of
  | Statistic => statistic_of
  end.

(** The object literal that function returns. *)
Definition props_of (k : kind) : list (string * init) :=
  match k with
  | Ticket => mapTicket_props
  | TicketWithMessages => mapTicketWithMessages_props
  | Message => mapMessage_props
  | Customer => mapCustomer_props
  | User => mapUser_props
  | Team => mapTeam_props
  | Tag => mapTag_props
  | Macro => mapMacro_props
  | Rule => mapRule_props
  | Integration => mapIntegration_props
  | View => mapView_props
  | SatisfactionSurvey => mapSatisfactionSurvey_props
  | CustomField => mapCustomField_props
  | Event => mapEvent_props
  | Job => mapJob_props
  | Widget => mapWidget_props
  | Account => account_props
  | Statistic => statistic_props
  end.

Definition wire_fields (k : kind) : list string :=
  match k with
  | Ticket => RawTicket_fields
  | TicketWithMessages => RawTicketWithMessages_fields
  | Message => RawMessage_fields
  | Customer => RawCustomer_fields
  | User => RawUser_fields
  | Team => RawTeam_fields
  | Tag => RawTag_fields
  | Macro => RawMacro_fields
  | Rule => RawRule_fields
  | Integration => RawIntegration_fields
  | View => RawView_fields
  | SatisfactionSurvey => RawSatisfactionSurvey_fields
  | CustomField => RawCustomField_fields
  | Event => RawEvent_fields
  | Job => RawJob_fields
  | Widget => RawWidget_fields
  | Account => RawAccount_fields
  | Statistic => RawStatistic_fields
  end.


Fixpoint lookup_init (name : string) (props : list (string * init)) : option init :=
  match props with
  | [] => None
  | (k, i) :: rest => if (name =? k)%string then Some i else lookup_init name rest
  end.

(** The wire field an internal field of kind [k] is read from. *)
Definition wire_name (k : kind) (internal : string) : option string :=
  option_map wire_of (lookup_init internal (props_of k)).


Definition keys (v : value) : list string :=
  match v with
  | VObj props => map fst props
  | _ => []
  end.

Fixpoint distinct (l : list string) : bool :=
  match l with
  | [] => true
  | x :: rest => negb (existsb (String.eqb x) rest) && distinct rest
  end.

Definition array_of_records (v : value) : bool :=
  match v with
  | VArr elems => forallb (fun x => negb (nullish x)) elems
  | _ => false
  end.

(** The embedded arrays and records that a mapping function converts
    have the declared shape: arrays of records, and a record. *)
Definition nested_ok (k : kind) (raw : value) : bool :=
  match k with
  | Message => array_of_records (get_opt raw "attachments")
  | Customer => array_of_records (get_opt raw "channels")
  | TicketWithMessages =>
      match get_opt raw "messages" with
      | VArr messages =>
          forallb (fun m => negb (nullish m)
                            && array_of_records (get_opt m "attachments")) messages
      | _ => false
      end
  | Statistic => negb (nullish (get_opt raw "meta"))
  | _ => true
  end.

End Entities.

(** ** The list operations, enumerated *)

Module Lists.
Import Http Client.

(** The list operations of the client that return a page. *)
Inductive paginated_operation :=
| ListTickets (params : TicketListParams)
| ListMessages (params : MessageListParams)
| ListCustomers (params : CustomerListParams)
| ListUsers (params : PaginationParams)
| ListMacros (params : PaginationParams)
| ListRules (params : PaginationParams)
| ListViewItems (viewId : Z) (params : PaginationParams)
| ListSatisfactionSurveys (params : SurveyListParams)
| ListEvents (params : EventListParams)
| ListJobs (params : PaginationParams).

(** The list operations of the client that return an array. *)
Inductive plain_operation :=
| ListTeams
| ListTags
| ListIntegrations
| ListViews
| ListCustomFields (params : CustomFieldListParams)
| ListWidgets.

(** The list tools that take a [limit]. *)
Inductive list_tool :=
| ToolListTickets
| ToolListMessages
| ToolListCustomers
| ToolListUsers
| ToolListMacros
| ToolListRules
| ToolListViewItems
| ToolListSatisfactionSurveys
| ToolListEvents
| ToolListJobs.

(** The list tools that take no [limit]. *)
Inductive plain_tool :=
| ToolListTeams
| ToolListTags
| ToolListIntegrations
| ToolListViews
| ToolListCustomFields
| ToolListWidgets.

Definition page_of (op : paginated_operation) : PaginationParams :=
  match op with
  | ListTickets params => ticket_page params
  | ListMessages params => message_page params
  | ListCustomers params => customer_page params
  | ListUsers params => params
  | ListMacros params => params
  | ListRules params => params
  | ListViewItems _ params => params
  | ListSatisfactionSurveys params => survey_page params
  | ListEvents params => event_page params
  | ListJobs params => params
  end.

Definition path_of (op : paginated_operation) : string :=
  match op with
  | ListTickets _ => "/tickets"
  | ListMessages _ => "/messages"
  | ListCustomers _ => "/customers"
  | ListUsers _ => "/users"
  | ListMacros _ => "/macros"
  | ListRules _ => "/rules"
  | ListViewItems viewId _ => "/views/" ++ Z_to_string viewId ++ "/items"
  | ListSatisfactionSurveys _ => "/satisfaction-surveys"
  | ListEvents _ => "/events"
  | ListJobs _ => "/jobs"
  end.

Definition plain_path (op : plain_operation) : string :=
  match op with
  | ListTeams => "/teams"
  | ListTags => "/tags"
  | ListIntegrations => "/integrations"
  | ListViews => "/views"
  | ListCustomFields _ => "/custom-fields"
  | ListWidgets => "/widgets"
  end.

Section Run.
Variable host : Host.
Variable formatErrorForLogging : exn -> value.
Variable upstream : Upstream.
Variable credentials : Env.GorgiasCredentials.

Definition run_paginated (op : paginated_operation) : Eff value :=
  match op with
  | ListTickets params => listTickets host upstream credentials params
  | ListMessages params => listMessages host upstream credentials params
  | ListCustomers params => listCustomers host upstream credentials params
  | ListUsers params => listUsers host upstream credentials params
  | ListMacros params => listMacros host upstream credentials params
  | ListRules params => listRules host upstream credentials params
  | ListViewItems viewId params => listViewItems host upstream credentials viewId params
  | ListSatisfactionSurveys params =>
      listSatisfactionSurveys host upstream credentials params
  | ListEvents params => listEvents host upstream credentials params
  | ListJobs params => listJobs host upstream credentials params
  end.

Definition run_plain (op : plain_operation) : Eff value :=
  match op with
  | ListTeams => listTeams host upstream credentials
  | ListTags => listTags host upstream credentials
  | ListIntegrations => listIntegrations host upstream credentials
  | ListViews => listViews host upstream credentials
  | ListCustomFields params => listCustomFields host upstream credentials params
  | ListWidgets => listWidgets host upstream credentials
  end.

Definition run_tool (tool : list_tool) : value -> list HttpRequest * Tools.CallResult :=
  match tool with
  | ToolListTickets =>
      Tools.gorgias_list_tickets host formatErrorForLogging upstream credentials
  | ToolListMessages =>
      Tools.gorgias_list_messages host formatErrorForLogging upstream credentials
  | ToolListCustomers =>
      Tools.gorgias_list_customers host formatErrorForLogging upstream credentials
  | ToolListUsers =>
      Tools.gorgias_list_users host formatErrorForLogging upstream credentials
  | ToolListMacros =>
      Tools.gorgias_list_macros host formatErrorForLogging upstream credentials
  | ToolListRules =>
      Tools.gorgias_list_rules host formatErrorForLogging upstream credentials
  | ToolListViewItems =>
      Tools.gorgias_list_view_items host formatErrorForLogging upstream credentials
  | ToolListSatisfactionSurveys =>
      Tools.gorgias_list_satisfaction_surveys host formatErrorForLogging upstream
        credentials
  | ToolListEvents =>
      Tools.gorgias_list_events host formatErrorForLogging upstream credentials
  | ToolListJobs =>
      Tools.gorgias_list_jobs host formatErrorForLogging upstream credentials
  end.

Definition run_plain_tool (tool : plain_tool)
  : value -> list HttpRequest * Tools.CallResult :=
  match tool with
  | ToolListTeams =>
      Tools.gorgias_list_teams host formatErrorForLogging upstream credentials
  | ToolListTags =>
      Tools.gorgias_list_tags host formatErrorForLogging upstream credentials
  | ToolListIntegrations =>
      Tools.gorgias_list_integrations host formatErrorForLogging upstream credentials
  | ToolListViews =>
      Tools.gorgias_list_views host formatErrorForLogging upstream credentials
  | ToolListCustomFields =>
      Tools.gorgias_list_custom_fields host formatErrorForLogging upstream credentials
  | ToolListWidgets =>
      Tools.gorgias_list_widgets host formatErrorForLogging upstream credentials
  end.

End Run.

(** The request that [request endpoint options] issues for a tenant. *)
Definition the_request (credentials : Env.GorgiasCredentials) (endpoint : string)
           (options : RequestInit) : HttpRequest :=
  {| url := getBaseUrl credentials ++ endpoint;
     req_method := match init_method options with Some m => m | None => "GET" end;
     req_headers := getAuthHeaders credentials;
     req_body := init_body options |}.

(** The query parameters start with [limit=n] and hold no other limit. *)
Definition limit_first (n : Z) (q : URLSearchParams) : Prop :=
  exists rest, q = ("limit", Z_to_string n) :: rest /\
               Forall (fun p => fst p <> "limit") rest.

(** The page [{ items: [], nextCursor: undefined }] *)
Definition empty_result : value :=
  VObj [("items", VArr []); ("nextCursor", VUndefined)].

(** A decoded body with an empty data array and no next_cursor *)
Definition empty_page (body : value) : Prop :=
  get_opt body "data" = VArr [] /\
  get_opt (get_opt body "meta") "next_cursor" = VUndefined.

End Lists.

(** ** The values on which the formatter returns *)

Module FormatterSpec.
Import Formatters.

Section WithHost.
Variable host : Host.

(** [String(v)] and a template literal can convert [v]: it is no
    object with an own member named toString, and no array that holds
    such an object at any depth. *)
Fixpoint printable (v : value) : bool :=
  match v with
  | VArr elems => forallb printable elems
  | VObj props =>
      match assoc "toString" props with
      | Some _ => false
      | None => true
      end
  | _ => true
  end.

(** The text that [join] gives an element of an array. *)
Definition element_text (x : value) : completion string :=
  match x with
  | VUndefined | VNull => Return ""
  | _ => ToString x
  end.

(** [x ? truncate(x, n) : '-'] returns: [x] is falsy, or a string, or
    its length compares as at most [n]. *)
Definition truncatable (x : value) (n : Z) : bool :=
  negb (truthy x)
  || match x with
     | VStr _ => true
     | _ => match le host (get_opt x "length") n with
            | Return fits => fits
            | Throw _ => false
            end
     end.

(** [x.email || x.name], of a customer or a sender *)
Definition contact (x : value) : value :=
  or_else (get_opt x "email") (get_opt x "name").

(** The parts of the name that a line displays: the name, or the first
    and the last name when the name is falsy. *)
Definition name_parts (item : value) : list value :=
  if truthy (get_opt item "name") then [get_opt item "name"]
  else [get_opt item "firstname"; get_opt item "lastname"].

(** The values that a line of the table of a named entity type converts
    to a string.  A member that is displayed through [x || '-'], through
    [truncate] or through [formatDate] is listed as it is: the default
    stands in for a falsy value only, and a falsy value is a primitive. *)
Definition shown (entityType : string) (item : value) : list value :=
  let m := get_opt item in
  if (entityType =? "tickets")%string then
    [ m "id"; m "subject"; m "status"; m "priority"; m "channel";
      contact (m "customer"); m "createdDatetime" ]
  else if (entityType =? "messages")%string then
    [ m "id"; m "ticketId"; m "channel"; contact (m "sender"); m "createdDatetime" ]
  else if (entityType =? "customers")%string then
    (name_parts item
     ++ [ m "id"; m "email"; m "language"; m "ticketsCount"; m "createdDatetime" ])%list
  else if (entityType =? "users")%string then
    (name_parts item
     ++ [ m "id"; m "email"; get_opt (m "role") "name"; m "createdDatetime" ])%list
  else if (entityType =? "teams")%string then
    [ m "id"; m "name"; m "description"; get_opt (m "members") "length";
      m "createdDatetime" ]
  else if (entityType =? "tags")%string then
    [ m "id"; m "name"; m "description"; m "usage"; m "createdDatetime" ]
  else if (entityType =? "macros")%string then
    [ m "id"; m "name"; m "intent"; m "language"; m "usage"; m "createdDatetime" ]
  else if (entityType =? "rules")%string then
    [ m "id"; m "name"; m "eventTypes"; m "priority"; m "createdDatetime" ]
  else if (entityType =? "satisfaction_surveys")%string then
    [ m "score"; m "id"; m "ticketId"; m "customerId"; m "scoredDatetime";
      m "createdDatetime" ]
  else [].

(** An item fit for a line of the table of a named entity type: it is
    neither null nor undefined, the text that the table truncates (the
    subject of a ticket, the description of a team or of a tag) can be
    truncated, and every value that the line shows can be converted to
    a string. *)
Definition row_ok (entityType : string) (item : value) : bool :=
  negb (nullish item)
  && (if (entityType =? "tickets")%string then truncatable (get_opt item "subject") 40
      else if ((entityType =? "teams") || (entityType =? "tags"))%string
           then truncatable (get_opt item "description") 30
      else true)
  && forallb printable (shown entityType item).

(** The entity types that have a table of their own. *)
Definition named_table (entityType : string) : bool :=
  existsb (String.eqb entityType)
    [ "tickets"; "messages"; "customers"; "users"; "teams"; "tags"; "macros"; "rules";
      "satisfaction_surveys" ].

(** Items fit for the generic table, whose columns are the first five
    keys of the first item: the first item is neither null nor undefined
    and, unless it has no key, neither is any other, and what each item
    holds under each column can be converted to a string. *)
Definition generic_ok (items : list value) : bool :=
  match items with
  | [] => true
  | first :: _ =>
      negb (nullish first)
      && match Object_keys first with
         | Return all_keys =>
             match firstn 5 all_keys with
             | [] => true
             | keys =>
                 forallb (fun x => negb (nullish x)
                                   && forallb (fun k => printable (get_opt x k)) keys)
                         items
             end
         | Throw _ => false
         end
  end.

(** An empty list of items is fit for every table: no line is made. *)
Definition items_ok (entityType : string) (items : list value) : bool :=
  if named_table entityType then forallb (row_ok entityType) items
  else generic_ok items.

Definition markdown_ok (entityType : string) (data : value) : bool :=
  if isPaginatedResponse data then
    printable (get_opt data "nextCursor")
    && items_ok entityType
         (match get_opt data "items" with VArr items => items | _ => [] end)
  else
    match data with
    | VArr elems => generic_ok elems
    | _ => true
    end.

Definition format_ok (format : ResponseFormat) (entityType : string) (data : value) : bool :=
  match format with
  | json => match data with VUndefined => false | _ => true end
  | markdown => markdown_ok entityType data
  end.

End WithHost.

(** Two hosts render dates and compare lengths alike. *)
Definition same_rendering (h1 h2 : Host) : Prop :=
  (forall v, Date_toISOString h1 v = Date_toISOString h2 v) /\
  (forall v n, le_number h1 v n = le_number h2 v n).

End FormatterSpec.

(** ** Notions used to state the properties of the credential check *)

Module CredentialSpec.
Import Env.

(** A member of a partial triple is present when it is set to a
    non-empty string. *)
Definition present (member : option string) : Prop :=
  match member with
  | Some s => s <> ""
  | None => False
  end.

(** The three members with their header names, in the fixed order. *)
Definition members (c : PartialCredentials) : list (string * option string) :=
  [ ("X-Gorgias-Domain", p_domain c);
    ("X-Gorgias-Email", p_email c);
    ("X-Gorgias-API-Key", p_apiKey c) ].

(** The header names of the members that are not present. *)
Definition missing_headers (c : PartialCredentials) : list string :=
  map fst (filter (fun m => falsy (snd m)) (members c)).

Definition missing_message (names : list string) : string :=
  "Missing required headers: " ++ join ", " names.

(** The member of a partial triple that a header name fills. *)
Definition member (c : PartialCredentials) (header : string) : option string :=
  match find (fun m => (fst m =? header)%string) (members c) with
  | Some m => snd m
  | None => None
  end.

End CredentialSpec.

(** ** Page values and cursors ([utils/pagination.ts]) *)

Module Cursors.

(** [emptyPaginatedResponse()] *)
Definition emptyPaginatedResponse : value := VObj [("items", VArr [])].

(** [createPaginatedResponse(items, nextCursor)] *)
Definition createPaginatedResponse (items : list value) (nextCursor : value) : value :=
  VObj [("items", VArr items); ("nextCursor", nextCursor)].

(** [{ after?: string }]: an unset member is [None]. *)
Record CursorData := {
  after : option string
}.

Definition parseCursor (cursor : option string) : CursorData :=
  if Env.falsy cursor then {| after := None |} else {| after := cursor |}.

Definition encodeCursor (data : CursorData) : option string := after data.

End Cursors.

(** ** Numeric settings of the worker ([types/env.ts]) *)

Module Config.

(** [Env], as the object of its own properties: the variables are
    strings and the bindings are objects. *)
Definition Env := list (string * value).

Definition getEnvNumber (env : Env) (key : string) (defaultValue : Z) : Z :=
  match assoc key env with
  | Some (VStr s) =>
      match parseInt10 s with
      | Some parsed => parsed
      | None => defaultValue
      end
  | _ => defaultValue
  end.

Definition getCharacterLimit (env : Env) : Z := getEnvNumber env "CHARACTER_LIMIT" 50000.
Definition getDefaultPageSize (env : Env) : Z := getEnvNumber env "DEFAULT_PAGE_SIZE" 20.
Definition getMaxPageSize (env : Env) : Z := getEnvNumber env "MAX_PAGE_SIZE" 100.

(** The integers that a JavaScript number holds exactly. *)
Definition MAX_SAFE_INTEGER : Z := 9007199254740991.

End Config.

(** ** The upstream client ([client.ts]): single records *)

Module Records.
Import Env Http Client.

(** [GorgiasMessageInput]; an unset member is undefined. *)
Record MessageInput := {
  m_channel : value;
  m_via : value;
  m_bodyText : value;
  m_bodyHtml : value;
  m_fromAgent : value;
  m_senderId : value;
  m_receiverId : value;
  m_subject : value
}.

(** [GorgiasTicketCreateInput] *)
Record TicketCreateInput := {
  c_channel : value;
  c_customerId : value;
  c_customerEmail : value;
  c_subject : value;
  c_messages : list MessageInput
}.

(** [GorgiasTicketUpdateInput] *)
Record TicketUpdateInput := {
  u_status : value;
  u_priority : value;
  u_assigneeUserId : value;
  u_assigneeTeamId : value;
  u_snoozeUntilDatetime : value
}.

(** [StatisticParams] *)
Record StatisticParams := {
  startDatetime : value;
  endDatetime : value;
  timezone : value
}.

(** [x !== undefined] *)
Definition defined (x : value) : bool :=
  match x with
  | VUndefined => false
  | _ => true
  end.

(** [x ? { id: x } : otherwise] *)
Definition id_ref (x otherwise : value) : value :=
  if truthy x then VObj [("id", x)] else otherwise.

(** [if (cond) body.key = v], for a key that [body] does not hold yet *)
Definition assign_if (cond : bool) (key : string) (v : value)
           (body : list (string * value)) : list (string * value) :=
  if cond then (body ++ [(key, v)])%list else body.

(** [tagIds.map((id) => ({ id }))] *)
Definition tag_refs (tagIds : list Z) : value :=
  VArr (map (fun id => VObj [("id", VNum id)]) tagIds).

(** The object that [createTicket] builds for one message. *)
Definition message_body (m : MessageInput) : value :=
  VObj [ ("channel", m_channel m);
         ("via", m_via m);
         ("body_text", m_bodyText m);
         ("body_html", m_bodyHtml m);
         ("from_agent", coalesce (m_fromAgent m) (VBool false));
         ("sender", id_ref (m_senderId m) VUndefined);
         ("receiver", id_ref (m_receiverId m) VUndefined);
         ("subject", m_subject m) ].

Definition createTicket_body (input : TicketCreateInput) : value :=
  let body :=
    [ ("channel", c_channel input);
      ("subject", c_subject input);
      ("messages", VArr (map message_body (c_messages input))) ] in
  let body :=
    if truthy (c_customerId input) then
      (body ++ [("customer", VObj [("id", c_customerId input)])])%list
    else if truthy (c_customerEmail input) then
      (body ++ [("customer", VObj [("email", c_customerEmail input)])])%list
    else body in
  VObj body.

Definition updateTicket_body (input : TicketUpdateInput) : value :=
  let body : list (string * value) := [] in
  let body := assign_if (truthy (u_status input)) "status" (u_status input) body in
  let body := assign_if (truthy (u_priority input)) "priority" (u_priority input) body in
  let body :=
    assign_if (defined (u_assigneeUserId input)) "assignee_user"
      (id_ref (u_assigneeUserId input) VNull) body in
  let body :=
    assign_if (defined (u_assigneeTeamId input)) "assignee_team"
      (id_ref (u_assigneeTeamId input) VNull) body in
  let body :=
    assign_if (defined (u_snoozeUntilDatetime input)) "snooze_datetime"
      (u_snoozeUntilDatetime input) body in
  VObj body.

Section WithTenant.
Variable host : Host.
Variable upstream : Upstream.
Variable credentials : GorgiasCredentials.

Let request := request host upstream credentials.

Definition testConnection : Eff value :=
  ecatch
    (_ <-- request "/users?limit=1" GET ;;
     pure (Return (VObj [ ("connected", VBool true);
                          ("message", VStr "Successfully connected to Gorgias") ])))
    (fun error =>
       pure (Return (VObj [ ("connected", VBool false);
                            ("message",
                              VStr (if Errors.instanceof_Error error
                                    then Errors.message error
                                    else "Connection failed")) ]))).

Definition getAccount : Eff value :=
  data <-- request "/account" GET ;;
  pure (account_of data).

Definition getTicket (ticketId : Z) : Eff value :=
  data <-- request ("/tickets/" ++ Z_to_string ticketId) GET ;;
  pure (mapTicketWithMessages data).

Definition createTicket (input : TicketCreateInput) : Eff value :=
  data <-- request "/tickets" (POST (createTicket_body input)) ;;
  pure (mapTicket data).

Definition updateTicket (ticketId : Z) (input : TicketUpdateInput) : Eff value :=
  data <-- request ("/tickets/" ++ Z_to_string ticketId) (PUT (updateTicket_body input)) ;;
  pure (mapTicket data).

Definition deleteTicket (ticketId : Z) : Eff value :=
  _ <-- request ("/tickets/" ++ Z_to_string ticketId) DELETE ;;
  pure (Return VUndefined).

Definition addTicketTags (ticketId : Z) (tagIds : list Z) : Eff value :=
  _ <-- request ("/tickets/" ++ Z_to_string ticketId ++ "/tags")
          (POST (VObj [("tags", tag_refs tagIds)])) ;;
  pure (Return VUndefined).

Definition removeTicketTags (ticketId : Z) (tagIds : list Z) : Eff value :=
  _ <-- request ("/tickets/" ++ Z_to_string ticketId ++ "/tags")
          {| init_method := Some "DELETE";
             init_body := Some (VObj [("tags", tag_refs tagIds)]) |} ;;
  pure (Return VUndefined).

Definition getMessage (messageId : Z) : Eff value :=
  data <-- request ("/messages/" ++ Z_to_string messageId) GET ;;
  pure (mapMessage data).

Definition deleteMessage (messageId : Z) : Eff value :=
  _ <-- request ("/messages/" ++ Z_to_string messageId) DELETE ;;
  pure (Return VUndefined).

Definition getCustomer (customerId : Z) : Eff value :=
  data <-- request ("/customers/" ++ Z_to_string customerId) GET ;;
  pure (mapCustomer data).

Definition deleteCustomer (customerId : Z) : Eff value :=
  _ <-- request ("/customers/" ++ Z_to_string customerId) DELETE ;;
  pure (Return VUndefined).

Definition mergeCustomers (targetId sourceId : Z) : Eff value :=
  data <-- request ("/customers/" ++ Z_to_string targetId ++ "/merge")
             (PUT (VObj [("customer_id", VNum sourceId)])) ;;
  pure (mapCustomer data).

Definition getUser (userId : Z) : Eff value :=
  data <-- request ("/users/" ++ Z_to_string userId) GET ;;
  pure (mapUser data).

Definition getTeam (teamId : Z) : Eff value :=
  data <-- request ("/teams/" ++ Z_to_string teamId) GET ;;
  pure (mapTeam data).

Definition deleteTeam (teamId : Z) : Eff value :=
  _ <-- request ("/teams/" ++ Z_to_string teamId) DELETE ;;
  pure (Return VUndefined).

Definition getTag (tagId : Z) : Eff value :=
  data <-- request ("/tags/" ++ Z_to_string tagId) GET ;;
  pure (mapTag data).

Definition deleteTag (tagId : Z) : Eff value :=
  _ <-- request ("/tags/" ++ Z_to_string tagId) DELETE ;;
  pure (Return VUndefined).

Definition mergeTags (targetId : Z) (sourceIds : list Z) : Eff value :=
  data <-- request "/tags/merge"
             (PUT (VObj [ ("target_id", VNum targetId);
                          ("source_ids", VArr (map VNum sourceIds)) ])) ;;
  pure (mapTag data).

Definition getMacro (macroId : Z) : Eff value :=
  data <-- request ("/macros/" ++ Z_to_string macroId) GET ;;
  pure (mapMacro data).

Definition deleteMacro (macroId : Z) : Eff value :=
  _ <-- request ("/macros/" ++ Z_to_string macroId) DELETE ;;
  pure (Return VUndefined).

Definition getRule (ruleId : Z) : Eff value :=
  data <-- request ("/rules/" ++ Z_to_string ruleId) GET ;;
  pure (mapRule data).

Definition deleteRule (ruleId : Z) : Eff value :=
  _ <-- request ("/rules/" ++ Z_to_string ruleId) DELETE ;;
  pure (Return VUndefined).

Definition getIntegration (integrationId : Z) : Eff value :=
  data <-- request ("/integrations/" ++ Z_to_string integrationId) GET ;;
  pure (mapIntegration data).

Definition deleteIntegration (integrationId : Z) : Eff value :=
  _ <-- request ("/integrations/" ++ Z_to_string integrationId) DELETE ;;
  pure (Return VUndefined).

Definition getView (viewId : Z) : Eff value :=
  data <-- request ("/views/" ++ Z_to_string viewId) GET ;;
  pure (mapView data).

Definition deleteView (viewId : Z) : Eff value :=
  _ <-- request ("/views/" ++ Z_to_string viewId) DELETE ;;
  pure (Return VUndefined).

Definition getSatisfactionSurvey (surveyId : Z) : Eff value :=
  data <-- request ("/satisfaction-surveys/" ++ Z_to_string surveyId) GET ;;
  pure (mapSatisfactionSurvey data).

Definition getCustomField (fieldId : Z) : Eff value :=
  data <-- request ("/custom-fields/" ++ Z_to_string fieldId) GET ;;
  pure (mapCustomField data).

Definition getEvent (eventId : Z) : Eff value :=
  data <-- request ("/events/" ++ Z_to_string eventId) GET ;;
  pure (mapEvent data).

Definition getJob (jobId : Z) : Eff value :=
  data <-- request ("/jobs/" ++ Z_to_string jobId) GET ;;
  pure (mapJob data).

Definition cancelJob (jobId : Z) : Eff value :=
  _ <-- request ("/jobs/" ++ Z_to_string jobId) DELETE ;;
  pure (Return VUndefined).

Definition getWidget (widgetId : Z) : Eff value :=
  data <-- request ("/widgets/" ++ Z_to_string widgetId) GET ;;
  pure (mapWidget data).

Definition deleteWidget (widgetId : Z) : Eff value :=
  _ <-- request ("/widgets/" ++ Z_to_string widgetId) DELETE ;;
  pure (Return VUndefined).

Definition getStatistic (name : string) (params : StatisticParams) : Eff value :=
  let body :=
    VObj [ ("start_datetime", startDatetime params);
           ("end_datetime", endDatetime params);
           ("timezone", timezone params) ] in
  data <-- request ("/stats/" ++ name) (POST body) ;;
  pure (statistic_of data).

End WithTenant.

End Records.

(** ** The upstream client ([client.ts]): creating and updating records

    The members of an input are JavaScript values; a member that the
    caller leaves unset is undefined. *)

Module Writes.
Import Env Http Client Records.

(** [GorgiasMessageCreateInput] *)
Record MessageCreateInput := {
  mc_ticketId : value;
  mc_channel : value;
  mc_via : value;
  mc_bodyText : value;
  mc_bodyHtml : value;
  mc_fromAgent : value;
  mc_senderId : value;
  mc_receiverId : value;
  mc_subject : value
}.

(** [GorgiasChannelInput] *)
Record ChannelInput := {
  ch_type : value;
  ch_address : value;
  ch_preferred : value
}.

(** [GorgiasCustomerCreateInput]; [GorgiasCustomerUpdateInput] has the
    same members but [channels]. *)
Record CustomerInput := {
  cu_email : value;
  cu_name : value;
  cu_firstname : value;
  cu_lastname : value;
  cu_externalId : value;
  cu_note : value;
  cu_language : value;
  cu_timezone : value;
  cu_data : value;
  cu_channels : option (list ChannelInput)
}.

(** [GorgiasTeamCreateInput] and its [Partial] *)
Record TeamInput := {
  te_name : value;
  te_description : value;
  te_decoration : value;
  te_memberIds : option (list Z)
}.

(** [GorgiasTagCreateInput] *)
Record TagInput := {
  ta_name : value;
  ta_description : value;
  ta_decoration : value
}.

(** [GorgiasRuleCreateInput] and its [Partial] *)
Record RuleInput := {
  ru_name : value;
  ru_description : value;
  ru_code : value;
  ru_codeAst : value;
  ru_eventTypes : value;
  ru_priority : value
}.

(** [GorgiasIntegrationCreateInput] *)
Record IntegrationInput := {
  in_name : value;
  in_type : value;
  in_http : value
}.

(** [GorgiasViewCreateInput] and its [Partial] *)
Record ViewInput := {
  vi_name : value;
  vi_filters : value;
  vi_orderBy : value;
  vi_orderDir : value;
  vi_visibility : value;
  vi_fields : value;
  vi_decoration : value
}.

(** [GorgiasSatisfactionSurveyCreateInput] *)
Record SurveyInput := {
  su_ticketId : value;
  su_customerId : value;
  su_shouldSendDatetime : value
}.

(** [GorgiasCustomFieldCreateInput] and its [Partial] *)
Record CustomFieldInput := {
  cf_objectType : value;
  cf_label : value;
  cf_description : value;
  cf_priority : value;
  cf_required : value;
  cf_definition : value
}.

(** [GorgiasJobCreateInput] *)
Record JobInput := {
  jo_type : value;
  jo_params : value;
  jo_scheduledDatetime : value
}.

(** [GorgiasWidgetCreateInput] and its [Partial] *)
Record WidgetInput := {
  wi_context : value;
  wi_template : value;
  wi_order : value;
  wi_integrationId : value
}.

(** [ids?.map((id) => ({ id }))] *)
Definition member_refs (memberIds : option (list Z)) : value :=
  match memberIds with
  | Some ids => tag_refs ids
  | None => VUndefined
  end.

Definition createMessage_body (input : MessageCreateInput) : value :=
  VObj [ ("ticket_id", mc_ticketId input);
         ("channel", mc_channel input);
         ("via", mc_via input);
         ("body_text", mc_bodyText input);
         ("body_html", mc_bodyHtml input);
         ("from_agent", coalesce (mc_fromAgent input) (VBool true));
         ("sender", id_ref (mc_senderId input) VUndefined);
         ("receiver", id_ref (mc_receiverId input) VUndefined);
         ("subject", mc_subject input) ].

Definition channel_body (c : ChannelInput) : value :=
  VObj [ ("type", ch_type c); ("address", ch_address c); ("preferred", ch_preferred c) ].

Definition createCustomer_body (input : CustomerInput) : value :=
  VObj [ ("email", cu_email input);
         ("name", cu_name input);
         ("firstname", cu_firstname input);
         ("lastname", cu_lastname input);
         ("external_id", cu_externalId input);
         ("note", cu_note input);
         ("language", cu_language input);
         ("timezone", cu_timezone input);
         ("data", cu_data input);
         ("channels", match cu_channels input with
                      | Some channels => VArr (map channel_body channels)
                      | None => VUndefined
                      end) ].

Definition updateCustomer_body (input : CustomerInput) : value :=
  VObj [ ("email", cu_email input);
         ("name", cu_name input);
         ("firstname", cu_firstname input);
         ("lastname", cu_lastname input);
         ("external_id", cu_externalId input);
         ("note", cu_note input);
         ("language", cu_language input);
         ("timezone", cu_timezone input);
         ("data", cu_data input) ].

Definition createTeam_body (input : TeamInput) : value :=
  VObj [ ("name", te_name input);
         ("description", te_description input);
         ("decoration", te_decoration input);
         ("members", member_refs (te_memberIds input)) ].

Definition updateTeam_body (input : TeamInput) : value :=
  let body : list (string * value) := [] in
  let body := assign_if (truthy (te_name input)) "name" (te_name input) body in
  let body :=
    assign_if (defined (te_description input)) "description" (te_description input)
      body in
  let body :=
    assign_if (truthy (te_decoration input)) "decoration" (te_decoration input) body in
  let body :=
    assign_if (match te_memberIds input with Some _ => true | None => false end)
      "members" (member_refs (te_memberIds input)) body in
  VObj body.

Definition createTag_body (input : TagInput) : value :=
  VObj [ ("name", ta_name input);
         ("description", ta_description input);
         ("decoration", ta_decoration input) ].

Definition createRule_body (input : RuleInput) : value :=
  VObj [ ("name", ru_name input);
         ("description", ru_description input);
         ("code", ru_code input);
         ("code_ast", ru_codeAst input);
         ("event_types", ru_eventTypes input);
         ("priority", ru_priority input) ].

Definition updateRule_body (input : RuleInput) : value :=
  let body : list (string * value) := [] in
  let body := assign_if (truthy (ru_name input)) "name" (ru_name input) body in
  let body :=
    assign_if (defined (ru_description input)) "description" (ru_description input)
      body in
  let body := assign_if (defined (ru_code input)) "code" (ru_code input) body in
  let body := assign_if (defined (ru_codeAst input)) "code_ast" (ru_codeAst input) body in
  let body :=
    assign_if (truthy (ru_eventTypes input)) "event_types" (ru_eventTypes input) body in
  let body :=
    assign_if (defined (ru_priority input)) "priority" (ru_priority input) body in
  VObj body.

Definition createIntegration_body (input : IntegrationInput) : value :=
  VObj [ ("name", in_name input); ("type", in_type input); ("http", in_http input) ].

Definition createView_body (input : ViewInput) : value :=
  VObj [ ("name", vi_name input);
         ("filters", vi_filters input);
         ("order_by", vi_orderBy input);
         ("order_dir", vi_orderDir input);
         ("visibility", vi_visibility input);
         ("fields", vi_fields input);
         ("decoration", vi_decoration input) ].

Definition updateView_body (input : ViewInput) : value :=
  let body : list (string * value) := [] in
  let body := assign_if (truthy (vi_name input)) "name" (vi_name input) body in
  let body := assign_if (defined (vi_filters input)) "filters" (vi_filters input) body in
  let body := assign_if (defined (vi_orderBy input)) "order_by" (vi_orderBy input) body in
  let body :=
    assign_if (defined (vi_orderDir input)) "order_dir" (vi_orderDir input) body in
  let body :=
    assign_if (truthy (vi_visibility input)) "visibility" (vi_visibility input) body in
  let body := assign_if (truthy (vi_fields input)) "fields" (vi_fields input) body in
  let body :=
    assign_if (truthy (vi_decoration input)) "decoration" (vi_decoration input) body in
  VObj body.

Definition createSatisfactionSurvey_body (input : SurveyInput) : value :=
  VObj [ ("ticket_id", su_ticketId input);
         ("customer_id", su_customerId input);
         ("should_send_datetime", su_shouldSendDatetime input) ].

Definition createCustomField_body (input : CustomFieldInput) : value :=
  VObj [ ("object_type", cf_objectType input);
         ("label", cf_label input);
         ("description", cf_description input);
         ("priority", cf_priority input);
         ("required", cf_required input);
         ("definition", cf_definition input) ].

Definition updateCustomField_body (input : CustomFieldInput) : value :=
  let body : list (string * value) := [] in
  let body := assign_if (truthy (cf_label input)) "label" (cf_label input) body in
  let body :=
    assign_if (defined (cf_description input)) "description" (cf_description input)
      body in
  let body :=
    assign_if (defined (cf_priority input)) "priority" (cf_priority input) body in
  let body :=
    assign_if (defined (cf_required input)) "required" (cf_required input) body in
  let body :=
    assign_if (truthy (cf_definition input)) "definition" (cf_definition input) body in
  VObj body.

Definition createJob_body (input : JobInput) : value :=
  VObj [ ("type", jo_type input);
         ("params", jo_params input);
         ("scheduled_datetime", jo_scheduledDatetime input) ].

Definition createWidget_body (input : WidgetInput) : value :=
  VObj [ ("context", wi_context input);
         ("template", wi_template input);
         ("order", wi_order input);
         ("integration_id", wi_integrationId input) ].

Definition updateWidget_body (input : WidgetInput) : value :=
  let body : list (string * value) := [] in
  let body := assign_if (truthy (wi_context input)) "context" (wi_context input) body in
  let body :=
    assign_if (truthy (wi_template input)) "template" (wi_template input) body in
  let body := assign_if (defined (wi_order input)) "order" (wi_order input) body in
  let body :=
    assign_if (defined (wi_integrationId input)) "integration_id"
      (wi_integrationId input) body in
  VObj body.

Section WithTenant.
Variable host : Host.
Variable upstream : Upstream.
Variable credentials : GorgiasCredentials.

Let request := request host upstream credentials.

Definition createMessage (input : MessageCreateInput) : Eff value :=
  data <-- request "/messages" (POST (createMessage_body input)) ;;
  pure (mapMessage data).

Definition createCustomer (input : CustomerInput) : Eff value :=
  data <-- request "/customers" (POST (createCustomer_body input)) ;;
  pure (mapCustomer data).

Definition updateCustomer (customerId : Z) (input : CustomerInput) : Eff value :=
  data <-- request ("/customers/" ++ Z_to_string customerId)
             (PUT (updateCustomer_body input)) ;;
  pure (mapCustomer data).

Definition createTeam (input : TeamInput) : Eff value :=
  data <-- request "/teams" (POST (createTeam_body input)) ;;
  pure (mapTeam data).

Definition updateTeam (teamId : Z) (input : TeamInput) : Eff value :=
  data <-- request ("/teams/" ++ Z_to_string teamId) (PUT (updateTeam_body input)) ;;
  pure (mapTeam data).

Definition createTag (input : TagInput) : Eff value :=
  data <-- request "/tags" (POST (createTag_body input)) ;;
  pure (mapTag data).

(** [updateTag], [updateMacro] and [updateIntegration] send their
    input as it is. *)
Definition updateTag (tagId : Z) (input : value) : Eff value :=
  data <-- request ("/tags/" ++ Z_to_string tagId) (PUT input) ;;
  pure (mapTag data).

Definition updateMacro (macroId : Z) (input : value) : Eff value :=
  data <-- request ("/macros/" ++ Z_to_string macroId) (PUT input) ;;
  pure (mapMacro data).

Definition createRule (input : RuleInput) : Eff value :=
  data <-- request "/rules" (POST (createRule_body input)) ;;
  pure (mapRule data).

Definition updateRule (ruleId : Z) (input : RuleInput) : Eff value :=
  data <-- request ("/rules/" ++ Z_to_string ruleId) (PUT (updateRule_body input)) ;;
  pure (mapRule data).

Definition createIntegration (input : IntegrationInput) : Eff value :=
  data <-- request "/integrations" (POST (createIntegration_body input)) ;;
  pure (mapIntegration data).

Definition updateIntegration (integrationId : Z) (input : value) : Eff value :=
  data <-- request ("/integrations/" ++ Z_to_string integrationId) (PUT input) ;;
  pure (mapIntegration data).

Definition createView (input : ViewInput) : Eff value :=
  data <-- request "/views" (POST (createView_body input)) ;;
  pure (mapView data).

Definition updateView (viewId : Z) (input : ViewInput) : Eff value :=
  data <-- request ("/views/" ++ Z_to_string viewId) (PUT (updateView_body input)) ;;
  pure (mapView data).

Definition createSatisfactionSurvey (input : SurveyInput) : Eff value :=
  data <-- request "/satisfaction-surveys"
             (POST (createSatisfactionSurvey_body input)) ;;
  pure (mapSatisfactionSurvey data).

Definition createCustomField (input : CustomFieldInput) : Eff value :=
  data <-- request "/custom-fields" (POST (createCustomField_body input)) ;;
  pure (mapCustomField data).

Definition updateCustomField (fieldId : Z) (input : CustomFieldInput) : Eff value :=
  data <-- request ("/custom-fields/" ++ Z_to_string fieldId)
             (PUT (updateCustomField_body input)) ;;
  pure (mapCustomField data).

Definition createJob (input : JobInput) : Eff value :=
  data <-- request "/jobs" (POST (createJob_body input)) ;;
  pure (mapJob data).

Definition createWidget (input : WidgetInput) : Eff value :=
  data <-- request "/widgets" (POST (createWidget_body input)) ;;
  pure (mapWidget data).

Definition updateWidget (widgetId : Z) (input : WidgetInput) : Eff value :=
  data <-- request ("/widgets/" ++ Z_to_string widgetId)
             (PUT (updateWidget_body input)) ;;
  pure (mapWidget data).

End WithTenant.

End Writes.

(** ** The account and ticket tools ([tools/account.ts], [tools/tickets.ts]) *)

Module RecordTools.
Import Http Client Formatters Tools Records.

(** [z.number().int().nullable().optional()] *)
Definition number_int_nullable_optional (path : string) (v : value) : Zod.parsed value :=
  match v with
  | VUndefined | VNull | VNum _ => Zod.Valid v
  | _ => Zod.Invalid path "invalid_type"
  end.

(** [z.string().nullable().optional()] *)
Definition string_nullable_optional (path : string) (v : value) : Zod.parsed value :=
  match v with
  | VUndefined | VNull | VStr _ => Zod.Valid v
  | _ => Zod.Invalid path "invalid_type"
  end.

(** The elements of [z.array(z.number().int())], from index [i] on; the
    path of an issue is the path of the array, a dot and the index. *)
Fixpoint int_elements (path : string) (i : nat) (elems : list value)
  : Zod.parsed (list Z) :=
  match elems with
  | [] => Zod.Valid []
  | VNum n :: rest =>
      ns <~ int_elements path (S i) rest ;;
      Zod.Valid (n :: ns)
  | _ :: _ =>
      Zod.Invalid (path ++ "." ++ NilZero.string_of_uint (Nat.to_uint i)) "invalid_type"
  end.

(** [z.array(z.number().int())] *)
Definition array_of_int (path : string) (v : value) : Zod.parsed (list Z) :=
  match v with
  | VArr elems => int_elements path 0 elems
  | _ => Zod.Invalid path "invalid_type"
  end.

(** [{ content: [{ type: 'text', text: JSON.stringify(v, null, 2) }] }] *)
Definition json_text (v : value) : ToolResponse :=
  {| content := [JSON_stringify_2 v]; isError := None |}.

(** The arguments of [gorgias_update_ticket] *)
Record UpdateTicketArgs := {
  arg_id : Z;
  arg_input : TicketUpdateInput
}.

Definition update_ticket_schema (args : value) : Zod.parsed UpdateTicketArgs :=
  _ <~ Zod.object args ;;
  id <~ Zod.member Zod.number_int args "id" ;;
  status <~ Zod.member (Zod.enum_optional ["open"; "closed"]) args "status" ;;
  priority <~
    Zod.member (Zod.enum_optional ["low"; "normal"; "high"; "urgent"]) args "priority" ;;
  assigneeUserId <~ Zod.member number_int_nullable_optional args "assigneeUserId" ;;
  assigneeTeamId <~ Zod.member number_int_nullable_optional args "assigneeTeamId" ;;
  snoozeUntilDatetime <~
    Zod.member string_nullable_optional args "snoozeUntilDatetime" ;;
  Zod.Valid {| arg_id := id;
               arg_input :=
                 {| u_status := of_option status;
                    u_priority := of_option priority;
                    u_assigneeUserId := assigneeUserId;
                    u_assigneeTeamId := assigneeTeamId;
                    u_snoozeUntilDatetime := snoozeUntilDatetime |} |}.

(** The schema of the tools that take a ticket and tag identifiers. *)
Definition ticket_tags_schema (args : value) : Zod.parsed (Z * list Z) :=
  _ <~ Zod.object args ;;
  ticketId <~ Zod.member Zod.number_int args "ticketId" ;;
  tagIds <~ Zod.member array_of_int args "tagIds" ;;
  Zod.Valid (ticketId, tagIds).

Section WithClient.
Variable host : Host.
Variable formatErrorForLogging : exn -> value.
Variable upstream : Upstream.
Variable credentials : Env.GorgiasCredentials.

Let guarded := guarded formatErrorForLogging.

Definition gorgias_get_account : value -> list HttpRequest * CallResult :=
  call
    (fun args =>
       _ <~ Zod.object args ;;
       format <~ Zod.member Zod.format_default_json args "format" ;;
       Zod.Valid format)
    (fun format =>
       guarded
         (account <-- getAccount host upstream credentials ;;
          pure (formatResponse host account format "account"))).

Definition gorgias_get_statistics : value -> list HttpRequest * CallResult :=
  call
    (fun args =>
       _ <~ Zod.object args ;;
       statisticType <~ Zod.member Zod.string_required args "statisticType" ;;
       startDatetime <~ Zod.member Zod.string_required args "startDatetime" ;;
       endDatetime <~ Zod.member Zod.string_required args "endDatetime" ;;
       timezone <~ Zod.member Zod.string_optional args "timezone" ;;
       format <~ Zod.member Zod.format_default_json args "format" ;;
       Zod.Valid
         (statisticType,
          {| startDatetime := VStr startDatetime;
             endDatetime := VStr endDatetime;
             timezone := of_option timezone |},
          format))
    (fun a =>
       guarded
         (stats <-- getStatistic host upstream credentials (fst (fst a)) (snd (fst a)) ;;
          pure (formatResponse host stats (snd a) "statistics"))).

Definition gorgias_test_connection : value -> list HttpRequest * CallResult :=
  call Zod.object
    (fun _ =>
       ecatch
         (result <-- testConnection host upstream credentials ;;
          pure (Return (json_text result)))
         (fun error =>
            pure (Return
                    {| content :=
                         [Some ("Connection failed: "
                                ++ (if Errors.instanceof_Error error
                                    then Errors.message error
                                    else "Unknown error"))];
                       isError := Some true |}))).

Definition gorgias_get_ticket : value -> list HttpRequest * CallResult :=
  call
    (fun args =>
       _ <~ Zod.object args ;;
       id <~ Zod.member Zod.number_int args "id" ;;
       format <~ Zod.member Zod.format_default_json args "format" ;;
       Zod.Valid (id, format))
    (fun a =>
       guarded
         (ticket <-- getTicket host upstream credentials (fst a) ;;
          pure (formatResponse host ticket (snd a) "ticket"))).

Definition gorgias_update_ticket : value -> list HttpRequest * CallResult :=
  call update_ticket_schema
    (fun a =>
       guarded
         (ticket <-- updateTicket host upstream credentials (arg_id a) (arg_input a) ;;
          pure (Return
                  (json_text (VObj [ ("success", VBool true);
                                     ("message", VStr "Ticket updated");
                                     ("ticket", ticket) ]))))).

Definition gorgias_delete_ticket : value -> list HttpRequest * CallResult :=
  call
    (fun args =>
       _ <~ Zod.object args ;;
       id <~ Zod.member Zod.number_int args "id" ;;
       Zod.Valid id)
    (fun id =>
       guarded
         (_ <-- deleteTicket host upstream credentials id ;;
          pure (Return
                  (json_text (VObj [ ("success", VBool true);
                                     ("message",
                                       VStr ("Ticket " ++ Z_to_string id
                                             ++ " deleted")) ]))))).

Definition gorgias_add_ticket_tags : value -> list HttpRequest * CallResult :=
  call ticket_tags_schema
    (fun a =>
       guarded
         (_ <-- addTicketTags host upstream credentials (fst a) (snd a) ;;
          pure (Return
                  (json_text (VObj [ ("success", VBool true);
                                     ("message", VStr "Tags added to ticket") ]))))).

Definition gorgias_remove_ticket_tags : value -> list HttpRequest * CallResult :=
  call ticket_tags_schema
    (fun a =>
       guarded
         (_ <-- removeTicketTags host upstream credentials (fst a) (snd a) ;;
          pure (Return
                  (json_text (VObj [ ("success", VBool true);
                                     ("message", VStr "Tags removed from ticket") ]))))).

End WithClient.

End RecordTools.

(** ** The tools that the server registers ([index.ts], [tools/]) *)

Module Registry.

(** The names that each registration function passes to
    [server.tool], in the order of its source. *)
Definition registerAccountTools : list string :=
  [ "gorgias_get_account"; "gorgias_get_statistics"; "gorgias_test_connection" ].
Definition registerTicketTools : list string :=
  [ "gorgias_list_tickets"; "gorgias_get_ticket"; "gorgias_create_ticket";
    "gorgias_update_ticket"; "gorgias_delete_ticket"; "gorgias_add_ticket_tags";
    "gorgias_remove_ticket_tags" ].
Definition registerMessageTools : list string :=
  [ "gorgias_list_messages"; "gorgias_get_message"; "gorgias_create_message";
    "gorgias_delete_message" ].
Definition registerCustomerTools : list string :=
  [ "gorgias_list_customers"; "gorgias_get_customer"; "gorgias_create_customer";
    "gorgias_update_customer"; "gorgias_delete_customer"; "gorgias_merge_customers" ].
Definition registerUserTools : list string :=
  [ "gorgias_list_users"; "gorgias_get_user" ].
Definition registerTeamTools : list string :=
  [ "gorgias_list_teams"; "gorgias_get_team"; "gorgias_create_team";
    "gorgias_update_team"; "gorgias_delete_team" ].
Definition registerTagTools : list string :=
  [ "gorgias_list_tags"; "gorgias_get_tag"; "gorgias_create_tag"; "gorgias_update_tag";
    "gorgias_delete_tag"; "gorgias_merge_tags" ].
Definition registerMacroTools : list string :=
  [ "gorgias_list_macros"; "gorgias_get_macro"; "gorgias_create_macro";
    "gorgias_update_macro"; "gorgias_delete_macro" ].
Definition registerRuleTools : list string :=
  [ "gorgias_list_rules"; "gorgias_get_rule"; "gorgias_create_rule";
    "gorgias_update_rule"; "gorgias_delete_rule" ].
Definition registerIntegrationTools : list string :=
  [ "gorgias_list_integrations"; "gorgias_get_integration"; "gorgias_create_integration";
    "gorgias_update_integration"; "gorgias_delete_integration" ].
Definition registerViewTools : list string :=
  [ "gorgias_list_views"; "gorgias_get_view"; "gorgias_create_view";
    "gorgias_update_view"; "gorgias_delete_view"; "gorgias_list_view_items" ].
Definition registerSatisfactionTools : list string :=
  [ "gorgias_list_satisfaction_surveys"; "gorgias_get_satisfaction_survey";
    "gorgias_create_satisfaction_survey" ].
Definition registerCustomFieldTools : list string :=
  [ "gorgias_list_custom_fields"; "gorgias_get_custom_field";
    "gorgias_create_custom_field"; "gorgias_update_custom_field" ].
Definition registerEventTools : list string :=
  [ "gorgias_list_events"; "gorgias_get_event" ].
Definition registerJobTools : list string :=
  [ "gorgias_list_jobs"; "gorgias_get_job"; "gorgias_create_job"; "gorgias_cancel_job" ].
Definition registerWidgetTools : list string :=
  [ "gorgias_list_widgets"; "gorgias_get_widget"; "gorgias_create_widget";
    "gorgias_update_widget"; "gorgias_delete_widget" ].

(** The names registered by [createStatelessServer], in the order of
    its calls. *)
Definition createStatelessServer : list string :=
  (registerAccountTools ++ registerTicketTools ++ registerMessageTools
   ++ registerCustomerTools ++ registerUserTools ++ registerTeamTools
   ++ registerTagTools ++ registerMacroTools ++ registerRuleTools
   ++ registerIntegrationTools ++ registerViewTools ++ registerSatisfactionTools
   ++ registerCustomFieldTools ++ registerEventTools ++ registerJobTools
   ++ registerWidgetTools)%list.

End Registry.

(** ** The operations of the client, enumerated *)

Module Calls.
Import Http Client Records Writes.

Inductive operation :=
| TestConnection
| GetAccount
| ListPage (op : Lists.paginated_operation)
| ListAll (op : Lists.plain_operation)
| GetTicket (ticketId : Z)
| CreateTicket (input : TicketCreateInput)
| UpdateTicket (ticketId : Z) (input : TicketUpdateInput)
| DeleteTicket (ticketId : Z)
| AddTicketTags (ticketId : Z) (tagIds : list Z)
| RemoveTicketTags (ticketId : Z) (tagIds : list Z)
| GetMessage (messageId : Z)
| DeleteMessage (messageId : Z)
| GetCustomer (customerId : Z)
| DeleteCustomer (customerId : Z)
| MergeCustomers (targetId sourceId : Z)
| GetUser (userId : Z)
| GetTeam (teamId : Z)
| DeleteTeam (teamId : Z)
| GetTag (tagId : Z)
| DeleteTag (tagId : Z)
| MergeTags (targetId : Z) (sourceIds : list Z)
| GetMacro (macroId : Z)
| CreateMacro (name actions intent language : value)
| DeleteMacro (macroId : Z)
| GetRule (ruleId : Z)
| DeleteRule (ruleId : Z)
| GetIntegration (integrationId : Z)
| DeleteIntegration (integrationId : Z)
| GetView (viewId : Z)
| DeleteView (viewId : Z)
| GetSatisfactionSurvey (surveyId : Z)
| GetCustomField (fieldId : Z)
| GetEvent (eventId : Z)
| GetJob (jobId : Z)
| CancelJob (jobId : Z)
| GetWidget (widgetId : Z)
| DeleteWidget (widgetId : Z)
| GetStatistic (name : string) (params : StatisticParams)
| CreateMessage (input : MessageCreateInput)
| CreateCustomer (input : CustomerInput)
| UpdateCustomer (customerId : Z) (input : CustomerInput)
| CreateTeam (input : TeamInput)
| UpdateTeam (teamId : Z) (input : TeamInput)
| CreateTag (input : TagInput)
| UpdateTag (tagId : Z) (input : value)
| UpdateMacro (macroId : Z) (input : value)
| CreateRule (input : RuleInput)
| UpdateRule (ruleId : Z) (input : RuleInput)
| CreateIntegration (input : IntegrationInput)
| UpdateIntegration (integrationId : Z) (input : value)
| CreateView (input : ViewInput)
| UpdateView (viewId : Z) (input : ViewInput)
| CreateSatisfactionSurvey (input : SurveyInput)
| CreateCustomField (input : CustomFieldInput)
| UpdateCustomField (fieldId : Z) (input : CustomFieldInput)
| CreateJob (input : JobInput)
| CreateWidget (input : WidgetInput)
| UpdateWidget (widgetId : Z) (input : WidgetInput).

(** The operations declared to return [Promise<void>]. *)
Definition returns_void (op : operation) : bool :=
  match op with
  | DeleteTicket _ | AddTicketTags _ _ | RemoveTicketTags _ _ | DeleteMessage _
  | DeleteCustomer _ | DeleteTeam _ | DeleteTag _ | DeleteMacro _ | DeleteRule _
  | DeleteIntegration _ | DeleteView _ | CancelJob _ | DeleteWidget _ => true
  | _ => false
  end.

Section Run.
Variable host : Host.
Variable upstream : Upstream.
Variable credentials : Env.GorgiasCredentials.

Definition run (op : operation) : Eff value :=
  match op with
  | TestConnection => testConnection host upstream credentials
  | GetAccount => getAccount host upstream credentials
  | ListPage op => Lists.run_paginated host upstream credentials op
  | ListAll op => Lists.run_plain host upstream credentials op
  | GetTicket ticketId => getTicket host upstream credentials ticketId
  | CreateTicket input => createTicket host upstream credentials input
  | UpdateTicket ticketId input => updateTicket host upstream credentials ticketId input
  | DeleteTicket ticketId => deleteTicket host upstream credentials ticketId
  | AddTicketTags ticketId tagIds =>
      addTicketTags host upstream credentials ticketId tagIds
  | RemoveTicketTags ticketId tagIds =>
      removeTicketTags host upstream credentials ticketId tagIds
  | GetMessage messageId => getMessage host upstream credentials messageId
  | DeleteMessage messageId => deleteMessage host upstream credentials messageId
  | GetCustomer customerId => getCustomer host upstream credentials customerId
  | DeleteCustomer customerId => deleteCustomer host upstream credentials customerId
  | MergeCustomers targetId sourceId =>
      mergeCustomers host upstream credentials targetId sourceId
  | GetUser userId => getUser host upstream credentials userId
  | GetTeam teamId => getTeam host upstream credentials teamId
  | DeleteTeam teamId => deleteTeam host upstream credentials teamId
  | GetTag tagId => getTag host upstream credentials tagId
  | DeleteTag tagId => deleteTag host upstream credentials tagId
  | MergeTags targetId sourceIds => mergeTags host upstream credentials targetId sourceIds
  | GetMacro macroId => getMacro host upstream credentials macroId
  | CreateMacro name actions intent language =>
      createMacro host upstream credentials name actions intent language
  | DeleteMacro macroId => deleteMacro host upstream credentials macroId
  | GetRule ruleId => getRule host upstream credentials ruleId
  | DeleteRule ruleId => deleteRule host upstream credentials ruleId
  | GetIntegration integrationId =>
      getIntegration host upstream credentials integrationId
  | DeleteIntegration integrationId =>
      deleteIntegration host upstream credentials integrationId
  | GetView viewId => getView host upstream credentials viewId
  | DeleteView viewId => deleteView host upstream credentials viewId
  | GetSatisfactionSurvey surveyId =>
      getSatisfactionSurvey host upstream credentials surveyId
  | GetCustomField fieldId => getCustomField host upstream credentials fieldId
  | GetEvent eventId => getEvent host upstream credentials eventId
  | GetJob jobId => getJob host upstream credentials jobId
  | CancelJob jobId => cancelJob host upstream credentials jobId
  | GetWidget widgetId => getWidget host upstream credentials widgetId
  | DeleteWidget widgetId => deleteWidget host upstream credentials widgetId
  | GetStatistic name params => getStatistic host upstream credentials name params
  | CreateMessage input => createMessage host upstream credentials input
  | CreateCustomer input => createCustomer host upstream credentials input
  | UpdateCustomer customerId input =>
      updateCustomer host upstream credentials customerId input
  | CreateTeam input => createTeam host upstream credentials input
  | UpdateTeam teamId input => updateTeam host upstream credentials teamId input
  | CreateTag input => createTag host upstream credentials input
  | UpdateTag tagId input => updateTag host upstream credentials tagId input
  | UpdateMacro macroId input => updateMacro host upstream credentials macroId input
  | CreateRule input => createRule host upstream credentials input
  | UpdateRule ruleId input => updateRule host upstream credentials ruleId input
  | CreateIntegration input => createIntegration host upstream credentials input
  | UpdateIntegration integrationId input =>
      updateIntegration host upstream credentials integrationId input
  | CreateView input => createView host upstream credentials input
  | UpdateView viewId input => updateView host upstream credentials viewId input
  | CreateSatisfactionSurvey input =>
      createSatisfactionSurvey host upstream credentials input
  | CreateCustomField input => createCustomField host upstream credentials input
  | UpdateCustomField fieldId input =>
      updateCustomField host upstream credentials fieldId input
  | CreateJob input => createJob host upstream credentials input
  | CreateWidget input => createWidget host upstream credentials input
  | UpdateWidget widgetId input => updateWidget host upstream credentials widgetId input
  end.

End Run.

(** The entity kind of the wire record that an operation which builds
    a body reads its response as: the type argument of its [request]
    and the mapping function it applies to the answer.  [updateTag],
    [updateMacro] and [updateIntegration] build no body, they send
    their input as it is. *)
Definition written_kind (op : operation) : option Entities.kind :=
  match op with
  | CreateTicket _ | UpdateTicket _ _ => Some Entities.Ticket
  | CreateMessage _ => Some Entities.Message
  | CreateCustomer _ | UpdateCustomer _ _ => Some Entities.Customer
  | CreateTeam _ | UpdateTeam _ _ => Some Entities.Team
  | CreateTag _ => Some Entities.Tag
  | CreateMacro _ _ _ _ => Some Entities.Macro
  | CreateRule _ | UpdateRule _ _ => Some Entities.Rule
  | CreateIntegration _ => Some Entities.Integration
  | CreateView _ | UpdateView _ _ => Some Entities.View
  | CreateSatisfactionSurvey _ => Some Entities.SatisfactionSurvey
  | CreateCustomField _ | UpdateCustomField _ _ => Some Entities.CustomField
  | CreateJob _ => Some Entities.Job
  | CreateWidget _ | UpdateWidget _ _ => Some Entities.Widget
  | _ => None
  end.

(** The entity kind of the rows of each list operation that returns a page. *)
Definition row_kind (op : Lists.paginated_operation) : Entities.kind :=
  match op with
  | Lists.ListTickets _ => Entities.Ticket
  | Lists.ListMessages _ => Entities.Message
  | Lists.ListCustomers _ => Entities.Customer
  | Lists.ListUsers _ => Entities.User
  | Lists.ListMacros _ => Entities.Macro
  | Lists.ListRules _ => Entities.Rule
  | Lists.ListViewItems _ _ => Entities.Ticket
  | Lists.ListSatisfactionSurveys _ => Entities.SatisfactionSurvey
  | Lists.ListEvents _ => Entities.Event
  | Lists.ListJobs _ => Entities.Job
  end.

(** A filter that the list operations leave out: an unset, zero or empty one. *)
Definition sent_number (x : option Z) : option Z :=
  match x with
  | Some 0 => None
  | _ => x
  end.

Definition sent_string (x : option string) : option string :=
  match x with
  | Some "" => None
  | _ => x
  end.

Definition sent_page (p : PaginationParams) : PaginationParams :=
  {| limit := sent_number (limit p); cursor := sent_string (cursor p) |}.

(** The list operation with the filters it leaves out unset. *)
Definition as_sent (op : Lists.paginated_operation) : Lists.paginated_operation :=
  match op with
  | Lists.ListTickets p =>
      Lists.ListTickets
        {| ticket_page := sent_page (ticket_page p);
           status := sent_string (status p);
           channel := sent_string (channel p);
           assigneeUserId := sent_number (assigneeUserId p);
           assigneeTeamId := sent_number (assigneeTeamId p);
           customerId := sent_number (customerId p);
           tagIds := None;
           createdDatetimeAfter := sent_string (createdDatetimeAfter p);
           createdDatetimeBefore := sent_string (createdDatetimeBefore p);
           updatedDatetimeAfter := sent_string (updatedDatetimeAfter p);
           updatedDatetimeBefore := sent_string (updatedDatetimeBefore p);
           orderBy := sent_string (orderBy p) |}
  | Lists.ListMessages p =>
      Lists.ListMessages
        {| message_page := sent_page (message_page p);
           message_ticketId := sent_number (message_ticketId p) |}
  | Lists.ListCustomers p =>
      Lists.ListCustomers
        {| customer_page := sent_page (customer_page p);
           customer_email := sent_string (customer_email p) |}
  | Lists.ListUsers p => Lists.ListUsers (sent_page p)
  | Lists.ListMacros p => Lists.ListMacros (sent_page p)
  | Lists.ListRules p => Lists.ListRules (sent_page p)
  | Lists.ListViewItems viewId p => Lists.ListViewItems viewId (sent_page p)
  | Lists.ListSatisfactionSurveys p =>
      Lists.ListSatisfactionSurveys
        {| survey_page := sent_page (survey_page p);
           survey_ticketId := sent_number (survey_ticketId p);
           survey_customerId := sent_number (survey_customerId p) |}
  | Lists.ListEvents p =>
      Lists.ListEvents
        {| event_page := sent_page (event_page p);
           event_objectType := sent_string (event_objectType p);
           event_objectId := sent_number (event_objectId p);
           event_type := sent_string (event_type p) |}
  | Lists.ListJobs p => Lists.ListJobs (sent_page p)
  end.

End Calls.

(** ** The tools, enumerated *)

Module Catalog.
Import Http.

Inductive tool :=
| ListTool (t : Lists.list_tool)
| CreateMacro
| GetAccount
| GetStatistics
| TestConnection
| GetTicket
| UpdateTicket
| DeleteTicket
| AddTicketTags
| RemoveTicketTags.

Definition name (t : tool) : string :=
  match t with
  | ListTool Lists.ToolListTickets => "gorgias_list_tickets"
  | ListTool Lists.ToolListMessages => "gorgias_list_messages"
  | ListTool Lists.ToolListCustomers => "gorgias_list_customers"
  | ListTool Lists.ToolListUsers => "gorgias_list_users"
  | ListTool Lists.ToolListMacros => "gorgias_list_macros"
  | ListTool Lists.ToolListRules => "gorgias_list_rules"
  | ListTool Lists.ToolListViewItems => "gorgias_list_view_items"
  | ListTool Lists.ToolListSatisfactionSurveys => "gorgias_list_satisfaction_surveys"
  | ListTool Lists.ToolListEvents => "gorgias_list_events"
  | ListTool Lists.ToolListJobs => "gorgias_list_jobs"
  | CreateMacro => "gorgias_create_macro"
  | GetAccount => "gorgias_get_account"
  | GetStatistics => "gorgias_get_statistics"
  | TestConnection => "gorgias_test_connection"
  | GetTicket => "gorgias_get_ticket"
  | UpdateTicket => "gorgias_update_ticket"
  | DeleteTicket => "gorgias_delete_ticket"
  | AddTicketTags => "gorgias_add_ticket_tags"
  | RemoveTicketTags => "gorgias_remove_ticket_tags"
  end.

(** The entity kind of the rows that each list tool returns. *)
Definition rows_of (t : Lists.list_tool) : Entities.kind :=
  match t with
  | Lists.ToolListTickets => Entities.Ticket
  | Lists.ToolListMessages => Entities.Message
  | Lists.ToolListCustomers => Entities.Customer
  | Lists.ToolListUsers => Entities.User
  | Lists.ToolListMacros => Entities.Macro
  | Lists.ToolListRules => Entities.Rule
  | Lists.ToolListViewItems => Entities.Ticket
  | Lists.ToolListSatisfactionSurveys => Entities.SatisfactionSurvey
  | Lists.ToolListEvents => Entities.Event
  | Lists.ToolListJobs => Entities.Job
  end.

(** The entity type that each list tool passes to [formatResponse]. *)
Definition table_of (t : Lists.list_tool) : string :=
  match t with
  | Lists.ToolListTickets => "tickets"
  | Lists.ToolListMessages => "messages"
  | Lists.ToolListCustomers => "customers"
  | Lists.ToolListUsers => "users"
  | Lists.ToolListMacros => "macros"
  | Lists.ToolListRules => "rules"
  | Lists.ToolListViewItems => "tickets"
  | Lists.ToolListSatisfactionSurveys => "satisfaction_surveys"
  | Lists.ToolListEvents => "events"
  | Lists.ToolListJobs => "jobs"
  end.

Definition plain_rows_of (t : Lists.plain_tool) : Entities.kind :=
  match t with
  | Lists.ToolListTeams => Entities.Team
  | Lists.ToolListTags => Entities.Tag
  | Lists.ToolListIntegrations => Entities.Integration
  | Lists.ToolListViews => Entities.View
  | Lists.ToolListCustomFields => Entities.CustomField
  | Lists.ToolListWidgets => Entities.Widget
  end.

Definition plain_table_of (t : Lists.plain_tool) : string :=
  match t with
  | Lists.ToolListTeams => "teams"
  | Lists.ToolListTags => "tags"
  | Lists.ToolListIntegrations => "integrations"
  | Lists.ToolListViews => "views"
  | Lists.ToolListCustomFields => "custom_fields"
  | Lists.ToolListWidgets => "widgets"
  end.

(** The tools whose handler ends in [catch (error) { return formatError(error); }]. *)
Definition reports_with_formatError (t : tool) : bool :=
  match t with
  | TestConnection => false
  | _ => true
  end.

(** The tools that answer with a fixed confirmation. *)
Definition confirms (t : tool) : bool :=
  match t with
  | DeleteTicket | AddTicketTags | RemoveTicketTags => true
  | _ => false
  end.

Section Run.
Variable host : Host.
Variable formatErrorForLogging : exn -> value.
Variable upstream : Upstream.
Variable credentials : Env.GorgiasCredentials.

Definition run (t : tool) : value -> list HttpRequest * Tools.CallResult :=
  match t with
  | ListTool t => Lists.run_tool host formatErrorForLogging upstream credentials t
  | CreateMacro =>
      Tools.gorgias_create_macro host formatErrorForLogging upstream credentials
  | GetAccount =>
      RecordTools.gorgias_get_account host formatErrorForLogging upstream credentials
  | GetStatistics =>
      RecordTools.gorgias_get_statistics host formatErrorForLogging upstream credentials
  | TestConnection => RecordTools.gorgias_test_connection host upstream credentials
  | GetTicket =>
      RecordTools.gorgias_get_ticket host formatErrorForLogging upstream credentials
  | UpdateTicket =>
      RecordTools.gorgias_update_ticket host formatErrorForLogging upstream credentials
  | DeleteTicket =>
      RecordTools.gorgias_delete_ticket host formatErrorForLogging upstream credentials
  | AddTicketTags =>
      RecordTools.gorgias_add_ticket_tags host formatErrorForLogging upstream credentials
  | RemoveTicketTags =>
      RecordTools.gorgias_remove_ticket_tags host formatErrorForLogging upstream
        credentials
  end.

(** What a handler of the shape
    [try { const x = await client.op(...); return g(x); } catch (error)
    { return formatError(error); }] answers, where [op] awaits one
    request to [endpoint] and [k] is the rest of the try block, applied
    to the decoded body. *)
Definition handled (endpoint : string) (options : Client.RequestInit)
           (k : value -> completion Formatters.ToolResponse) : Formatters.ToolResponse :=
  match upstream (Lists.the_request credentials endpoint options) with
  | Throw e => Formatters.formatError formatErrorForLogging e
  | Return response =>
      match bind (Client.request_outcome host response) k with
      | Return r => r
      | Throw e => Formatters.formatError formatErrorForLogging e
      end
  end.

End Run.

End Catalog.

(** ** Notions used to state the properties of the query string *)

Module QuerySpec.

(** The query parameters start with [limit=n] and [cursor=c] and hold
    no other limit or cursor. *)
Definition page_first (n : Z) (c : string) (q : URLSearchParams) : Prop :=
  exists rest,
    q = ("limit", Z_to_string n) :: ("cursor", c) :: rest /\
    Forall (fun p => fst p <> "limit" /\ fst p <> "cursor") rest.

End QuerySpec.

(** ** Notions used to state which tenant a request is made for *)

Module TenantSpec.
Import Http.

(** The request goes to the Gorgias domain [d] and authenticates as
    the user [e] with the key [k]. *)
Definition addressed (d e k : string) (r : HttpRequest) : Prop :=
  (exists endpoint, url r = "https://" ++ d ++ ".gorgias.com/api" ++ endpoint) /\
  Headers_get (req_headers r) "Authorization" = Some ("Basic " ++ btoa (e ++ ":" ++ k)).

End TenantSpec.

(** ** Notions used to state what a list tool answers *)

Module AnswerSpec.
Import Formatters.

Section WithHost.
Variable host : Host.
Variable formatErrorForLogging : exn -> value.

(** The answer [r] of a handler that passes [data] to [formatResponse]
    inside its try block, for the arguments [args] and the entity type
    [entityType]: the JSON text of [data] unless the format is
    markdown; in markdown, the rendering of [data] when the formatter
    returns, and [formatError] of what the formatter throws when it
    does not. *)
Definition formatted (args : value) (entityType : string) (data : value)
           (r : ToolResponse) : Prop :=
  (get_opt args "format" <> VStr "markdown" ->
   exists text,
     JSON_stringify_2 data = Some text /\
     r = {| content := [Some text]; isError := None |})
  /\
  (get_opt args "format" = VStr "markdown" ->
   (FormatterSpec.markdown_ok host entityType data = true ->
    exists text,
      formatAsMarkdown host data entityType = Return text /\
      r = {| content := [Some text]; isError := None |})
   /\
   (FormatterSpec.markdown_ok host entityType data = false ->
    exists e,
      formatAsMarkdown host data entityType = Throw e /\
      r = formatError formatErrorForLogging e /\
      isError r = Some true)).

End WithHost.

End AnswerSpec.

(** ** Decimal numerals *)

Module Numeral.

(** The value of the digits of [d], read after the value [acc]. *)
Fixpoint uint_value (d : Decimal.uint) (acc : Z) : Z :=
  match d with
  | Decimal.Nil => acc
  | Decimal.D0 l => uint_value l (10 * acc)
  | Decimal.D1 l => uint_value l (10 * acc + 1)
  | Decimal.D2 l => uint_value l (10 * acc + 2)
  | Decimal.D3 l => uint_value l (10 * acc + 3)
  | Decimal.D4 l => uint_value l (10 * acc + 4)
  | Decimal.D5 l => uint_value l (10 * acc + 5)
  | Decimal.D6 l => uint_value l (10 * acc + 6)
  | Decimal.D7 l => uint_value l (10 * acc + 7)
  | Decimal.D8 l => uint_value l (10 * acc + 8)
  | Decimal.D9 l => uint_value l (10 * acc + 9)
  end.

End Numeral.

(* ===================================================================== *)
(** * Part II: properties                                                  *)
(* ===================================================================== *)

Example stringify_pretty :
  JSON_stringify_2
    (VObj [("items", VArr []); ("nextCursor", VUndefined);
           ("n", VArr [VNum 1; VUndefined])])
  = Some ("{" ++ nl ++ "  " ++ dq ++ "items" ++ dq ++ ": []," ++ nl
          ++ "  " ++ dq ++ "n" ++ dq ++ ": [" ++ nl ++ "    1," ++ nl ++ "    null" ++ nl
          ++ "  ]" ++ nl ++ "}").
Proof. reflexivity. Qed.

Example btoa_example : btoa "agent@acme.io:secret" = "YWdlbnRAYWNtZS5pbzpzZWNyZXQ=".
Proof. reflexivity. Qed.

Example read_json_example :
  Sample.read_json ("{" ++ dq ++ "data" ++ dq ++ ": [1, -2, {" ++ dq ++ "a" ++ dq
                    ++ ": null}], " ++ dq ++ "ok" ++ dq ++ ": true}")
  = Some (VObj [("data", VArr [VNum 1; VNum (-2); VObj [("a", VNull)]]);
                ("ok", VBool true)]).
Proof. reflexivity. Qed.

Example read_json_rejects : Sample.read_json "not json" = None.
Proof. reflexivity. Qed.

Example ToString_array :
  ToString (VArr [VNum 1; VNull; VStr "a"; VArr [VNum 2; VNum 3]]) = Return "1,,a,2,3"
  /\
  ToString (VArr [VNum 1; VObj [("toString", VNum 1)]])
  = Throw (TypeError "Cannot convert object to primitive value")
  /\
  ToString (VObj [("valueOf", VNum 1)]) = Return "[object Object]".
Proof. repeat split. Qed.

Example trim_example : trim "  a b  " = "a b".
Proof. reflexivity. Qed.

Example get_index : get (VArr [VNum 7; VNum 8]) "1" = Return (VNum 8).
Proof. reflexivity. Qed.

Example get_noncanonical : get (VArr [VNum 7; VNum 8]) "01" = Return VUndefined.
Proof. reflexivity. Qed.

(** ** Reading properties *)

Lemma get_returns (v : value) (k : string) :
  nullish v = false -> get v k = Return (get_opt v k).
Proof.
  unfold get_opt. destruct v; simpl; try discriminate; intros _;
    repeat match goal with
           | |- context [if ?b then _ else _] => destruct b
           | |- context [match ?x with Some _ => _ | None => _ end] => destruct x
           end; reflexivity.
Qed.

(** ** Credentials *)

Section CredentialFacts.
Import Env CredentialSpec.

Lemma falsy_present (m : option string) : falsy m = false <-> present m.
Proof.
  destruct m as [s|]; simpl.
  - rewrite String.eqb_neq. tauto.
  - split; [discriminate | tauto].
Qed.

Lemma falsy_not_present (m : option string) : falsy m = true <-> ~ present m.
Proof.
  rewrite <- falsy_present. destruct (falsy m); split; congruence.
Qed.

Lemma validate_unfold (c : PartialCredentials) :
  validateGorgiasCredentials c =
    match missing_headers c with
    | [] => Return {| domain := match p_domain c with Some s => s | None => "" end;
                      email := match p_email c with Some s => s | None => "" end;
                      apiKey := match p_apiKey c with Some s => s | None => "" end |}
    | names => Throw (JsError "Error" (missing_message names))
    end.
Proof.
  unfold validateGorgiasCredentials, missing_headers, members, missing_message.
  simpl.
  destruct (falsy (p_domain c)), (falsy (p_email c)), (falsy (p_apiKey c));
    reflexivity.
Qed.

Lemma missing_headers_nil (c : PartialCredentials) :
  missing_headers c = [] <->
  present (p_domain c) /\ present (p_email c) /\ present (p_apiKey c).
Proof.
  rewrite <- !falsy_present.
  unfold missing_headers, members. simpl.
  destruct (falsy (p_domain c)), (falsy (p_email c)), (falsy (p_apiKey c));
    simpl; intuition congruence.
Qed.

Lemma missing_headers_in (c : PartialCredentials) (h : string) :
  In h (missing_headers c) <->
  exists m, In (h, m) (members c) /\ ~ present m.
Proof.
  unfold missing_headers. rewrite in_map_iff. split.
  - intros [[h' m] [Hh Hin]]. simpl in Hh. subst h'.
    apply filter_In in Hin. destruct Hin as [Hin Hf].
    exists m. split; [exact Hin | now apply falsy_not_present].
  - intros [m [Hin Hp]]. exists (h, m). split; [reflexivity |].
    apply filter_In. split; [exact Hin | now apply falsy_not_present].
Qed.

(** C3.  [validateGorgiasCredentials] accepts a partial triple exactly
    when its three members are present (set to a non-empty string), and
    then returns those members.  Otherwise it throws an [Error] whose
    message is "Missing required headers: " followed by the header names
    of the members that are not present, each listed once, separated by
    ", ", in the order X-Gorgias-Domain, X-Gorgias-Email,
    X-Gorgias-API-Key. *)
Theorem validate_credentials_missing_in_order (c : PartialCredentials) :
  (present (p_domain c) /\ present (p_email c) /\ present (p_apiKey c) ->
   exists creds,
     validateGorgiasCredentials c = Return creds /\
     p_domain c = Some (domain creds) /\
     p_email c = Some (email creds) /\
     p_apiKey c = Some (apiKey creds))
  /\
  (~ (present (p_domain c) /\ present (p_email c) /\ present (p_apiKey c)) ->
   exists names,
     validateGorgiasCredentials c = Throw (JsError "Error" (missing_message names)) /\
     names <> [] /\
     names = map fst (filter (fun m => falsy (snd m)) (members c)) /\
     (forall h, In h names <-> exists m, In (h, m) (members c) /\ ~ present m)).
Proof.
  split.
  - intros Hall. pose proof (proj2 (missing_headers_nil c) Hall) as Hnil.
    rewrite validate_unfold, Hnil.
    destruct Hall as [Hd [He Hk]].
    destruct (p_domain c), (p_email c), (p_apiKey c); simpl in *; try tauto.
    eexists. split; [reflexivity |]. simpl. auto.
  - intros Hnot. exists (missing_headers c).
    assert (Hne : missing_headers c <> []).
    { intros Hnil. apply Hnot. now apply missing_headers_nil. }
    rewrite validate_unfold.
    split; [| split; [exact Hne | split; [reflexivity | apply missing_headers_in]]].
    destruct (missing_headers c); [congruence | reflexivity].
Qed.

Lemma validate_credentials_witness :
  (exists creds,
      validateGorgiasCredentials
        {| p_domain := Some "acme"; p_email := Some "a@acme.io"; p_apiKey := Some "k" |}
      = Return creds) /\
  validateGorgiasCredentials
    {| p_domain := Some "acme"; p_email := None; p_apiKey := Some "" |}
  = Throw (JsError "Error"
             "Missing required headers: X-Gorgias-Email, X-Gorgias-API-Key").
Proof.
  split.
  - destruct (validate_credentials_missing_in_order
                {| p_domain := Some "acme"; p_email := Some "a@acme.io";
                   p_apiKey := Some "k" |}) as [Hok _].
    destruct Hok as [creds [Hv _]].
    + simpl. repeat split; discriminate.
    + exists creds. exact Hv.
  - destruct (validate_credentials_missing_in_order
                {| p_domain := Some "acme"; p_email := None; p_apiKey := Some "" |})
      as [_ Hko].
    destruct Hko as [names [Hv [_ [Hn _]]]].
    + simpl. intros [_ [H _]]. exact H.
    + rewrite Hv, Hn. reflexivity.
Defined.

Lemma parse_member (hs : Headers) (h : string) :
  In h Worker.required_headers ->
  member (parseGorgiasCredentials hs) h = or_undefined (Headers_get hs h).
Proof.
  simpl. intros [H | [H | [H | []]]]; subst h; reflexivity.
Qed.

Lemma member_in_members (c : PartialCredentials) (h : string) :
  In h Worker.required_headers -> In (h, member c h) (members c).
Proof.
  simpl. intros [H | [H | [H | []]]]; subst h; unfold member; simpl; auto.
Qed.

Lemma or_undefined_present (x : option string) :
  or_undefined x = None \/ present (or_undefined x).
Proof.
  destruct x as [s|]; simpl; [| now left].
  destruct (String.eqb_spec s ""); [now left | now right].
Qed.

Lemma parse_missing (hs : Headers) (h : string) :
  In h Worker.required_headers ->
  falsy (Headers_get hs h) = true ->
  member (parseGorgiasCredentials hs) h = None /\
  In h (missing_headers (parseGorgiasCredentials hs)).
Proof.
  intros Hin Hf.
  assert (Hm : member (parseGorgiasCredentials hs) h = None).
  { rewrite parse_member by exact Hin.
    destruct (Headers_get hs h) as [s|]; simpl in *; [now rewrite Hf | reflexivity]. }
  split; [exact Hm |].
  apply missing_headers_in. exists None. split; [| simpl; tauto].
  rewrite <- Hm. now apply member_in_members.
Qed.

(** C10.  When a credential header is present with the empty string as
    its value, [parseGorgiasCredentials] leaves the corresponding member
    unset and [validateGorgiasCredentials] throws, with that header among
    the names its message lists; and whenever validation accepts what was
    extracted from a request, none of the three credentials is the empty
    string. *)
Theorem empty_header_value_is_missing (hs : Headers) :
  (forall h,
      In h Worker.required_headers ->
      Headers_get hs h = Some "" ->
      member (parseGorgiasCredentials hs) h = None /\
      exists names,
        validateGorgiasCredentials (parseGorgiasCredentials hs)
        = Throw (JsError "Error" (missing_message names)) /\
        In h names)
  /\
  (forall creds,
      validateGorgiasCredentials (parseGorgiasCredentials hs) = Return creds ->
      domain creds <> "" /\ email creds <> "" /\ apiKey creds <> "").
Proof.
  split.
  - intros h Hin Hget.
    destruct (parse_missing hs h Hin) as [Hm Hmiss]; [now rewrite Hget |].
    split; [exact Hm |].
    exists (missing_headers (parseGorgiasCredentials hs)).
    split; [| exact Hmiss].
    rewrite validate_unfold.
    destruct (missing_headers (parseGorgiasCredentials hs)); [destruct Hmiss | reflexivity].
  - intros creds. rewrite validate_unfold.
    destruct (missing_headers (parseGorgiasCredentials hs)) eqn:Hnil; [| discriminate].
    apply missing_headers_nil in Hnil. destruct Hnil as [Hd [He Hk]].
    intros Hret. injection Hret as <-. simpl in *.
    destruct (or_undefined (Headers_get hs "X-Gorgias-Domain")),
             (or_undefined (Headers_get hs "X-Gorgias-Email")),
             (or_undefined (Headers_get hs "X-Gorgias-API-Key"));
      simpl in *; tauto.
Qed.

Lemma empty_header_value_witness :
  validateGorgiasCredentials
    (parseGorgiasCredentials
       [("X-Gorgias-Domain", "acme"); ("x-gorgias-email", ""); ("X-Gorgias-API-Key", "k")])
  = Throw (JsError "Error" "Missing required headers: X-Gorgias-Email").
Proof.
  destruct (empty_header_value_is_missing
              [("X-Gorgias-Domain", "acme"); ("x-gorgias-email", "");
               ("X-Gorgias-API-Key", "k")]) as [H _].
  destruct (H "X-Gorgias-Email") as [_ [names [Hv _]]].
  - simpl. auto.
  - reflexivity.
  - reflexivity.
Defined.

End CredentialFacts.

(** ** The worker entry point *)

Section WorkerFacts.
Import Env CredentialSpec Worker.

(** C4.  A POST request to /mcp that lacks at least one of the three
    credential headers is answered by [fetch] itself with status 401 and
    a JSON body whose [required_headers] lists X-Gorgias-Domain,
    X-Gorgias-Email and X-Gorgias-API-Key and whose [message] names the
    missing headers; no server is built, so no tool is invoked and no
    upstream call is made. *)
Theorem mcp_missing_header_unauthorized (req : Request) :
  pathname req = "/mcp" ->
  method req = "POST" ->
  (exists h, In h required_headers /\ Headers_get (headers req) h = None) ->
  fetch req =
    Respond
      {| status := 401;
         contentType := Some "application/json";
         body :=
           BodyJson
             (VObj [ ("error", VStr "Unauthorized");
                     ("message",
                       VStr (missing_message
                               (missing_headers (parseGorgiasCredentials (headers req)))));
                     ("required_headers",
                       VArr [ VStr "X-Gorgias-Domain"; VStr "X-Gorgias-Email";
                              VStr "X-Gorgias-API-Key" ]) ]) |}
  /\ (forall credentials, fetch req <> ServeMcp credentials).
Proof.
  intros Hpath Hmeth [h [Hin Habs]].
  destruct (parse_missing (headers req) h Hin) as [_ Hmiss]; [now rewrite Habs |].
  unfold fetch. rewrite Hpath, Hmeth. simpl.
  rewrite validate_unfold.
  destruct (missing_headers (parseGorgiasCredentials (headers req))) eqn:Hm;
    [destruct Hmiss |].
  split; [reflexivity | discriminate].
Qed.

Lemma mcp_missing_header_witness :
  fetch {| pathname := "/mcp"; method := "POST";
           headers := [("X-Gorgias-Domain", "acme"); ("X-Gorgias-Email", "a@acme.io")] |}
  = Respond
      {| status := 401;
         contentType := Some "application/json";
         body :=
           BodyJson
             (VObj [ ("error", VStr "Unauthorized");
                     ("message", VStr "Missing required headers: X-Gorgias-API-Key");
                     ("required_headers",
                       VArr [ VStr "X-Gorgias-Domain"; VStr "X-Gorgias-Email";
                              VStr "X-Gorgias-API-Key" ]) ]) |}.
Proof.
  apply (mcp_missing_header_unauthorized
           {| pathname := "/mcp"; method := "POST";
              headers := [("X-Gorgias-Domain", "acme"); ("X-Gorgias-Email", "a@acme.io")] |}).
  - reflexivity.
  - reflexivity.
  - exists "X-Gorgias-API-Key". split; [simpl; auto | reflexivity].
Defined.

Example mcp_full_headers_served :
  fetch {| pathname := "/mcp"; method := "POST";
           headers := [("x-gorgias-domain", "acme"); ("X-Gorgias-Email", "a@acme.io");
                       ("X-GORGIAS-API-KEY", "k")] |}
  = ServeMcp {| domain := "acme"; email := "a@acme.io"; apiKey := "k" |}.
Proof. reflexivity. Qed.

Example mcp_get_is_info :
  fetch {| pathname := "/mcp"; method := "GET"; headers := [] |}
  = Respond (json_response 200 service_info).
Proof. reflexivity. Qed.

End WorkerFacts.

(** ** The request path of the client *)

Section RequestFacts.
Import Http Client RequestSpec.
Variable host : Host.




End RequestFacts.


(** ** The mapping functions *)

Section MappingFacts.
Import Client Entities.

Lemma eval_props_returns (raw : value) (props : list (string * init)) :
  Forall (fun p => returns (eval_init raw (snd p))) props ->
  exists fields,
    eval_props raw props = Return fields /\
    Forall2 (fun p f => fst f = fst p /\ eval_init raw (snd p) = Return (snd f))
            props fields.
Proof.
  induction 1 as [| [k i] props [v Hv] _ [fields [IH1 IH2]]].
  - exists []. split; [reflexivity | constructor].
  - exists ((k, v) :: fields). simpl in *. rewrite Hv. simpl. rewrite IH1. simpl.
    split; [reflexivity |]. constructor; [auto | exact IH2].
Qed.

Lemma read_returns (raw : value) (w : string) :
  nullish raw = false -> returns (eval_init raw (Read w)).
Proof. intros H. exists (get_opt raw w). simpl. now apply get_returns. Qed.

Lemma reads_return (raw : value) (props : list (string * init)) :
  nullish raw = false ->
  Forall (fun p => exists w, snd p = Read w) props ->
  Forall (fun p => returns (eval_init raw (snd p))) props.
Proof.
  intros Hraw. apply Forall_impl. intros [k i] [w Hw]. simpl in *. subst i.
  now apply read_returns.
Qed.

Lemma mapM_returns {A B} (f : A -> completion B) (l : list A) :
  Forall (fun x => returns (f x)) l -> returns (mapM f l).
Proof.
  induction 1 as [| x l [y Hy] _ [ys IH]].
  - exists []. reflexivity.
  - exists (y :: ys). simpl. rewrite Hy. simpl. rewrite IH. reflexivity.
Qed.

Lemma object_literal_reads (x : value) (props : list (string * init)) :
  nullish x = false ->
  Forall (fun p => exists w, snd p = Read w) props ->
  returns (object_literal x props).
Proof.
  intros Hx Hr. destruct (eval_props_returns x props (reads_return x props Hx Hr))
    as [fields [Hf _]].
  exists (VObj fields). unfold object_literal. rewrite Hf. reflexivity.
Qed.

Ltac all_reads :=
  solve [repeat (apply Forall_cons; [eexists; reflexivity |]); apply Forall_nil].

Lemma map_attachment_returns (a : value) : nullish a = false -> returns (map_attachment a).
Proof. intros H. apply object_literal_reads; [exact H | all_reads]. Qed.

Lemma map_channel_returns (c : value) : nullish c = false -> returns (map_channel c).
Proof. intros H. apply object_literal_reads; [exact H | all_reads]. Qed.

Lemma read_map_returns (raw : value) (w : string) (f : value -> completion value) :
  nullish raw = false ->
  (exists elems, get_opt raw w = VArr elems /\ Forall (fun x => returns (f x)) elems) ->
  returns (eval_init raw (ReadMap w f)).
Proof.
  intros Hraw [elems [Hget Hall]]. simpl. rewrite get_returns by exact Hraw.
  simpl. rewrite Hget. simpl.
  destruct (mapM_returns f elems Hall) as [l Hl]. rewrite Hl. eexists. reflexivity.
Qed.

Lemma array_of_records_spec (v : value) :
  array_of_records v = true ->
  exists elems, v = VArr elems /\ Forall (fun x => nullish x = false) elems.
Proof.
  destruct v; simpl; try discriminate. intros H. exists elems. split; [reflexivity |].
  apply Forall_forall. intros x Hx. rewrite forallb_forall in H.
  specialize (H x Hx). now apply negb_true_iff in H.
Qed.

Ltac props_return Hraw :=
  repeat (apply Forall_cons; [ solve [apply read_returns; exact Hraw] | ]);
  try apply Forall_nil.

Lemma mapMessage_returns (m : value) :
  nullish m = false -> array_of_records (get_opt m "attachments") = true ->
  returns (mapMessage m).
Proof.
  intros Hm Ha. apply array_of_records_spec in Ha. destruct Ha as [elems [Hget Hall]].
  assert (Hprops : Forall (fun p => returns (eval_init m (snd p))) mapMessage_props).
  { unfold mapMessage_props. props_return Hm.
    apply Forall_cons.
    - apply read_map_returns; [exact Hm |]. exists elems. split; [exact Hget |].
      revert Hall. apply Forall_impl. intros a. apply map_attachment_returns.
    - props_return Hm. }
  destruct (eval_props_returns m _ Hprops) as [fields [Hf _]].
  exists (VObj fields). unfold mapMessage, object_literal. rewrite Hf. reflexivity.
Qed.

Lemma props_return_of_kind (k : kind) (raw : value) :
  nullish raw = false -> nested_ok k raw = true ->
  Forall (fun p => returns (eval_init raw (snd p))) (props_of k).
Proof.
  intros Hraw Hn. destruct k; simpl in Hn; cbn [props_of];
    try solve [apply reads_return; [exact Hraw | all_reads]].
  - (* TicketWithMessages *)
    unfold mapTicketWithMessages_props. apply Forall_app. split.
    + apply reads_return; [exact Hraw | all_reads].
    + constructor; [| constructor]. apply read_map_returns; [exact Hraw |].
      destruct (get_opt raw "messages") as [| | | | | messages |]; try discriminate.
      exists messages. split; [reflexivity |].
      apply Forall_forall. intros m Hm. rewrite forallb_forall in Hn.
      specialize (Hn m Hm). apply andb_true_iff in Hn. destruct Hn as [H1 H2].
      apply mapMessage_returns; [now apply negb_true_iff in H1 | exact H2].
  - (* Message *)
    apply array_of_records_spec in Hn. destruct Hn as [elems [Hget Hall]].
    unfold mapMessage_props. props_return Hraw.
    apply Forall_cons.
    + apply read_map_returns; [exact Hraw |]. exists elems. split; [exact Hget |].
      revert Hall. apply Forall_impl. intros a. apply map_attachment_returns.
    + props_return Hraw.
  - (* Customer *)
    apply array_of_records_spec in Hn. destruct Hn as [elems [Hget Hall]].
    unfold mapCustomer_props. props_return Hraw.
    apply Forall_cons.
    + apply read_map_returns; [exact Hraw |]. exists elems. split; [exact Hget |].
      revert Hall. apply Forall_impl. intros a. apply map_channel_returns.
    + props_return Hraw.
  - (* Statistic *)
    unfold statistic_props. props_return Hraw.
    apply Forall_cons; [| constructor].
    simpl. rewrite get_returns by exact Hraw. simpl.
    apply object_literal_reads; [now apply negb_true_iff in Hn | all_reads].
Qed.


Lemma mapper_literal (k : kind) (raw : value) :
  mapper k raw = object_literal raw (props_of k).
Proof. destruct k; reflexivity. Qed.




Lemma lookup_init_in (i : string) (props : list (string * init)) :
  In i (map fst props) ->
  exists init0, lookup_init i props = Some init0 /\
                In (wire_of init0) (map (fun p => wire_of (snd p)) props).
Proof.
  induction props as [| [k init0] props IH]; simpl; [tauto |].
  intros Hin. destruct (String.eqb_spec i k) as [-> | Hne].
  - exists init0. auto.
  - destruct Hin as [Hk | Hin]; [congruence |].
    destruct (IH Hin) as [x [H1 H2]]. exists x. auto.
Qed.

Lemma distinct_NoDup (l : list string) : distinct l = true -> NoDup l.
Proof.
  induction l as [| x l IH]; simpl; [constructor |].
  intros H. apply andb_true_iff in H. destruct H as [Hx Hl].
  constructor; [| auto].
  intros Hin. apply negb_true_iff in Hx.
  assert (existsb (String.eqb x) l = true); [| congruence].
  apply existsb_exists. exists x. split; [exact Hin | apply String.eqb_refl].
Qed.

Lemma wire_table (k : kind) :
  map (fun p => wire_of (snd p)) (props_of k) = wire_fields k.
Proof. destruct k; reflexivity. Qed.








End MappingFacts.



Example mapTicket_renames :
  Entities.wire_name Entities.Ticket "spamStatus" = Some "spam" /\
  Entities.wire_name Entities.Ticket "snoozeUntilDatetime" = Some "snooze_datetime" /\
  Entities.wire_name Entities.Message "integrationsData" = Some "integrations".
Proof. repeat split. Qed.

(** ** The list operations *)

Section ListFacts.
Import Http Client Lists Formatters.
Variable host : Host.
Variable formatErrorForLogging : exn -> value.
Variable upstream : Upstream.
Variable credentials : Env.GorgiasCredentials.

Lemma result_ebind {A B} (m : Eff A) (k : A -> Eff B) (a : A) :
  result m = Return a -> result (ebind m k) = result (k a).
Proof.
  destruct m as [issued c]. simpl. intros ->. simpl. destruct (k a). reflexivity.
Qed.

Lemma request_result (endpoint : string) (options : RequestInit) (response : HttpResponse) :
  upstream (the_request credentials endpoint options) = Return response ->
  result (request host upstream credentials endpoint options) = request_outcome host response.
Proof.
  intros H. unfold request, perform, the_request, ebind, pure, result in *.
  cbv zeta. rewrite H. reflexivity.
Qed.

Lemma request_calls {A} (endpoint : string) (options : RequestInit)
      (f : value -> completion A) :
  calls (data <-- request host upstream credentials endpoint options ;; pure (f data))
  = [the_request credentials endpoint options].
Proof.
  unfold request, perform, the_request, ebind, pure, calls. cbv zeta.
  destruct (upstream _) as [response | e]; [| reflexivity].
  destruct (request_outcome host response); reflexivity.
Qed.

Lemma empty_page_paginated (mapper : value -> completion value) (body : value) :
  empty_page body -> paginated mapper body = Return empty_result.
Proof.
  intros [Hdata Hcursor]. unfold paginated.
  assert (Hn : nullish body = false).
  { destruct body; try reflexivity; discriminate. }
  rewrite !get_returns by exact Hn. simpl. rewrite Hdata. simpl.
  unfold empty_result. now rewrite Hcursor.
Qed.

Lemma empty_page_mapped (mapper : value -> completion value) (body : value) :
  empty_page body -> mapped mapper body = Return (VArr []).
Proof.
  intros [Hdata _]. unfold mapped.
  assert (Hn : nullish body = false).
  { destruct body; try reflexivity; discriminate. }
  rewrite get_returns by exact Hn. simpl. rewrite Hdata. reflexivity.
Qed.

Lemma decoded_body (response : HttpResponse) (body : value) :
  200 <= Http.status response <= 299 ->
  Http.status response <> 204 ->
  JSON_parse host (resp_body response) = Some body ->
  request_outcome host response = Return body.
Proof.
  intros [Hlo Hhi] H204 Hparse. unfold request_outcome, ok, parse_json.
  replace (Http.status response =? 429) with false by (symmetry; apply Z.eqb_neq; lia).
  replace (Http.status response =? 401) with false by (symmetry; apply Z.eqb_neq; lia).
  replace (Http.status response =? 403) with false by (symmetry; apply Z.eqb_neq; lia).
  replace (200 <=? Http.status response) with true by (symmetry; apply Z.leb_le; lia).
  replace (Http.status response <=? 299) with true by (symmetry; apply Z.leb_le; lia).
  replace (Http.status response =? 204) with false by (symmetry; apply Z.eqb_neq; lia).
  simpl. rewrite Hparse. reflexivity.
Qed.

(** C7 (as amended).  When the upstream answers with a success status
    other than 204 and a body that decodes to an empty data array and no
    next_cursor, each of the ten list operations that return a page
    returns [{ items: [], nextCursor: undefined }], and each of the six
    list operations that return an array (teams, tags, integrations,
    views, custom fields, widgets) returns the empty array; none throws. *)
Theorem empty_page_is_empty_result (response : HttpResponse) (body : value) :
  (forall r, upstream r = Return response) ->
  200 <= Http.status response <= 299 ->
  Http.status response <> 204 ->
  JSON_parse host (resp_body response) = Some body ->
  empty_page body ->
  (forall op, result (run_paginated host upstream credentials op) = Return empty_result)
  /\
  (forall op, result (run_plain host upstream credentials op) = Return (VArr [])).
Proof.
  intros Hup Hok H204 Hparse Hempty.
  pose proof (decoded_body response body Hok H204 Hparse) as Hbody.
  assert (Hreq : forall endpoint options,
             result (request host upstream credentials endpoint options) = Return body).
  { intros. rewrite (request_result _ _ response) by apply Hup. exact Hbody. }
  split; intros op; destruct op; cbn [run_paginated run_plain];
    unfold listTickets, listMessages, listCustomers, listUsers, listMacros, listRules,
      listViewItems, listSatisfactionSurveys, listEvents, listJobs, listTeams, listTags,
      listIntegrations, listViews, listCustomFields, listWidgets;
    cbv zeta;
    rewrite (result_ebind _ _ body) by apply Hreq;
    unfold pure, result; cbn [snd];
    first [now apply empty_page_paginated | now apply empty_page_mapped].
Qed.


Lemma set_cons (name v k old : string) (q : URLSearchParams) :
  URLSearchParams_set name v ((k, old) :: q) =
  if (k =? name)%string
  then (name, v) :: filter (fun p => negb (fst p =? name)%string) q
  else (k, old) :: URLSearchParams_set name v q.
Proof. reflexivity. Qed.

Lemma set_keeps_others (name v : string) (q : URLSearchParams) :
  name <> "limit" ->
  Forall (fun p => fst p <> "limit") q ->
  Forall (fun p => fst p <> "limit") (URLSearchParams_set name v q).
Proof.
  intros Hname. induction 1 as [| [k old] q Hk Hq IH].
  - constructor; [exact Hname | constructor].
  - rewrite set_cons. destruct (k =? name)%string.
    + constructor; [exact Hname |].
      apply Forall_forall. intros p Hp. apply filter_In in Hp.
      rewrite Forall_forall in Hq. apply Hq. tauto.
    + constructor; assumption.
Qed.

Lemma set_keeps_limit_first (name v : string) (n : Z) (q : URLSearchParams) :
  name <> "limit" -> limit_first n q -> limit_first n (URLSearchParams_set name v q).
Proof.
  intros Hname [rest [-> Hrest]]. rewrite set_cons.
  destruct (String.eqb_spec "limit" name) as [Heq | _]; [congruence |].
  eexists. split; [reflexivity |]. now apply set_keeps_others.
Qed.

Lemma set_string_keeps (name : string) (x : option string) (n : Z) (q : URLSearchParams) :
  name <> "limit" -> limit_first n q -> limit_first n (set_string name x q).
Proof.
  intros Hname Hq. unfold set_string. destruct x as [v|]; [| exact Hq].
  destruct (v =? "")%string; [exact Hq | now apply set_keeps_limit_first].
Qed.

Lemma set_number_keeps (name : string) (x : option Z) (n : Z) (q : URLSearchParams) :
  name <> "limit" -> limit_first n q -> limit_first n (set_number name x q).
Proof.
  intros Hname Hq. unfold set_number. destruct x as [v|]; [| exact Hq].
  destruct (v =? 0); [exact Hq | now apply set_keeps_limit_first].
Qed.

Lemma set_limit (n : Z) : n <> 0 -> limit_first n (set_number "limit" (Some n) []).
Proof.
  intros Hn. unfold set_number. apply Z.eqb_neq in Hn. rewrite Hn. simpl.
  eexists. split; [reflexivity | constructor].
Qed.

Ltac limit_first_chain Hn :=
  repeat first [ apply set_string_keeps; [discriminate |]
               | apply set_number_keeps; [discriminate |] ];
  apply set_limit; exact Hn.

Lemma append_assoc3 (a b c : string) : (a ++ b) ++ c = a ++ (b ++ c).
Proof. induction a as [| x a IH]; simpl; [reflexivity | now rewrite IH]. Qed.

Lemma paginated_operation_request (op : paginated_operation) (n : Z) :
  limit (page_of op) = Some n ->
  n <> 0 ->
  exists rest,
    Forall (fun p => fst p <> "limit") rest /\
    map url (calls (run_paginated host upstream credentials op))
    = [ getBaseUrl credentials
        ++ (path_of op ++ "?"
            ++ URLSearchParams_toString (("limit", Z_to_string n) :: rest)) ].
Proof.
  intros Hlimit Hn.
  destruct op; cbn [run_paginated page_of path_of] in *;
    unfold listTickets, listMessages, listCustomers, listUsers, listMacros, listRules,
      listViewItems, listSatisfactionSurveys, listEvents, listJobs;
    cbv zeta; rewrite request_calls; unfold the_request; cbn [map url];
    rewrite Hlimit;
    match goal with
    | |- context [URLSearchParams_toString ?q] =>
        let H := fresh in
        assert (H : limit_first n q) by limit_first_chain Hn;
        destruct H as [rest [-> Hrest]]; exists rest; split; [exact Hrest |]
    end;
    try reflexivity.
  (* listViewItems *)
  rewrite !append_assoc3. reflexivity.
Qed.

Lemma limit_too_big (args : value) (n : Z) :
  get_opt args "limit" = VNum n -> 100 < n ->
  Zod.object args = Zod.Valid args /\ Zod.limit args = Zod.Invalid "limit" "too_big".
Proof.
  intros Hget Hn. split.
  - destruct args; try discriminate; reflexivity.
  - unfold Zod.limit, Zod.member. rewrite Hget. simpl.
    replace (n <? 1) with false by (symmetry; apply Z.ltb_ge; lia).
    replace (100 <? n) with true by (symmetry; apply Z.ltb_lt; lia).
    reflexivity.
Qed.

Lemma list_tool_rejects (tool : list_tool) (args : value) (n : Z) :
  get_opt args "limit" = VNum n -> 100 < n ->
  exists path code,
    run_tool host formatErrorForLogging upstream credentials tool args
    = ([], Tools.InvalidParams path code).
Proof.
  intros Hget Hn. destruct (limit_too_big args n Hget Hn) as [Hobj Hlim].
  destruct tool; cbn [run_tool];
    unfold Tools.gorgias_list_tickets, Tools.gorgias_list_messages,
      Tools.gorgias_list_customers, Tools.gorgias_list_users, Tools.gorgias_list_macros,
      Tools.gorgias_list_rules, Tools.gorgias_list_view_items,
      Tools.gorgias_list_satisfaction_surveys, Tools.gorgias_list_events,
      Tools.gorgias_list_jobs, Tools.page_schema, Tools.call;
    rewrite Hobj; cbn [Zod.andThen];
    try (destruct (Zod.member Zod.number_int args "viewId"); cbn [Zod.andThen];
         [| eexists; eexists; reflexivity]);
    rewrite Hlim; cbn [Zod.andThen]; eexists; eexists; reflexivity.
Qed.

Lemma guarded_calls {A} (m : Eff A) (f : A -> completion ToolResponse) :
  fst (Tools.guarded formatErrorForLogging (x <-- m ;; pure (f x))) = calls m.
Proof.
  destruct m as [issued [a | e]]; unfold Tools.guarded, ecatch, ebind, pure, calls; simpl.
  - destruct (f a); simpl; now rewrite ?app_nil_r.
  - now rewrite app_nil_r.
Qed.

Lemma limit_valid (args : value) (n : Z) :
  Zod.limit args = Zod.Valid n ->
  1 <= n <= 100 /\
  (get_opt args "limit" = VNum n \/ (get_opt args "limit" = VUndefined /\ n = 20)).
Proof.
  unfold Zod.limit, Zod.member, Zod.number_int_min_max_default.
  destruct (get_opt args "limit") as [| | | m | | |]; try discriminate.
  - intros Hv. injection Hv as <-. split; [lia | auto].
  - destruct (Z.ltb_spec m 1) as [Hlo | Hlo]; [discriminate |].
    destruct (Z.ltb_spec 100 m) as [Hhi | Hhi]; [discriminate |].
    intros Hv. injection Hv as <-. split; [lia | auto].
Qed.

Ltac parse_schema H :=
  repeat match type of H with
         | Zod.andThen ?p _ = Zod.Valid _ =>
             let E := fresh "E" in
             destruct p eqn:E; cbn [Zod.andThen] in H; [| discriminate H]
         end.

Lemma list_tool_forwards (tool : list_tool) (args : value)
      (issued : list HttpRequest) (r : completion ToolResponse) :
  run_tool host formatErrorForLogging upstream credentials tool args
  = (issued, Tools.Completed r) ->
  exists op n,
    issued = calls (run_paginated host upstream credentials op) /\
    limit (page_of op) = Some n /\
    1 <= n <= 100 /\
    (get_opt args "limit" = VNum n \/ (get_opt args "limit" = VUndefined /\ n = 20)).
Proof.
  destruct tool; cbn [run_tool];
    unfold Tools.gorgias_list_tickets, Tools.gorgias_list_messages,
      Tools.gorgias_list_customers, Tools.gorgias_list_users, Tools.gorgias_list_macros,
      Tools.gorgias_list_rules, Tools.gorgias_list_view_items,
      Tools.gorgias_list_satisfaction_surveys, Tools.gorgias_list_events,
      Tools.gorgias_list_jobs, Tools.call;
    match goal with
    | |- context [match ?schema with Zod.Valid _ => _ | Zod.Invalid _ _ => _ end] =>
        destruct schema as [a | path code] eqn:Hschema; [| discriminate]
    end;
    unfold Tools.page_schema in Hschema; parse_schema Hschema;
    injection Hschema as <-;
    match goal with
    | E : Zod.limit args = Zod.Valid ?n |- _ =>
        destruct (limit_valid args n E) as [Hrange Hsource]
    end;
    match goal with
    | |- (let (_, _) := ?h in _) = _ -> _ =>
        destruct h as [issued' r'] eqn:Hh; intros Heq; injection Heq as <- <-;
        apply (f_equal fst) in Hh; cbn [fst] in Hh
    end.
  all: [> eexists (ListTickets _), _ | eexists (ListMessages _), _
          | eexists (ListCustomers _), _ | eexists (ListUsers _), _
          | eexists (ListMacros _), _ | eexists (ListRules _), _
          | eexists (ListViewItems _ _), _ | eexists (ListSatisfactionSurveys _), _
          | eexists (ListEvents _), _ | eexists (ListJobs _), _ ].
  all: (split;
        [ symmetry in Hh; subst issued'; cbn [snd run_paginated];
          apply guarded_calls
        | split; [reflexivity | split; eassumption] ]).
Qed.


Lemma plain_operation_request (op : plain_operation) :
  exists q,
    Forall (fun p => fst p <> "limit") q /\
    (map url (calls (run_plain host upstream credentials op))
     = [getBaseUrl credentials ++ plain_path op]
     \/
     map url (calls (run_plain host upstream credentials op))
     = [getBaseUrl credentials ++ (plain_path op ++ "?" ++ URLSearchParams_toString q)]).
Proof.
  destruct op as [| | | | params |]; cbn [run_plain plain_path];
    unfold listTeams, listTags, listIntegrations, listViews, listCustomFields, listWidgets;
    cbv zeta; rewrite request_calls; unfold the_request; cbn [map url];
    try (exists []; split; [constructor | left; reflexivity]).
  exists (set_string "object_type" (field_objectType params) []). split.
  - unfold set_string. destruct (field_objectType params) as [v |]; [| constructor].
    destruct (v =? "")%string; [constructor |].
    cbn. constructor; [discriminate | constructor].
  - right. reflexivity.
Qed.

Lemma plain_tool_forwards (tool : plain_tool) (args : value) :
  (forall path code,
      run_plain_tool host formatErrorForLogging upstream credentials tool args
      = ([], Tools.InvalidParams path code) ->
      path <> "limit")
  /\
  (forall issued r,
      run_plain_tool host formatErrorForLogging upstream credentials tool args
      = (issued, Tools.Completed r) ->
      exists op, issued = calls (run_plain host upstream credentials op)).
Proof.
  destruct tool; cbn [run_plain_tool];
    unfold Tools.gorgias_list_teams, Tools.gorgias_list_tags,
      Tools.gorgias_list_integrations, Tools.gorgias_list_views,
      Tools.gorgias_list_custom_fields, Tools.gorgias_list_widgets,
      Tools.format_schema, Tools.call;
    (destruct args;
     cbn [Zod.object Zod.andThen];
     try (split; [intros path code H; injection H as <- _; discriminate
                 | intros issued r H; discriminate H]));
    unfold Zod.member, Zod.enum_optional, Zod.format_default_json;
    repeat match goal with
           | |- context [match get_opt ?a ?k with _ => _ end] =>
               destruct (get_opt a k); cbn [Zod.andThen]
           | |- context [if ?b then _ else _] => destruct b; cbn [Zod.andThen]
           end;
    (split;
     [ intros path code H;
       first [ injection H as <- _; discriminate
             | exfalso; revert H;
               match goal with
               | |- (let (_, _) := ?h in _) = _ -> _ => destruct h; discriminate
               end ]
     | intros issued r H;
       first [ discriminate H
             | revert H;
               match goal with
               | |- (let (_, _) := ?h in _) = _ -> _ =>
                   let Hh := fresh in
                   destruct h as [issued' r'] eqn:Hh; intros Heq;
                   injection Heq as <- <-;
                   apply (f_equal fst) in Hh; cbn [fst] in Hh;
                   rewrite guarded_calls in Hh
               end ] ]).
  all: match goal with H : calls _ = _ |- _ => rewrite <- H end;
    first [ now exists ListTeams | now exists ListTags | now exists ListIntegrations
          | now exists ListViews | now exists ListWidgets
          | eexists (ListCustomFields _); reflexivity ].
Qed.

(** C1 (as amended).  No list operation clamps the limit.  The helper
    [normalizePaginationParams] does return the smaller of the limit (20
    when it is unset or zero) and the maximum, but the list operations
    do not call it: each list operation of the client that takes a limit
    sends a non-zero limit unchanged, as the first query parameter.  Each
    of the ten list tools that take a limit refuses a limit above 100 by
    its input schema, before its handler runs and without any upstream
    request; a call it accepts has a limit from 1 to 100 (20 when
    omitted) and sends exactly that.  The six other list tools (teams,
    tags, integrations, views, custom fields, widgets) declare no limit:
    no call of theirs is refused on account of a limit, and the one
    request of a call they accept carries no limit. *)
Theorem limit_is_validated_not_clamped :
  (forall params maxLimit,
      limit (Pagination.normalizePaginationParams params maxLimit)
      = Some (Z.min (Pagination.limit_or_default params) maxLimit))
  /\
  (forall op n,
      limit (page_of op) = Some n ->
      n <> 0 ->
      exists rest,
        Forall (fun p => fst p <> "limit") rest /\
        map url (calls (run_paginated host upstream credentials op))
        = [ getBaseUrl credentials
            ++ (path_of op ++ "?"
                ++ URLSearchParams_toString (("limit", Z_to_string n) :: rest)) ])
  /\
  (forall tool args n,
      get_opt args "limit" = VNum n ->
      100 < n ->
      exists path code,
        run_tool host formatErrorForLogging upstream credentials tool args
        = ([], Tools.InvalidParams path code))
  /\
  (forall tool args issued r,
      run_tool host formatErrorForLogging upstream credentials tool args
      = (issued, Tools.Completed r) ->
      exists op n,
        issued = calls (run_paginated host upstream credentials op) /\
        limit (page_of op) = Some n /\
        1 <= n <= 100 /\
        (get_opt args "limit" = VNum n \/ (get_opt args "limit" = VUndefined /\ n = 20)))
  /\
  (forall tool args,
      (forall path code,
          run_plain_tool host formatErrorForLogging upstream credentials tool args
          = ([], Tools.InvalidParams path code) ->
          path <> "limit")
      /\
      (forall issued r,
          run_plain_tool host formatErrorForLogging upstream credentials tool args
          = (issued, Tools.Completed r) ->
          exists op, issued = calls (run_plain host upstream credentials op)))
  /\
  (forall op,
      exists q,
        Forall (fun p => fst p <> "limit") q /\
        (map url (calls (run_plain host upstream credentials op))
         = [getBaseUrl credentials ++ plain_path op]
         \/
         map url (calls (run_plain host upstream credentials op))
         = [ getBaseUrl credentials
             ++ (plain_path op ++ "?" ++ URLSearchParams_toString q) ])).
Proof.
  split; [| split; [| split; [| split; [| split]]]].
  - reflexivity.
  - apply paginated_operation_request.
  - apply list_tool_rejects.
  - apply list_tool_forwards.
  - apply plain_tool_forwards.
  - apply plain_operation_request.
Qed.

(** C5.  When the [actionsJson] argument of [gorgias_create_macro] is no
    JSON text, the handler issues no upstream request and returns, without
    throwing, the envelope with [isError: true] whose text is the JSON of
    [{ error: "Error: " + message, details }], where [message] is the
    message of the [SyntaxError] that [JSON.parse] throws. *)
Theorem create_macro_invalid_json (args : value) (a : Tools.CreateMacroArgs) :
  Tools.create_macro_schema args = Zod.Valid a ->
  JSON_parse host (Tools.arg_actionsJson a) = None ->
  let message := JSON_parse_error host (Tools.arg_actionsJson a) in
  let envelope :=
    VObj [ ("error", VStr ("Error: " ++ message));
           ("details", formatErrorForLogging (JsError "SyntaxError" message)) ] in
  get_opt args "actionsJson" = VStr (Tools.arg_actionsJson a) /\
  Tools.gorgias_create_macro host formatErrorForLogging upstream credentials args
  = ([], Tools.Completed
           (Return {| Formatters.content := [JSON_stringify_2 envelope];
                      Formatters.isError := Some true |})) /\
  exists text, JSON_stringify_2 envelope = Some text.
Proof.
  intros Hschema Hparse. cbv zeta. split; [| split].
  - unfold Tools.create_macro_schema in Hschema. parse_schema Hschema.
    injection Hschema as <-. cbn [Tools.arg_actionsJson].
    unfold Zod.member, Zod.string_required in *.
    destruct (get_opt args "actionsJson"); try discriminate. congruence.
  - unfold Tools.gorgias_create_macro, Tools.call. rewrite Hschema.
    unfold Tools.create_macro_handler, Tools.guarded, parse_json.
    rewrite Hparse. reflexivity.
  - eexists. reflexivity.
Qed.

End ListFacts.

Lemma limit_500_is_not_clamped :
  Tools.gorgias_list_customers Sample.host Sample.formatErrorForLogging
    Sample.empty_upstream Sample.credentials (VObj [("limit", VNum 500)])
  = ([], Tools.InvalidParams "limit" "too_big")
  /\
  map Http.url
    (Http.calls
       (Client.listCustomers Sample.host Sample.empty_upstream Sample.credentials
          (Sample.no_filter (Some 500))))
  = ["https://acme.gorgias.com/api/customers?limit=500"].
Proof. split; reflexivity. Qed.

Example list_teams_ignores_limit :
  map Http.url
    (fst (Tools.gorgias_list_teams Sample.host Sample.formatErrorForLogging
            Sample.empty_upstream Sample.credentials (VObj [("limit", VNum 500)])))
  = ["https://acme.gorgias.com/api/teams"].
Proof. reflexivity. Qed.

Lemma limit_is_validated_witness :
  exists rest,
    map Http.url
      (Http.calls
         (Client.listCustomers Sample.host Sample.empty_upstream Sample.credentials
            (Sample.no_filter (Some 500))))
    = [ "https://acme.gorgias.com/api"
        ++ ("/customers" ++ "?"
            ++ URLSearchParams_toString (("limit", Z_to_string 500) :: rest)) ].
Proof.
  destruct (limit_is_validated_not_clamped Sample.host Sample.formatErrorForLogging
              Sample.empty_upstream Sample.credentials) as [_ [H _]].
  destruct (H (Lists.ListCustomers (Sample.no_filter (Some 500))) 500)
    as [rest [_ Hurl]].
  - reflexivity.
  - discriminate.
  - exists rest. exact Hurl.
Defined.

Example list_customers_limit_50 :
  map Http.url
    (fst (Tools.gorgias_list_customers Sample.host Sample.formatErrorForLogging
            Sample.empty_upstream Sample.credentials
            (VObj [("limit", VNum 50); ("email", VStr "a b@acme.io")])))
  = ["https://acme.gorgias.com/api/customers?limit=50&email=a+b%40acme.io"].
Proof. reflexivity. Qed.

Lemma list_teams_returns_bare_array :
  Http.result (Client.listTeams Sample.host Sample.empty_upstream Sample.credentials)
  = Return (VArr [])
  /\
  Http.result (Client.listTeams Sample.host Sample.empty_upstream Sample.credentials)
  <> Return Lists.empty_result.
Proof. split; [reflexivity | discriminate]. Qed.

Lemma empty_page_witness :
  Http.result
    (Client.listCustomers Sample.host Sample.empty_upstream Sample.credentials
       (Sample.no_filter (Some 20)))
  = Return (VObj [("items", VArr []); ("nextCursor", VUndefined)]).
Proof.
  destruct (empty_page_is_empty_result Sample.host Sample.empty_upstream
              Sample.credentials (Sample.json_reply 200 Sample.empty_page_text)
              (VObj [("data", VArr [])])) as [H _].
  - reflexivity.
  - simpl. lia.
  - discriminate.
  - reflexivity.
  - split; reflexivity.
  - exact (H (Lists.ListCustomers (Sample.no_filter (Some 20)))).
Defined.

Lemma create_macro_invalid_json_witness :
  Tools.gorgias_create_macro Sample.host Sample.formatErrorForLogging
    Sample.empty_upstream Sample.credentials
    (VObj [("name", VStr "Refund"); ("actionsJson", VStr "not json")])
  = ([], Tools.Completed
           (Return
              {| Formatters.content :=
                   [JSON_stringify_2
                      (VObj [ ("error", VStr "Error: Unexpected token in JSON: not json");
                              ("details",
                                VObj [ ("name", VStr "SyntaxError");
                                       ("message",
                                         VStr "Unexpected token in JSON: not json") ]) ])];
                 Formatters.isError := Some true |})).
Proof.
  apply (create_macro_invalid_json Sample.host Sample.formatErrorForLogging
           Sample.empty_upstream Sample.credentials
           (VObj [("name", VStr "Refund"); ("actionsJson", VStr "not json")])
           {| Tools.arg_name := "Refund"; Tools.arg_actionsJson := "not json";
              Tools.arg_intent := None; Tools.arg_language := None |}).
  - reflexivity.
  - reflexivity.
Defined.

(** ** The response formatter *)

Section FormatterFacts.
Import Formatters FormatterSpec.
Variable host : Host.

Lemma not_returns_throw {A} (e : exn) : ~ returns (@Throw A e).
Proof. intros [a H]. discriminate. Qed.

Lemma returns_return {A} (a : A) : returns (Return a).
Proof. exists a. reflexivity. Qed.

Lemma returns_bind_total {A B} (c : completion A) (k : A -> completion B) :
  (forall a, returns (k a)) -> (returns (bind c k) <-> returns c).
Proof.
  intros Hk. destruct c as [a | e]; simpl.
  - split; intros _; [apply returns_return | apply Hk].
  - split; intros H; exact H || (exfalso; revert H; apply not_returns_throw).
Qed.

Lemma returns_bind_iff {A B} (c : completion A) (k : A -> completion B) :
  returns (bind c k) <-> exists a, c = Return a /\ returns (k a).
Proof.
  destruct c as [a | e]; simpl; split.
  - intros H. now exists a.
  - intros [a' [Ha H]]. now injection Ha as <-.
  - intros H. exfalso. revert H. apply not_returns_throw.
  - intros [a [Ha _]]. discriminate Ha.
Qed.

Lemma mapM_returns_iff {A B} (f : A -> completion B) (l : list A) :
  returns (Client.mapM f l) <-> Forall (fun x => returns (f x)) l.
Proof.
  split; [| apply mapM_returns].
  induction l as [| x l IH]; simpl; [constructor |].
  destruct (f x) as [y | e] eqn:Hy; simpl.
  - destruct (Client.mapM f l) as [ys | e]; simpl.
    + intros _. constructor; [rewrite Hy; apply returns_return | apply IH, returns_return].
    + intros H. exfalso. revert H. apply not_returns_throw.
  - intros H. exfalso. revert H. apply not_returns_throw.
Qed.

Lemma table_returns (header rule : string) (line : value -> completion string)
      (items : list value) :
  returns (table header rule line items) <-> Forall (fun x => returns (line x)) items.
Proof.
  unfold table. rewrite returns_bind_total by (intros; apply returns_return).
  apply mapM_returns_iff.
Qed.

(** Induction on a value, through the elements of an array. *)
Lemma value_induction (P : value -> Prop) :
  P VUndefined -> P VNull -> (forall b, P (VBool b)) -> (forall n, P (VNum n)) ->
  (forall s, P (VStr s)) ->
  (forall elems, Forall P elems -> P (VArr elems)) ->
  (forall props, P (VObj props)) ->
  forall v, P v.
Proof.
  intros Hu Hn Hb Hi Hs Ha Ho. fix IH 1.
  intros [| | b | n | s | elems | props];
    [exact Hu | exact Hn | apply Hb | apply Hi | apply Hs | | apply Ho].
  apply Ha. revert elems. fix IHl 1.
  intros [| x l]; constructor; [apply IH | apply IHl].
Qed.

(** The conversion of an array is the conversion of its elements, in order. *)
Lemma ToString_elements (elems : list value) :
  ToString (VArr elems)
  = (parts <- Client.mapM element_text elems ;; Return (join "," parts)).
Proof.
  cbn [ToString]. f_equal.
  induction elems as [| x l IH]; [reflexivity |].
  cbn [Client.mapM]. rewrite <- IH. reflexivity.
Qed.

Lemma ToString_returns (v : value) : returns (ToString v) <-> printable v = true.
Proof.
  induction v as [| | b | n | s | elems IH | props] using value_induction;
    try (split; intros _; [reflexivity | apply returns_return]).
  - rewrite ToString_elements.
    rewrite returns_bind_total by (intros; apply returns_return).
    rewrite mapM_returns_iff. cbn [printable]. rewrite forallb_forall, Forall_forall.
    rewrite Forall_forall in IH.
    split; intros H x Hx; specialize (H x Hx); specialize (IH x Hx).
    + destruct x; try reflexivity; now apply IH.
    + destruct x; try apply returns_return; now apply IH.
  - cbn [ToString printable]. destruct (assoc "toString" props).
    + split; [intros H; exfalso; revert H; apply not_returns_throw | discriminate].
    + split; intros _; [reflexivity | apply returns_return].
Qed.

Lemma ToPrimitive_returns (v : value) : returns (ToPrimitive v) <-> printable v = true.
Proof.
  destruct v; try (split; intros _; [reflexivity | apply returns_return]);
    unfold ToPrimitive;
    rewrite returns_bind_total by (intros; apply returns_return);
    apply ToString_returns.
Qed.

Lemma printable_falsy (v : value) : truthy v = false -> printable v = true.
Proof. destruct v; try discriminate; reflexivity. Qed.

Lemma printable_or_else (a b : value) :
  printable b = true -> printable (or_else a b) = printable a.
Proof.
  intros Hb. unfold or_else. destruct (truthy a) eqn:Ha; [reflexivity |].
  now rewrite Hb, (printable_falsy a Ha).
Qed.

Lemma printable_formatDate (d : value) : printable (formatDate host d) = printable d.
Proof.
  unfold formatDate. destruct (truthy d) eqn:Hd; cbn [negb].
  - destruct (ToPrimitive d) as [p | e] eqn:Hp; [| reflexivity].
    destruct (Date_toISOString host p); [| reflexivity].
    symmetry. apply ToPrimitive_returns. rewrite Hp. apply returns_return.
  - now rewrite (printable_falsy d Hd).
Qed.

Lemma printable_yes_no (x : value) : printable (yes_no x) = true.
Proof. unfold yes_no. destruct (truthy x); reflexivity. Qed.

Lemma printable_choice (b : bool) (s t : string) :
  printable (if b then VStr s else VStr t) = true.
Proof. now destruct b. Qed.

Lemma row_returns (cells : list value) :
  returns (row cells) <-> forallb printable cells = true.
Proof.
  unfold row. rewrite returns_bind_total by (intros; apply returns_return).
  rewrite mapM_returns_iff, forallb_forall, Forall_forall.
  split; intros H x Hx; apply ToString_returns, H, Hx.
Qed.

Lemma le_number_returns (m n : Z) : le host (VNum m) n = Return (m <=? n).
Proof. reflexivity. Qed.

Lemma truncated_returns (x : value) (n : Z) :
  returns (truncated host x n) <-> truncatable host x n = true.
Proof.
  unfold truncated, truncatable, truncate.
  destruct (truthy x) eqn:Ht; cbn [negb orb].
  - assert (Hn : nullish x = false) by (destruct x; simpl in *; congruence).
    rewrite (get_returns x "length" Hn). cbn [bind].
    destruct (le host (get_opt x "length") n) as [[|] | e] eqn:Hle; cbn [bind].
    + split; intros _; [destruct x; reflexivity | apply returns_return].
    + destruct x; split; intros H;
        try (exfalso; revert H; apply not_returns_throw);
        try discriminate H; try reflexivity; apply returns_return.
    + destruct x; try (split; intros H;
                       [exfalso; revert H; apply not_returns_throw | discriminate H]).
      discriminate Hle.
  - split; intros _; [reflexivity | apply returns_return].
Qed.

Lemma truncated_printable (x y : value) (n : Z) :
  truncated host x n = Return y -> printable y = printable x.
Proof.
  unfold truncated, truncate. destruct (truthy x) eqn:Ht.
  - assert (Hn : nullish x = false) by (destruct x; simpl in *; congruence).
    rewrite (get_returns x "length" Hn). cbn [bind].
    destruct (le host (get_opt x "length") n) as [[|] | e]; cbn [bind].
    + intros H. now injection H as <-.
    + destruct x; try discriminate. intros H. now injection H as <-.
    + discriminate.
  - intros H. injection H as <-. now rewrite (printable_falsy x Ht).
Qed.

Lemma display_name_returns (n f l : value) :
  returns (display_name n f l)
  <-> (if truthy n then true else printable f && printable l) = true.
Proof.
  unfold display_name. destruct (truthy n).
  - split; intros _; [reflexivity | apply returns_return].
  - rewrite returns_bind_iff. split.
    + intros [a [Ha H]]. apply returns_bind_iff in H. destruct H as [b [Hb _]].
      apply andb_true_iff. split.
      * rewrite <- (printable_or_else f (VStr "")) by reflexivity.
        apply ToString_returns. rewrite Ha. apply returns_return.
      * rewrite <- (printable_or_else l (VStr "")) by reflexivity.
        apply ToString_returns. rewrite Hb. apply returns_return.
    + intros H. apply andb_true_iff in H. destruct H as [Hf Hl].
      rewrite <- (printable_or_else f (VStr "")) in Hf by reflexivity.
      rewrite <- (printable_or_else l (VStr "")) in Hl by reflexivity.
      apply ToString_returns in Hf. apply ToString_returns in Hl.
      destruct Hf as [a Ha], Hl as [b Hb]. exists a. split; [exact Ha |].
      rewrite Hb. apply returns_return.
Qed.

Lemma display_name_printable (n f l y : value) :
  display_name n f l = Return y ->
  printable y = (if truthy n then printable n else true).
Proof.
  unfold display_name. destruct (truthy n).
  - intros H. now injection H as <-.
  - destruct (ToString _); [| discriminate]. cbn [bind].
    destruct (ToString _); [| discriminate]. cbn [bind].
    intros H. injection H as <-. unfold or_else. now destruct (truthy _).
Qed.

Lemma name_parts_printable (x : value) :
  forallb printable (name_parts x)
  = (if truthy (get_opt x "name") then printable (get_opt x "name")
     else printable (get_opt x "firstname") && printable (get_opt x "lastname")).
Proof.
  unfold name_parts. destruct (truthy (get_opt x "name")); cbn [forallb];
    now rewrite ?andb_true_r.
Qed.

Lemma nullish_cases (x : value) : nullish x = true -> x = VUndefined \/ x = VNull.
Proof. destruct x; simpl; try discriminate; auto. Qed.

(** Evaluates the reads of an item that is neither null nor undefined. *)
Ltac reads Hn := repeat first [ rewrite (get_returns _ _ Hn) | progress cbn [bind] ].

Ltac line_throws Hn :=
  destruct (nullish_cases _ Hn); subst; simpl;
  (split; intros H; [exfalso; revert H; apply not_returns_throw | discriminate H]).

Lemma rows_fit (entityType : string) (line : value -> completion string)
      (items : list value) :
  (forall x, returns (line x) <-> row_ok host entityType x = true) ->
  Forall (fun x => returns (line x)) items <-> forallb (row_ok host entityType) items = true.
Proof.
  intros Hline. rewrite Forall_forall, forallb_forall.
  split; intros H x Hx; apply Hline, H, Hx.
Qed.

(** The cells of a line can be converted when the values it shows can. *)
Ltac shown_cells :=
  unfold shown, contact;
  cbn [String.eqb Ascii.eqb Bool.eqb orb andb negb forallb app];
  rewrite ?forallb_app, ?name_parts_printable; cbn [forallb];
  rewrite ?printable_formatDate, ?printable_yes_no, ?printable_choice;
  repeat rewrite printable_or_else by reflexivity;
  rewrite ?andb_true_r.

Lemma truncating_line_returns (x : value) (n : Z) (cells : value -> list value)
      (values : list value) :
  (forall y, printable y = printable x ->
             forallb printable (cells y) = forallb printable values) ->
  returns (y <- truncated host x n ;; row (cells y))
  <-> truncatable host x n && forallb printable values = true.
Proof.
  intros Hcells. rewrite returns_bind_iff. split.
  - intros [y [Hy Hrow]]. apply row_returns in Hrow.
    rewrite (Hcells y (truncated_printable _ _ _ Hy)) in Hrow. rewrite Hrow, andb_true_r.
    apply truncated_returns. rewrite Hy. apply returns_return.
  - intros H. apply andb_true_iff in H. destruct H as [Ht Hrest].
    apply truncated_returns in Ht. destruct Ht as [y Hy]. exists y.
    split; [exact Hy |]. apply row_returns.
    now rewrite (Hcells y (truncated_printable _ _ _ Hy)).
Qed.

Lemma named_line_returns (n f l : value) (cells : value -> list value)
      (values : list value) :
  (forall y, printable y = (if truthy n then printable n else true) ->
             ((if truthy n then true else printable f && printable l)
              && forallb printable (cells y)) = forallb printable values) ->
  returns (y <- display_name n f l ;; row (cells y))
  <-> forallb printable values = true.
Proof.
  intros Hcells. rewrite returns_bind_iff. split.
  - intros [y [Hy Hrow]]. apply row_returns in Hrow.
    rewrite <- (Hcells y (display_name_printable _ _ _ _ Hy)), Hrow, andb_true_r.
    apply display_name_returns. rewrite Hy. apply returns_return.
  - intros H.
    assert (Hd : returns (display_name n f l)).
    { apply display_name_returns.
      destruct (display_name n f l) as [y | e] eqn:Hy.
      - apply display_name_returns. rewrite Hy. apply returns_return.
      - destruct (truthy n) eqn:Hn; [reflexivity |].
        unfold display_name in Hy. rewrite Hn in Hy.
        specialize (Hcells VUndefined eq_refl). rewrite H in Hcells.
        now apply andb_true_iff in Hcells. }
    destruct Hd as [y Hy]. exists y. split; [exact Hy |]. apply row_returns.
    specialize (Hcells y (display_name_printable _ _ _ _ Hy)). rewrite H in Hcells.
    now apply andb_true_iff in Hcells.
Qed.

Ltac cells_agree :=
  let y := fresh "y" in
  let Hy := fresh "Hy" in
  intros y Hy; shown_cells; rewrite ?Hy;
  repeat match goal with
         | |- context [if ?b then _ else _] => destruct b
         end;
  cbn [andb];
  repeat match goal with
         | |- context [printable ?v] =>
             match v with
             | get_opt _ _ => destruct (printable v)
             | or_else _ _ => destruct (printable v)
             end
         end;
  reflexivity.

Lemma tickets_returns (items : list value) :
  returns (formatTicketsTable host items) <-> forallb (row_ok host "tickets") items = true.
Proof.
  unfold formatTicketsTable. rewrite table_returns. apply rows_fit. intros x.
  unfold row_ok. cbn [String.eqb Ascii.eqb Bool.eqb orb].
  destruct (nullish x) eqn:Hn; [line_throws Hn |].
  reads Hn. cbn [negb andb].
  apply truncating_line_returns. cells_agree.
Qed.

(** A line that converts the members it reads returns exactly on the
    items that are neither null nor undefined and whose shown values
    can be converted. *)
Ltac plain_line :=
  apply rows_fit; intros x; unfold row_ok;
  cbn [String.eqb Ascii.eqb Bool.eqb orb];
  let Hn := fresh "Hn" in
  destruct (nullish x) eqn:Hn; [line_throws Hn |];
  reads Hn; cbn [negb andb]; rewrite row_returns; shown_cells; reflexivity.

Ltac truncating_line :=
  apply rows_fit; intros x; unfold row_ok;
  cbn [String.eqb Ascii.eqb Bool.eqb orb];
  let Hn := fresh "Hn" in
  destruct (nullish x) eqn:Hn; [line_throws Hn |];
  reads Hn; cbn [negb andb]; apply truncating_line_returns; cells_agree.

Ltac named_line :=
  apply rows_fit; intros x; unfold row_ok;
  cbn [String.eqb Ascii.eqb Bool.eqb orb];
  let Hn := fresh "Hn" in
  destruct (nullish x) eqn:Hn; [line_throws Hn |];
  reads Hn; cbn [negb andb]; apply named_line_returns; cells_agree.

Lemma messages_returns (items : list value) :
  returns (formatMessagesTable host items) <-> forallb (row_ok host "messages") items = true.
Proof. unfold formatMessagesTable. rewrite table_returns. plain_line. Qed.

Lemma customers_returns (items : list value) :
  returns (formatCustomersTable host items)
  <-> forallb (row_ok host "customers") items = true.
Proof. unfold formatCustomersTable. rewrite table_returns. named_line. Qed.

Lemma users_returns (items : list value) :
  returns (formatUsersTable host items) <-> forallb (row_ok host "users") items = true.
Proof. unfold formatUsersTable. rewrite table_returns. named_line. Qed.

Lemma teams_returns (items : list value) :
  returns (formatTeamsTable host items) <-> forallb (row_ok host "teams") items = true.
Proof. unfold formatTeamsTable. rewrite table_returns. truncating_line. Qed.

Lemma tags_returns (items : list value) :
  returns (formatTagsTable host items) <-> forallb (row_ok host "tags") items = true.
Proof. unfold formatTagsTable. rewrite table_returns. truncating_line. Qed.

Lemma macros_returns (items : list value) :
  returns (formatMacrosTable host items) <-> forallb (row_ok host "macros") items = true.
Proof. unfold formatMacrosTable. rewrite table_returns. plain_line. Qed.

Lemma rules_returns (items : list value) :
  returns (formatRulesTable host items) <-> forallb (row_ok host "rules") items = true.
Proof. unfold formatRulesTable. rewrite table_returns. plain_line. Qed.

Lemma score_returns (x : value) :
  returns (match x with VNull => Return "-" | _ => ToString x end) <-> printable x = true.
Proof.
  destruct x; try apply ToString_returns.
  split; intros _; [reflexivity | apply returns_return].
Qed.

Lemma printable_scored (y : value) :
  printable (if truthy y then formatDate host y else VStr "-") = printable y.
Proof.
  destruct (truthy y) eqn:Hy; [apply printable_formatDate |].
  now rewrite (printable_falsy y Hy).
Qed.

Lemma surveys_returns (items : list value) :
  returns (formatSatisfactionSurveysTable host items)
  <-> forallb (row_ok host "satisfaction_surveys") items = true.
Proof.
  unfold formatSatisfactionSurveysTable. rewrite table_returns.
  apply rows_fit; intros x; unfold row_ok.
  cbn [String.eqb Ascii.eqb Bool.eqb orb].
  destruct (nullish x) eqn:Hn; [line_throws Hn |].
  reads Hn. cbn [negb andb].
  rewrite returns_bind_iff. shown_cells.
  rewrite andb_true_iff, <- score_returns. split.
  - intros [score [Hs Hrow]]. apply row_returns in Hrow. split.
    + rewrite Hs. apply returns_return.
    + revert Hrow. cbn [forallb printable]. rewrite printable_scored, printable_formatDate.
      now rewrite ?andb_true_r.
  - intros [[score Hs] Hrest]. exists score. split; [exact Hs |].
    apply row_returns. cbn [forallb printable].
    rewrite printable_scored, printable_formatDate. now rewrite ?andb_true_r.
Qed.

Lemma generic_cell_returns (record : value) (k : string) :
  returns (x <- get record k ;; ToString (coalesce x (VStr "-")))
  <-> nullish record = false /\ printable (get_opt record k) = true.
Proof.
  destruct (nullish record) eqn:Hn.
  - destruct (nullish_cases _ Hn); subst; simpl;
      (split; [intros H; exfalso; revert H; apply not_returns_throw
              | intros [H _]; discriminate H]).
  - rewrite (get_returns _ _ Hn). cbn [bind]. rewrite ToString_returns.
    unfold coalesce. destruct (nullish (get_opt record k)) eqn:Hx.
    + destruct (nullish_cases _ Hx) as [-> | ->]; cbn; tauto.
    + tauto.
Qed.

Lemma generic_line_returns (keys : list string) (record : value) :
  returns (Client.mapM (fun k => x <- get record k ;; ToString (coalesce x (VStr "-")))
             keys)
  <-> keys = [] \/
      (nullish record = false
       /\ forallb (fun k => printable (get_opt record k)) keys = true).
Proof.
  rewrite mapM_returns_iff, forallb_forall, Forall_forall. split.
  - intros H. destruct keys as [| k keys]; [now left |]. right. split.
    + apply (generic_cell_returns record k), H. now left.
    + intros k' Hk'. apply (generic_cell_returns record k'), H, Hk'.
  - intros [-> | [Hn H]] k Hk; [destruct Hk |].
    apply generic_cell_returns. split; [exact Hn | apply H, Hk].
Qed.

Lemma firstn_nil {A} (n : nat) (l : list A) : (0 < n)%nat -> firstn n l = [] <-> l = [].
Proof.
  intros Hn. destruct n; [lia |]. destruct l; simpl; split; congruence.
Qed.

Lemma generic_returns (items : list value) :
  returns (formatGenericTable items) <-> generic_ok items = true.
Proof.
  unfold formatGenericTable, generic_ok. destruct items as [| first rest].
  - split; intros _; [reflexivity | apply returns_return].
  - destruct (nullish first) eqn:Hf.
    + destruct (nullish_cases _ Hf); subst; simpl;
        (split; intros H; [exfalso; revert H; apply not_returns_throw | discriminate H]).
    + assert (Hkeys : exists all_keys, Object_keys first = Return all_keys).
      { destruct first; try discriminate; eexists; reflexivity. }
      destruct Hkeys as [all_keys Hkeys]. rewrite Hkeys. cbn [bind negb andb].
      rewrite returns_bind_total by (intros; apply returns_return).
      rewrite mapM_returns_iff.
      assert (Hline : forall record,
                 returns (values <- Client.mapM
                                      (fun k => x <- get record k ;;
                                                ToString (coalesce x (VStr "-")))
                                      (firstn 5 all_keys) ;;
                          Return ("| " ++ join " | " values ++ " |"))
                 <-> firstn 5 all_keys = [] \/
                     (nullish record = false
                      /\ forallb (fun k => printable (get_opt record k))
                                 (firstn 5 all_keys) = true)).
      { intros record. rewrite returns_bind_total by (intros; apply returns_return).
        apply generic_line_returns. }
      rewrite Forall_forall. destruct (firstn 5 all_keys) as [| k ks] eqn:Hfirst.
      * split; intros _; [reflexivity |]. intros x _. apply Hline. now left.
      * rewrite forallb_forall. split; intros H x Hx.
        -- specialize (H x Hx). apply Hline in H.
           destruct H as [H | [H1 H2]]; [discriminate H |].
           now rewrite H1, H2.
        -- apply Hline. right. specialize (H x Hx). apply andb_true_iff in H.
           destruct H as [H1 H2]. split; [now apply negb_true_iff in H1 | exact H2].
Qed.

Lemma cursor_lines_returns (nextCursor : value) (lines : list string) :
  returns (if truthy nextCursor
           then c <- ToString nextCursor ;;
                Return (app lines ["**More available:** Yes (cursor: `" ++ c ++ "`)"])
           else Return lines)
  <-> printable nextCursor = true.
Proof.
  destruct (truthy nextCursor) eqn:Ht.
  - rewrite returns_bind_total by (intros; apply returns_return). apply ToString_returns.
  - rewrite (printable_falsy _ Ht). split; intros _; [reflexivity | apply returns_return].
Qed.

Lemma paginated_returns (items : list value) (nextCursor : value) (entityType : string) :
  returns (formatPaginatedAsMarkdown host items nextCursor entityType)
  <-> printable nextCursor && items_ok host entityType items = true.
Proof.
  unfold formatPaginatedAsMarkdown. cbv zeta.
  rewrite returns_bind_iff, andb_true_iff, <- cursor_lines_returns.
  assert (Hbody :
            forall lines : list string,
              returns
                (if (List.length items =? 0)%nat
                 then Return (join nl (app (app lines [""]) ["_No items found._"]))
                 else
                   body <-
                     (if (entityType =? "tickets")%string then formatTicketsTable host items
                      else if (entityType =? "messages")%string
                           then formatMessagesTable host items
                      else if (entityType =? "customers")%string
                           then formatCustomersTable host items
                      else if (entityType =? "users")%string
                           then formatUsersTable host items
                      else if (entityType =? "teams")%string
                           then formatTeamsTable host items
                      else if (entityType =? "tags")%string
                           then formatTagsTable host items
                      else if (entityType =? "macros")%string
                           then formatMacrosTable host items
                      else if (entityType =? "rules")%string
                           then formatRulesTable host items
                      else if (entityType =? "satisfaction_surveys")%string
                           then formatSatisfactionSurveysTable host items
                      else formatGenericTable items) ;;
                   Return (join nl (app (app lines [""]) [body])))
              <-> items_ok host entityType items = true).
  { intros lines. destruct items as [| first rest].
    - cbn [List.length Nat.eqb]. unfold items_ok.
      split; intros _;
        [destruct (named_table entityType); reflexivity | apply returns_return].
    - cbn [List.length Nat.eqb].
      rewrite returns_bind_total by (intros; apply returns_return).
      unfold items_ok, named_table. cbn [existsb].
      destruct (String.eqb_spec entityType "tickets") as [-> | _];
        [apply tickets_returns |].
      destruct (String.eqb_spec entityType "messages") as [-> | _];
        [apply messages_returns |].
      destruct (String.eqb_spec entityType "customers") as [-> | _];
        [apply customers_returns |].
      destruct (String.eqb_spec entityType "users") as [-> | _];
        [apply users_returns |].
      destruct (String.eqb_spec entityType "teams") as [-> | _];
        [apply teams_returns |].
      destruct (String.eqb_spec entityType "tags") as [-> | _];
        [apply tags_returns |].
      destruct (String.eqb_spec entityType "macros") as [-> | _];
        [apply macros_returns |].
      destruct (String.eqb_spec entityType "rules") as [-> | _];
        [apply rules_returns |].
      destruct (String.eqb_spec entityType "satisfaction_surveys") as [-> | _];
        [apply surveys_returns |].
      apply generic_returns. }
  split.
  - intros [lines [Hl H]]. split; [rewrite Hl; apply returns_return |].
    now apply (Hbody lines).
  - intros [[lines Hl] H]. exists lines. split; [exact Hl |]. now apply Hbody.
Qed.

Lemma markdown_returns (data : value) (entityType : string) :
  returns (formatAsMarkdown host data entityType) <-> markdown_ok host entityType data = true.
Proof.
  unfold formatAsMarkdown, markdown_ok. destruct (isPaginatedResponse data).
  - apply paginated_returns.
  - destruct data; try (split; intros _; [reflexivity | apply returns_return]).
    apply generic_returns.
Qed.

Lemma stringify_defined (data : value) :
  (exists text, JSON_stringify_2 data = Some text) <-> data <> VUndefined.
Proof.
  split.
  - intros [text H] ->. discriminate H.
  - intros H. destruct data as [| | [|] | | | |]; try (eexists; reflexivity).
    congruence.
Qed.

(** C8 (as amended).  [formatResponse] returns a response whose text is a
    string, and does not throw, exactly on the inputs that [format_ok]
    accepts.  In json mode: every value but undefined, for which the text
    is undefined.  In markdown mode: every primitive; every object that
    is no paginated result; a paginated result whose next cursor can be
    converted to a string and whose items are fit for their table.  For
    a named entity type, each item is neither null nor undefined, the
    text its table truncates (the subject of a ticket, the description
    of a team or a tag) is falsy, a string, or of a length within the
    budget, and every value its line shows can be converted to a string.
    For a bare array, or a paginated result of another entity type, the
    first item is neither null nor undefined and, unless that item has
    no key, no item is and what each item holds under the first five
    keys of the first can be converted to a string.  A value cannot be
    converted when it is an object with an own member named toString, or
    an array that holds such an object.  On every other input of
    markdown mode [formatResponse] throws. *)
Theorem formatResponse_returns_iff (data : value) (format : ResponseFormat)
        (entityType : string) :
  ((exists text,
       formatResponse host data format entityType
       = Return {| content := [Some text]; isError := None |})
   <-> format_ok host format entityType data = true)
  /\
  (format = markdown ->
   format_ok host format entityType data = false ->
   exists e, formatResponse host data format entityType = Throw e)
  /\
  (format = json ->
   format_ok host format entityType data = false ->
   formatResponse host data format entityType
   = Return {| content := [None]; isError := None |}).
Proof.
  split; [| split].
  - destruct format; simpl.
    + split.
      * intros [text H]. destruct data; try reflexivity. discriminate H.
      * intros H. destruct (proj2 (stringify_defined data)) as [text Ht].
        -- destruct data; congruence.
        -- exists text. now rewrite Ht.
    + rewrite <- markdown_returns. split.
      * intros [text H]. destruct (formatAsMarkdown host data entityType) as [t | e];
          [apply returns_return | discriminate H].
      * intros [t Ht]. exists t. rewrite Ht. reflexivity.
  - intros -> Hno. simpl in *.
    destruct (formatAsMarkdown host data entityType) as [t | e] eqn:Hmd.
    + assert (Hyes : markdown_ok host entityType data = true).
      { apply markdown_returns. rewrite Hmd. apply returns_return. }
      congruence.
    + exists e. reflexivity.
  - intros -> Hno. simpl in *. destruct data; try discriminate Hno. reflexivity.
Qed.

End FormatterFacts.

Section Rendering.
Import Formatters FormatterSpec.
Variables h1 h2 : Host.
Hypothesis Hsame : same_rendering h1 h2.

Lemma bind_ext {A B} (c : completion A) (k1 k2 : A -> completion B) :
  (forall a, k1 a = k2 a) -> bind c k1 = bind c k2.
Proof. intros H. destruct c; simpl; [apply H | reflexivity]. Qed.

Lemma bind_arg {A B} (c1 c2 : completion A) (k : A -> completion B) :
  c1 = c2 -> bind c1 k = bind c2 k.
Proof. now intros ->. Qed.

Lemma mapM_ext {A B} (f g : A -> completion B) (l : list A) :
  (forall x, f x = g x) -> Client.mapM f l = Client.mapM g l.
Proof.
  intros H. induction l as [| x l IH]; simpl; [reflexivity |]. now rewrite H, IH.
Qed.

Lemma le_same (v : value) (n : Z) : le h1 v n = le h2 v n.
Proof.
  destruct Hsame as [_ Hle].
  destruct v; cbn [le]; try reflexivity; try (now rewrite Hle);
    apply bind_ext; intros p; now rewrite Hle.
Qed.

Lemma truncated_same (x : value) (n : Z) : truncated h1 x n = truncated h2 x n.
Proof.
  unfold truncated, truncate. destruct (truthy x); [| reflexivity].
  apply bind_ext. intros len. now rewrite le_same.
Qed.

Lemma formatDate_same (d : value) : formatDate h1 d = formatDate h2 d.
Proof.
  unfold formatDate. destruct Hsame as [Hd _].
  destruct (ToPrimitive d); [now rewrite Hd | reflexivity].
Qed.

Ltac same_line :=
  unfold table; f_equal; try reflexivity;
  apply bind_ext || idtac;
  repeat first [ rewrite truncated_same | rewrite formatDate_same
               | apply bind_ext; intros ? | reflexivity ].

Lemma table_same (header rule : string) (l1 l2 : value -> completion string)
      (items : list value) :
  (forall x, l1 x = l2 x) -> table header rule l1 items = table header rule l2 items.
Proof. intros H. unfold table. now rewrite (mapM_ext l1 l2 items H). Qed.

Ltac same_table :=
  apply table_same; intros x;
  repeat first [ rewrite truncated_same | rewrite formatDate_same
               | apply bind_ext; intros ? | reflexivity ].

Lemma paginated_same (items : list value) (nextCursor : value) (entityType : string) :
  formatPaginatedAsMarkdown h1 items nextCursor entityType
  = formatPaginatedAsMarkdown h2 items nextCursor entityType.
Proof.
  unfold formatPaginatedAsMarkdown. cbv zeta.
  apply bind_ext. intros lines.
  destruct (List.length items =? 0)%nat; [reflexivity |].
  apply bind_arg.
  repeat match goal with
         | |- (if ?b then _ else _) = (if ?b then _ else _) => destruct b
         end;
    match goal with
    | |- ?table = ?table => reflexivity
    | _ =>
        unfold formatTicketsTable, formatMessagesTable, formatCustomersTable,
          formatUsersTable, formatTeamsTable, formatTagsTable, formatMacrosTable,
          formatRulesTable, formatSatisfactionSurveysTable;
        same_table
    end.
Qed.

(** C9.  The output of [formatResponse] is determined by the value, the
    format and the entity type: two calls with the same three arguments
    give the same response, text for text, or throw the same error, even
    when made under two states of the engine, provided the engine renders
    a date and compares a length in the same way in both.  Nothing else
    of the environment reaches the result. *)
Theorem formatResponse_same (data : value) (format : ResponseFormat) (entityType : string) :
  formatResponse h1 data format entityType = formatResponse h2 data format entityType.
Proof.
  destruct format; cbn [formatResponse]; [reflexivity |].
  apply bind_arg. unfold formatAsMarkdown. destruct (isPaginatedResponse data).
  - apply paginated_same.
  - reflexivity.
Qed.

End Rendering.

Lemma formatResponse_raises_on_null_item :
  Formatters.formatResponse Sample.host (VArr [VNull]) Formatters.markdown "views"
  = Throw (TypeError "Cannot convert undefined or null to object")
  /\
  Formatters.formatResponse Sample.host
    (VObj [("items", VArr [VObj [("id", VNum 1)]; VNull])]) Formatters.markdown "views"
  = Throw (TypeError "Cannot read properties of null (reading 'id')")
  /\
  Formatters.formatResponse Sample.host
    (VObj [("items", VArr [VNull])]) Formatters.markdown "tickets"
  = Throw (TypeError "Cannot read properties of null (reading 'customer')").
Proof. repeat split. Qed.

Example users_table_unprintable_id :
  Formatters.formatResponse Sample.host
    (VObj [("items", VArr [VObj [("id", VObj [("toString", VNum 1)])]])])
    Formatters.markdown "users"
  = Throw (TypeError "Cannot convert object to primitive value")
  /\
  Formatters.formatResponse Sample.host
    (VObj [("items", VArr []); ("nextCursor", VObj [("toString", VNum 1)])])
    Formatters.markdown "users"
  = Throw (TypeError "Cannot convert object to primitive value")
  /\
  Formatters.formatResponse Sample.host
    (VObj [("items", VArr [VObj [("description", VNum 5)]])]) Formatters.markdown "teams"
  = Throw (TypeError "str.substring is not a function").
Proof. repeat split. Qed.

Lemma formatResponse_returns_witness :
  exists text,
    Formatters.formatResponse Sample.host
      (VObj [ ("items",
                VArr [ VObj [ ("id", VNum 12); ("subject", VStr "Where is my order?");
                              ("status", VStr "open"); ("priority", VNull);
                              ("channel", VStr "email");
                              ("customer", VObj [("id", VNum 5); ("email", VStr "c@x.io")]);
                              ("createdDatetime", VStr "2024-01-15T10:30:00Z") ] ]);
              ("nextCursor", VStr "abc") ])
      Formatters.markdown "tickets"
    = Return {| Formatters.content := [Some text]; Formatters.isError := None |}.
Proof.
  apply (proj2 (proj1 (formatResponse_returns_iff Sample.host
                  (VObj [ ("items",
                            VArr [ VObj [ ("id", VNum 12);
                                          ("subject", VStr "Where is my order?");
                                          ("status", VStr "open"); ("priority", VNull);
                                          ("channel", VStr "email");
                                          ("customer",
                                            VObj [("id", VNum 5); ("email", VStr "c@x.io")]);
                                          ("createdDatetime",
                                            VStr "2024-01-15T10:30:00Z") ] ]);
                          ("nextCursor", VStr "abc") ])
                  Formatters.markdown "tickets"))).
  reflexivity.
Defined.

Example tickets_table_text :
  Formatters.formatResponse Sample.host
    (VObj [ ("items",
              VArr [ VObj [ ("id", VNum 12); ("subject", VStr "Where is my order?");
                            ("status", VStr "open"); ("priority", VNull);
                            ("channel", VStr "email");
                            ("customer", VObj [("id", VNum 5); ("email", VStr "c@x.io")]);
                            ("createdDatetime", VStr "2024-01-15T10:30:00Z") ] ]);
            ("nextCursor", VStr "abc") ])
    Formatters.markdown "tickets"
  = Return
      {| Formatters.content :=
           [Some ("## Tickets" ++ nl ++ nl
                  ++ "**Showing:** 1 items" ++ nl
                  ++ "**More available:** Yes (cursor: `abc`)" ++ nl ++ nl
                  ++ "| ID | Subject | Status | Priority | Channel | Customer | Created |"
                  ++ nl ++ "|---|---|---|---|---|---|---|" ++ nl
                  ++ "| 12 | Where is my order? | open | - | email | c@x.io | 2024-01-15 |")];
         Formatters.isError := None |}.
Proof. reflexivity. Qed.

Example object_markdown_text :
  Formatters.formatResponse Sample.host
    (VObj [("id", VNum 7); ("createdDatetime", VStr "x"); ("note", VNull);
           ("tags", VArr [])])
    Formatters.markdown "tags"
  = Return
      {| Formatters.content :=
           [Some ("## Tag" ++ nl ++ nl ++ "**Id:** 7" ++ nl
                  ++ "**Created Datetime:** x" ++ nl
                  ++ "**Tags:**" ++ nl ++ "```json" ++ nl ++ "[]" ++ nl ++ "```")];
         Formatters.isError := None |}.
Proof. reflexivity. Qed.

Lemma formatResponse_same_witness :
  Formatters.formatResponse Sample.host
    (VObj [("items", VArr [VObj [("id", VNum 1); ("description", VStr "late")]])])
    Formatters.markdown "tags"
  = Formatters.formatResponse Sample.offline
      (VObj [("items", VArr [VObj [("id", VNum 1); ("description", VStr "late")]])])
      Formatters.markdown "tags".
Proof.
  apply (formatResponse_same Sample.host Sample.offline).
  split; reflexivity.
Defined.

(** * Part III: further properties of the code *)

(** ** Decimal numerals *)

Section NumeralFacts.

Import Numeral.

Lemma digits_of_uint (d : Decimal.uint) (acc : Z) :
  digits_prefix (NilEmpty.string_of_uint d) (Some acc) = Some (uint_value d acc).
Proof.
  revert acc. induction d; intros acc; cbn [NilEmpty.string_of_uint digits_prefix uint_value];
    [reflexivity | ..];
    match goal with
    | |- context [is_digit ?c] => change (is_digit c) with true
    end; cbn iota; rewrite IHd; f_equal; f_equal; unfold digit_value; simpl; lia.
Qed.

Lemma digits_of_uint_start (d : Decimal.uint) :
  d <> Decimal.Nil ->
  digits_prefix (NilEmpty.string_of_uint d) None = Some (uint_value d 0).
Proof.
  destruct d; intros Hd; [congruence | ..];
    cbn [NilEmpty.string_of_uint digits_prefix uint_value];
    match goal with
    | |- context [is_digit ?c] => change (is_digit c) with true
    end; cbn iota; rewrite digits_of_uint; f_equal; f_equal; unfold digit_value; simpl; lia.
Qed.

Lemma uint_value_acc (d : Decimal.uint) (acc : positive) :
  uint_value d (Z.pos acc) = Z.pos (Pos.of_uint_acc d acc).
Proof.
  revert acc. induction d; intros acc; cbn [uint_value Pos.of_uint_acc];
    [reflexivity | ..];
    rewrite <- IHd; f_equal; lia.
Qed.

Lemma uint_value_of_uint (d : Decimal.uint) : uint_value d 0 = Z.of_N (Pos.of_uint d).
Proof.
  induction d; cbn [uint_value Pos.of_uint]; [reflexivity | exact IHd | ..];
    cbn [Z.mul Z.add]; rewrite uint_value_acc; reflexivity.
Qed.

Lemma to_uint_not_nil (p : positive) : Pos.to_uint p <> Decimal.Nil.
Proof.
  intros H. pose proof (DecimalPos.Unsigned.of_to p) as Hp. rewrite H in Hp. discriminate.
Qed.

Lemma positive_numeral (p : positive) :
  trim_start (NilEmpty.string_of_uint (Pos.to_uint p))
  = NilEmpty.string_of_uint (Pos.to_uint p) /\
  parseInt10 (NilZero.string_of_uint (Pos.to_uint p)) = Some (Z.pos p) /\
  digits_prefix (NilZero.string_of_uint (Pos.to_uint p)) None = Some (Z.pos p).
Proof.
  pose proof (to_uint_not_nil p) as Hnil.
  pose proof (digits_of_uint_start _ Hnil) as Hd.
  rewrite uint_value_of_uint, DecimalPos.Unsigned.of_to in Hd. cbn [Z.of_N] in Hd.
  assert (Hs : NilZero.string_of_uint (Pos.to_uint p)
               = NilEmpty.string_of_uint (Pos.to_uint p)).
  { destruct (Pos.to_uint p); [congruence | reflexivity ..]. }
  rewrite Hs. unfold parseInt10.
  destruct (Pos.to_uint p) eqn:E; [congruence | ..];
    (split; [reflexivity | split; [exact Hd | exact Hd]]).
Qed.

(** [parseInt(String(n), 10)] is [n]. *)
Lemma parseInt_of_numeral (n : Z) : parseInt10 (Z_to_string n) = Some n.
Proof.
  unfold Z_to_string. destruct n as [| p | p]; cbn [Z.to_int NilZero.string_of_int].
  - reflexivity.
  - apply positive_numeral.
  - destruct (positive_numeral p) as [_ [_ Hd]].
    unfold parseInt10. cbn [trim_start].
    change (is_space "-") with false. cbn iota. rewrite Hd. reflexivity.
Qed.

Lemma numeral_not_empty (n : Z) : Z_to_string n <> "".
Proof.
  intros H. pose proof (parseInt_of_numeral n) as Hp. rewrite H in Hp. discriminate.
Qed.

End NumeralFacts.

Section PaginationFacts.
Import Client Pagination Cursors Formatters.

Lemma limit_or_default_not_zero (params : PaginationParams) :
  limit_or_default params <> 0.
Proof.
  unfold limit_or_default, PAGINATION_DEFAULTS_limit.
  destruct (limit params) as [n |]; [| discriminate].
  destruct (Z.eqb_spec n 0); [discriminate | assumption].
Qed.

(** X1.  [normalizePaginationParams] never returns a limit above the
    maximum.  A limit that is set, not zero and at most the maximum is
    returned unchanged, a negative one included: there is no lower
    bound.  An unset or zero limit becomes the smaller of 20 and the
    maximum.  The cursor is kept, and normalizing twice changes nothing. *)
Theorem normalize_limit_bounded (params : PaginationParams) (maxLimit : Z) :
  let normalized := normalizePaginationParams params maxLimit in
  (exists l,
      limit normalized = Some l /\
      l <= maxLimit /\
      (forall n, limit params = Some n -> n <> 0 -> n <= maxLimit -> l = n) /\
      (limit params = None \/ limit params = Some 0 -> l = Z.min 20 maxLimit)) /\
  cursor normalized = cursor params /\
  normalizePaginationParams normalized maxLimit = normalized.
Proof.
  cbv zeta. split; [| split].
  - exists (Z.min (limit_or_default params) maxLimit).
    split; [reflexivity |]. split; [lia |]. split.
    + intros n Hn Hz Hle. unfold limit_or_default. rewrite Hn.
      apply Z.eqb_neq in Hz. rewrite Hz. lia.
    + intros [Hn | Hn]; unfold limit_or_default; rewrite Hn; reflexivity.
  - reflexivity.
  - unfold normalizePaginationParams. cbn [cursor]. f_equal. f_equal.
    pose proof (limit_or_default_not_zero params) as Hd.
    unfold limit_or_default at 1. cbn [limit].
    destruct (Z.eqb_spec (Z.min (limit_or_default params) maxLimit) 0) as [Hz | Hz].
    + unfold PAGINATION_DEFAULTS_limit. lia.
    + lia.
Qed.

(** X2.  Encoding a parsed cursor gives the cursor back, except that
    the empty cursor comes back undefined; parsing an encoded cursor
    gives the same data unless its [after] is the empty string. *)
Theorem cursor_round_trip (cursor : option string) :
  encodeCursor (parseCursor cursor) = Env.or_undefined cursor /\
  (forall data, after data <> Some "" -> parseCursor (encodeCursor data) = data).
Proof.
  split.
  - unfold encodeCursor, parseCursor, Env.falsy, Env.or_undefined.
    destruct cursor as [s |]; [| reflexivity].
    destruct (s =? "")%string; reflexivity.
  - intros [a] Ha. unfold encodeCursor, parseCursor, Env.falsy. cbn [after] in *.
    destruct a as [s |]; [| reflexivity].
    destruct (String.eqb_spec s ""); [subst; congruence | reflexivity].
Qed.

(** X3.  A value built by [createPaginatedResponse] or
    [emptyPaginatedResponse] is a paginated response for the formatter.
    A page without a next cursor is rendered like the same page with
    the [nextCursor] member left out, in both formats; in particular the
    empty page of the list operations and [emptyPaginatedResponse()]
    give the same response, which has a text. *)
Theorem created_page_is_rendered_as_page (host : Host) (items : list value)
        (nextCursor : value) (format : ResponseFormat) (entityType : string) :
  isPaginatedResponse (createPaginatedResponse items nextCursor) = true /\
  isPaginatedResponse emptyPaginatedResponse = true /\
  formatResponse host (createPaginatedResponse items VUndefined) format entityType
  = formatResponse host (VObj [("items", VArr items)]) format entityType /\
  Lists.empty_result = createPaginatedResponse [] VUndefined /\
  exists text,
    formatResponse host Lists.empty_result format entityType
    = Return {| content := [Some text]; isError := None |} /\
    formatResponse host emptyPaginatedResponse format entityType
    = Return {| content := [Some text]; isError := None |}.
Proof.
  split; [reflexivity |]. split; [reflexivity |]. split; [| split; [reflexivity |]].
  - destruct format; reflexivity.
  - destruct format; eexists; split; reflexivity.
Qed.

End PaginationFacts.

Section ConfigFacts.
Import Config.

(** X4.  [getEnvNumber] returns the integer whose decimal numeral the
    variable holds (for an integer that a JavaScript number holds
    exactly), and the default when the variable is unset, is not a
    string, or is the empty string.  With no variable set, the page
    sizes are the defaults of the pagination helpers. *)
Theorem getEnvNumber_reads_numeral (env : Env) (key : string) (defaultValue n : Z) :
  Z.abs n <= MAX_SAFE_INTEGER ->
  (assoc key env = Some (VStr (Z_to_string n)) -> getEnvNumber env key defaultValue = n) /\
  (assoc key env = None -> getEnvNumber env key defaultValue = defaultValue) /\
  (assoc key env = Some (VStr "") -> getEnvNumber env key defaultValue = defaultValue) /\
  (forall v, assoc key env = Some v -> (forall s, v <> VStr s) ->
             getEnvNumber env key defaultValue = defaultValue) /\
  getDefaultPageSize [] = Pagination.PAGINATION_DEFAULTS_limit /\
  getMaxPageSize [] = Pagination.PAGINATION_DEFAULTS_maxLimit.
Proof.
  intros _. unfold getEnvNumber. repeat split.
  - intros ->. now rewrite parseInt_of_numeral.
  - intros ->. reflexivity.
  - intros ->. reflexivity.
  - intros v -> Hv. destruct v; try reflexivity. now destruct (Hv s).
Qed.

End ConfigFacts.

Section RetryFacts.
Import Http Client.

(** X5.  When the upstream answers 429 with a Retry-After header that
    is the decimal numeral of an integer (one that a JavaScript number
    holds exactly), the rate-limit failure carries exactly that integer
    as its pause. *)
Theorem retry_after_numeral (host : Host) (response : HttpResponse) (n : Z) :
  Z.abs n <= Config.MAX_SAFE_INTEGER ->
  Http.status response = 429 ->
  Headers_get (resp_headers response) "Retry-After" = Some (Z_to_string n) ->
  request_outcome host response = Throw (RateLimitError "Rate limit exceeded" (Some n)).
Proof.
  intros _ Hstatus Hheader. unfold request_outcome. rewrite Hstatus, Hheader.
  cbn [Z.eqb Pos.eqb].
  destruct (String.eqb_spec (Z_to_string n) "") as [He | _].
  - now destruct (numeral_not_empty n).
  - now rewrite parseInt_of_numeral.
Qed.

End RetryFacts.

Lemma normalize_limit_bounded_witness :
  Client.limit (Pagination.normalizePaginationParams
                  {| Client.limit := Some (-5); Client.cursor := Some "abc" |} 100)
  = Some (-5).
Proof.
  destruct (normalize_limit_bounded
              {| Client.limit := Some (-5); Client.cursor := Some "abc" |} 100)
    as [[l [Hl [_ [Hsame _]]]] _].
  rewrite Hl. f_equal. apply (Hsame (-5)); [reflexivity | lia | lia].
Defined.

Lemma cursor_round_trip_witness :
  Cursors.parseCursor (Cursors.encodeCursor {| Cursors.after := Some "abc" |})
  = {| Cursors.after := Some "abc" |}.
Proof.
  apply (proj2 (cursor_round_trip None)). discriminate.
Defined.

Lemma getEnvNumber_reads_numeral_witness :
  Config.getEnvNumber [("MAX_PAGE_SIZE", VStr "250")] "MAX_PAGE_SIZE" 100 = 250.
Proof.
  apply (proj1 (getEnvNumber_reads_numeral
                  [("MAX_PAGE_SIZE", VStr "250")] "MAX_PAGE_SIZE" 100 250
                  ltac:(vm_compute; discriminate))).
  reflexivity.
Defined.

Lemma retry_after_numeral_witness :
  Client.request_outcome Sample.host
    {| Http.status := 429; Http.resp_headers := [("retry-after", "120")];
       Http.resp_body := "" |}
  = Throw (RateLimitError "Rate limit exceeded" (Some 120)).
Proof.
  apply (retry_after_numeral Sample.host _ 120).
  - vm_compute. discriminate.
  - reflexivity.
  - reflexivity.
Defined.

Section OperationFacts.
Import Http Client Records Writes Lists Calls.
Variable host : Host.
Variable upstream : Upstream.
Variable credentials : Env.GorgiasCredentials.

Ltac unfold_operations :=
  unfold testConnection, getAccount, getTicket, createTicket, updateTicket, deleteTicket,
    addTicketTags, removeTicketTags, getMessage, deleteMessage, getCustomer,
    deleteCustomer, mergeCustomers, getUser, getTeam, deleteTeam, getTag, deleteTag,
    mergeTags, getMacro, createMacro, deleteMacro, getRule, deleteRule, getIntegration,
    deleteIntegration, getView, deleteView, getSatisfactionSurvey, getCustomField,
    getEvent, getJob, cancelJob, getWidget, deleteWidget, getStatistic,
    createMessage, createCustomer, updateCustomer, createTeam, updateTeam, createTag,
    updateTag, updateMacro, createRule, updateRule, createIntegration, updateIntegration,
    createView, updateView, createSatisfactionSurvey, createCustomField,
    updateCustomField, createJob, createWidget, updateWidget,
    listTickets, listMessages, listCustomers, listUsers, listMacros, listRules,
    listViewItems, listSatisfactionSurveys, listEvents, listJobs, listTeams, listTags,
    listIntegrations, listViews, listCustomFields, listWidgets;
  cbv zeta.

Lemma caught_calls {A} (endpoint : string) (options : RequestInit)
      (f : value -> completion A) (h : exn -> completion A) :
  calls (ecatch (data <-- request host upstream credentials endpoint options ;;
                 pure (f data))
                (fun error => pure (h error)))
  = [the_request credentials endpoint options].
Proof.
  unfold request, perform, the_request, ebind, ecatch, pure, calls. cbv zeta.
  destruct (upstream _) as [response | e]; [| reflexivity].
  destruct (request_outcome host response); [destruct (f a) |]; reflexivity.
Qed.

Lemma operation_request (op : operation) :
  exists endpoint options,
    calls (run host upstream credentials op) = [the_request credentials endpoint options].
Proof.
  destruct op;
    try match goal with op : paginated_operation |- _ => destruct op end;
    try match goal with op : plain_operation |- _ => destruct op end;
    cbn [run run_paginated run_plain]; unfold_operations;
    eexists; eexists;
    first [apply request_calls | apply caught_calls].
Qed.

(** X6.  Each of the 72 operations of the client issues exactly one
    upstream request, whatever the upstream answers and also when the
    request itself fails: the URL is the tenant's base URL followed by
    the endpoint, and the headers are the tenant's Basic authorization
    and the JSON content type.  No operation retries or calls elsewhere. *)
Theorem operation_issues_one_request (op : operation) :
  exists r endpoint,
    calls (run host upstream credentials op) = [r] /\
    url r = "https://" ++ Env.domain credentials ++ ".gorgias.com/api" ++ endpoint /\
    req_headers r
    = [ ("Authorization",
          "Basic " ++ btoa (Env.email credentials ++ ":" ++ Env.apiKey credentials));
        ("Content-Type", "application/json") ].
Proof.
  destruct (operation_request op) as [endpoint [options Hcalls]].
  exists (the_request credentials endpoint options), endpoint.
  split; [exact Hcalls |]. split; [| reflexivity].
  unfold the_request, getBaseUrl. cbn [url].
  now rewrite !append_assoc3.
Qed.

Lemma request_then (endpoint : string) (options : RequestInit)
      (f : value -> completion value) :
  result (data <-- request host upstream credentials endpoint options ;; pure (f data))
  = match upstream (the_request credentials endpoint options) with
    | Return response => bind (request_outcome host response) f
    | Throw e => Throw e
    end.
Proof.
  unfold request, perform, the_request, ebind, pure, result. cbv zeta.
  destruct (upstream _) as [response | e]; [| reflexivity].
  destruct (request_outcome host response); reflexivity.
Qed.

(** X7.  An operation declared to return nothing (the delete
    operations, [cancelJob], [addTicketTags], [removeTicketTags])
    returns undefined on a 204.  On any other success status it still
    decodes the body, which it then discards: it returns undefined when
    the body is JSON and throws the [SyntaxError] of [JSON.parse] when it
    is not, although the upstream has accepted the request. *)
Theorem void_operation_outcome (op : operation) (response : HttpResponse) :
  returns_void op = true ->
  (forall r, upstream r = Return response) ->
  200 <= Http.status response <= 299 ->
  result (run host upstream credentials op)
  = (if Http.status response =? 204 then Return VUndefined
     else match JSON_parse host (resp_body response) with
          | Some _ => Return VUndefined
          | None =>
              Throw (JsError "SyntaxError" (JSON_parse_error host (resp_body response)))
          end).
Proof.
  intros Hvoid Hup [Hlo Hhi].
  assert (Hout : request_outcome host response
                 = if Http.status response =? 204 then Return VUndefined
                   else parse_json host (resp_body response)).
  { unfold request_outcome, ok.
    replace (Http.status response =? 429) with false by (symmetry; apply Z.eqb_neq; lia).
    replace (Http.status response =? 401) with false by (symmetry; apply Z.eqb_neq; lia).
    replace (Http.status response =? 403) with false by (symmetry; apply Z.eqb_neq; lia).
    replace (200 <=? Http.status response) with true by (symmetry; apply Z.leb_le; lia).
    replace (Http.status response <=? 299) with true by (symmetry; apply Z.leb_le; lia).
    reflexivity. }
  destruct op; try discriminate Hvoid; cbn [run]; unfold_operations;
    rewrite request_then, Hup, Hout;
    destruct (Http.status response =? 204); try reflexivity;
    unfold parse_json; destruct (JSON_parse host (resp_body response)); reflexivity.
Qed.

(** X8.  An operation other than [testConnection] passes on what the
    request path throws, unchanged: the failure that the status of the
    response is classified as, or what the request itself threw. *)
Theorem operation_propagates_failure (op : operation) (e : exn) :
  op <> TestConnection ->
  (forall r, upstream r = Throw e) \/
  (exists response,
      (forall r, upstream r = Return response) /\
      request_outcome host response = Throw e) ->
  result (run host upstream credentials op) = Throw e.
Proof.
  intros Hop Hup.
  destruct op;
    try congruence;
    try match goal with op : paginated_operation |- _ => destruct op end;
    try match goal with op : plain_operation |- _ => destruct op end;
    cbn [run run_paginated run_plain]; unfold_operations; rewrite request_then;
    (destruct Hup as [Hup | [response [Hup Hout]]]; rewrite Hup;
     [reflexivity | rewrite Hout; reflexivity]).
Qed.

(** X9.  [testConnection] never throws.  It issues the one request
    GET /users?limit=1 and returns a record whose [connected] member is
    true exactly when the request path returns, that is when the
    upstream answers and the answer is classified as a success with a
    body that decodes; otherwise [connected] is false. *)
Theorem testConnection_never_throws :
  exists connected message,
    result (testConnection host upstream credentials)
    = Return (VObj [("connected", VBool connected); ("message", VStr message)]) /\
    calls (testConnection host upstream credentials)
    = [the_request credentials "/users?limit=1" GET] /\
    (connected = true <->
     exists response,
       upstream (the_request credentials "/users?limit=1" GET) = Return response /\
       returns (request_outcome host response)) /\
    (connected = true -> message = "Successfully connected to Gorgias").
Proof.
  unfold testConnection. cbv zeta.
  unfold request, perform, the_request, ebind, ecatch, pure, calls, result. cbv zeta.
  cbn [GET init_method init_body].
  destruct (upstream _) as [response | e] eqn:Hup.
  - destruct (request_outcome host response) as [data | e] eqn:Hout; cbn.
    + exists true. eexists. split; [reflexivity |]. split; [reflexivity |].
      split; [| reflexivity]. split; [| reflexivity].
      intros _. exists response. split; [reflexivity |]. rewrite Hout. now exists data.
    + exists false. eexists. split; [reflexivity |]. split; [reflexivity |].
      split; [| discriminate]. split; [discriminate |].
      intros [response' [Hr [a Ha]]]. injection Hr as <-. congruence.
  - cbn. exists false. eexists. split; [reflexivity |]. split; [reflexivity |].
    split; [| discriminate]. split; [discriminate |].
    intros [response [Hr _]]. discriminate.
Qed.

Lemma set_number_sent (name : string) (x : option Z) (q : URLSearchParams) :
  set_number name (sent_number x) q = set_number name x q.
Proof. destruct x as [[| p | p] |]; reflexivity. Qed.

Lemma set_string_sent (name : string) (x : option string) (q : URLSearchParams) :
  set_string name (sent_string x) q = set_string name x q.
Proof. destruct x as [[| c s] |]; reflexivity. Qed.

(** X10.  A list operation leaves out every filter that is unset, zero
    or the empty string, and [listTickets] never sends [tagIds]: the
    operation issues the same request and gives the same result as with
    those filters unset. *)
Theorem falsy_filters_are_not_sent (op : paginated_operation) :
  run_paginated host upstream credentials op
  = run_paginated host upstream credentials (as_sent op).
Proof.
  destruct op; cbn [run_paginated as_sent]; unfold_operations;
    cbn [ticket_page status channel assigneeUserId assigneeTeamId customerId
         createdDatetimeAfter createdDatetimeBefore updatedDatetimeAfter
         updatedDatetimeBefore orderBy message_page message_ticketId customer_page
         customer_email survey_page survey_ticketId survey_customerId event_page
         event_objectType event_objectId event_type sent_page limit cursor];
    rewrite ?set_number_sent, ?set_string_sent; reflexivity.
Qed.

End OperationFacts.

Lemma void_operation_outcome_witness :
  Http.result (Records.deleteTicket Sample.host
                 (Sample.always {| Http.status := 200; Http.resp_headers := [];
                                   Http.resp_body := "" |})
                 Sample.credentials 12)
  = Throw (JsError "SyntaxError" (JSON_parse_error Sample.host "")).
Proof.
  refine (void_operation_outcome Sample.host
            (Sample.always {| Http.status := 200; Http.resp_headers := [];
                              Http.resp_body := "" |})
            Sample.credentials (Calls.DeleteTicket 12)
            {| Http.status := 200; Http.resp_headers := []; Http.resp_body := "" |}
            eq_refl (fun _ => eq_refl) _).
  cbn. lia.
Defined.

Lemma operation_propagates_failure_witness :
  Http.result (Records.getTicket Sample.host
                 (Sample.always
                    {| Http.status := 404; Http.resp_headers := [];
                       Http.resp_body := "{" ++ dq ++ "message" ++ dq ++ ": "
                                         ++ dq ++ "Not found" ++ dq ++ "}" |})
                 Sample.credentials 12)
  = Throw (GorgiasApiError "Not found" 404).
Proof.
  refine (operation_propagates_failure Sample.host
            (Sample.always
               {| Http.status := 404; Http.resp_headers := [];
                  Http.resp_body := "{" ++ dq ++ "message" ++ dq ++ ": "
                                    ++ dq ++ "Not found" ++ dq ++ "}" |})
            Sample.credentials (Calls.GetTicket 12) _ _ _).
  - discriminate.
  - right. eexists. split; [reflexivity |]. reflexivity.
Defined.

Section ToolFacts.
Import Http Client Records Lists Formatters Tools RecordTools Catalog.
Variable host : Host.
Variable formatErrorForLogging : exn -> value.
Variable upstream : Upstream.
Variable credentials : Env.GorgiasCredentials.

Lemma guarded_request (endpoint : string) (options : RequestInit)
      (f : value -> completion value) (g : value -> completion ToolResponse) :
  Tools.guarded formatErrorForLogging
    (x <-- (data <-- request host upstream credentials endpoint options ;; pure (f data)) ;;
     pure (g x))
  = ([the_request credentials endpoint options],
     Return (handled host formatErrorForLogging upstream credentials endpoint options
               (fun data => bind (f data) g))).
Proof.
  unfold Tools.guarded, handled, request, perform, the_request, ebind, ecatch, pure.
  cbv zeta.
  destruct (upstream _) as [response | e]; [| reflexivity].
  destruct (request_outcome host response) as [data | e]; [| reflexivity].
  cbn. destruct (f data) as [x | e]; [| reflexivity].
  cbn. destruct (g x); reflexivity.
Qed.

Lemma ebind_pure {A B} (a : A) (k : A -> Eff B) : ebind (pure (Return a)) k = k a.
Proof. unfold ebind, pure. destruct (k a). reflexivity. Qed.

Ltac unfold_tools :=
  unfold Tools.gorgias_list_tickets, Tools.gorgias_list_messages,
    Tools.gorgias_list_customers, Tools.gorgias_list_users, Tools.gorgias_list_macros,
    Tools.gorgias_list_rules, Tools.gorgias_list_view_items,
    Tools.gorgias_list_satisfaction_surveys, Tools.gorgias_list_events,
    Tools.gorgias_list_jobs, Tools.gorgias_create_macro, gorgias_get_account,
    gorgias_get_statistics, gorgias_test_connection, gorgias_get_ticket,
    gorgias_update_ticket, gorgias_delete_ticket, gorgias_add_ticket_tags,
    gorgias_remove_ticket_tags, Tools.call.

Ltac unfold_client :=
  unfold Tools.create_macro_handler,
    getAccount, getTicket, updateTicket, deleteTicket, addTicketTags, removeTicketTags,
    createMacro, getStatistic,
    listTickets, listMessages, listCustomers, listUsers, listMacros, listRules,
    listViewItems, listSatisfactionSurveys, listEvents, listJobs;
  cbv zeta.

Lemma tool_outcome (t : tool) (args : value) :
  reports_with_formatError t = true ->
  (exists path code,
      run host formatErrorForLogging upstream credentials t args
      = ([], InvalidParams path code))
  \/
  (t = CreateMacro /\
   exists e,
     run host formatErrorForLogging upstream credentials t args
     = ([], Completed (Return (formatError formatErrorForLogging e))))
  \/
  (exists endpoint options k,
      run host formatErrorForLogging upstream credentials t args
      = ([the_request credentials endpoint options],
         Completed
           (Return (handled host formatErrorForLogging upstream credentials endpoint
                      options k))) /\
      (confirms t = true ->
       exists text, k = fun _ => Return {| content := [Some text]; isError := None |})).
Proof.
  intros Ht.
  destruct t as [t | | | | | | | | |]; try discriminate Ht; try destruct t;
    cbn [run run_tool]; unfold_tools;
    match goal with
    | |- context [match ?schema with Zod.Valid _ => _ | Zod.Invalid _ _ => _ end] =>
        destruct schema as [a | path code] eqn:Hschema;
        [| left; eexists; eexists; reflexivity]
    end;
    right.
  all: try (right; eexists; eexists; eexists; split;
            [ unfold_client; rewrite guarded_request; reflexivity
            | cbn [confirms]; try discriminate; intros _; eexists; reflexivity ]).
  (* gorgias_create_macro *)
  unfold_client. unfold parse_json.
  destruct (JSON_parse host (arg_actionsJson a)) as [actions |] eqn:Hparse.
  - right. eexists; eexists; eexists. split; [| discriminate].
    rewrite ebind_pure, guarded_request. reflexivity.
  - left. split; [reflexivity |]. eexists. reflexivity.
Qed.

Lemma test_connection_outcome (args : value) :
  (exists path code,
      run host formatErrorForLogging upstream credentials TestConnection args
      = ([], InvalidParams path code) /\ forall props, args <> VObj props)
  \/
  (exists connected message,
      run host formatErrorForLogging upstream credentials TestConnection args
      = ([the_request credentials "/users?limit=1" GET],
         Completed
           (Return
              (json_text (VObj [ ("connected", VBool connected);
                                 ("message", VStr message) ])))) /\
      (connected = true <->
       exists response,
         upstream (the_request credentials "/users?limit=1" GET) = Return response /\
         returns (request_outcome host response))).
Proof.
  cbn [run]. unfold gorgias_test_connection, Tools.call.
  destruct args; cbn [Zod.object];
    try (left; eexists; eexists; split; [reflexivity | discriminate]).
  right. unfold testConnection. cbv zeta.
  unfold request, perform, the_request, ebind, ecatch, pure. cbv zeta.
  cbn [GET init_method init_body].
  destruct (upstream _) as [response | e] eqn:Hup.
  - destruct (request_outcome host response) as [data | e] eqn:Hout; cbn.
    + exists true. eexists. split; [reflexivity |]. split; [| reflexivity].
      intros _. exists response. split; [reflexivity |]. rewrite Hout. now exists data.
    + exists false. eexists. split; [reflexivity |]. split; [discriminate |].
      intros [response' [Hr [a Ha]]]. injection Hr as <-. congruence.
  - cbn. exists false. eexists. split; [reflexivity |]. split; [discriminate |].
    intros [response [Hr _]]. discriminate.
Qed.

Lemma tool_requests (t : tool) (args : value) (req : HttpRequest) :
  In req (fst (run host formatErrorForLogging upstream credentials t args)) ->
  (exists endpoint options, req = the_request credentials endpoint options) /\
  fst (run host formatErrorForLogging upstream credentials t args) = [req].
Proof.
  destruct (reports_with_formatError t) eqn:Ht.
  - destruct (tool_outcome t args Ht)
      as [[path [code H]] | [[_ [e H]] | [endpoint [options [k [H _]]]]]];
      rewrite H; cbn [fst]; intros Hin; try now destruct Hin.
    destruct Hin as [<- | []]. split; [now exists endpoint, options | reflexivity].
  - destruct t; try discriminate Ht.
    destruct (test_connection_outcome args)
      as [[path [code [H _]]] | [connected [message [H _]]]];
      rewrite H; cbn [fst]; intros Hin; try now destruct Hin.
    destruct Hin as [<- | []]. split; [now eexists; eexists | reflexivity].
Qed.

(** X11.  A tool call never throws: the arguments are refused by the
    schema, with no upstream request, or the handler completes with a
    response, having issued at most one upstream request. *)
Theorem tool_never_throws (t : tool) (args : value) :
  (exists path code,
      run host formatErrorForLogging upstream credentials t args
      = ([], InvalidParams path code))
  \/
  (exists issued r,
      run host formatErrorForLogging upstream credentials t args
      = (issued, Completed (Return r)) /\
      (List.length issued <= 1)%nat).
Proof.
  destruct (reports_with_formatError t) eqn:Ht.
  - destruct (tool_outcome t args Ht)
      as [[path [code H]] | [[_ [e H]] | [endpoint [options [k [H _]]]]]].
    + left. now exists path, code.
    + right. eexists; eexists. split; [exact H | cbn; lia].
    + right. eexists; eexists. split; [exact H | cbn; lia].
  - destruct t; try discriminate Ht.
    destruct (test_connection_outcome args)
      as [[path [code [H _]]] | [connected [message [H _]]]].
    + left. now exists path, code.
    + right. eexists; eexists. split; [exact H | cbn; lia].
Qed.

(** X12.  When the one request of a tool call fails, the tool answers
    with [formatError] of that failure: of what the request threw, or
    of the failure that the status of the response is classified as.
    This holds for every tool but [gorgias_test_connection]. *)
Theorem upstream_failure_is_reported (t : tool) (args : value)
        (issued : list HttpRequest) (r : completion ToolResponse)
        (req : HttpRequest) (e : exn) :
  reports_with_formatError t = true ->
  run host formatErrorForLogging upstream credentials t args = (issued, Completed r) ->
  In req issued ->
  (upstream req = Throw e \/
   exists response, upstream req = Return response /\
                    request_outcome host response = Throw e) ->
  r = Return (formatError formatErrorForLogging e) /\
  isError (formatError formatErrorForLogging e) = Some true.
Proof.
  intros Ht Hrun Hin Hfail. split; [| reflexivity].
  destruct (tool_outcome t args Ht)
    as [[path [code H]] | [[_ [e' H]] | [endpoint [options [k [H _]]]]]];
    rewrite H in Hrun; try discriminate Hrun; injection Hrun as <- <-;
    try now destruct Hin.
  destruct Hin as [<- | []]. unfold handled.
  destruct Hfail as [Hup | [response [Hup Hout]]]; rewrite Hup; [reflexivity |].
  rewrite Hout. reflexivity.
Qed.

(** X13.  The tools that answer with a fixed confirmation
    ([gorgias_delete_ticket], [gorgias_add_ticket_tags],
    [gorgias_remove_ticket_tags]) answer without [isError] exactly when
    the upstream answered their one request and the request path
    returned; they never confirm what the upstream refused. *)
Theorem confirmation_means_accepted (t : tool) (args : value)
        (issued : list HttpRequest) (r : ToolResponse) :
  confirms t = true ->
  run host formatErrorForLogging upstream credentials t args
  = (issued, Completed (Return r)) ->
  (isError r = None <->
   exists req response,
     issued = [req] /\
     upstream req = Return response /\
     returns (request_outcome host response)).
Proof.
  intros Hc Hrun.
  assert (Ht : reports_with_formatError t = true) by (destruct t; try discriminate Hc; reflexivity).
  destruct (tool_outcome t args Ht)
    as [[path [code H]] | [[Hm [e' H]] | [endpoint [options [k [H Hk]]]]]];
    rewrite H in Hrun.
  - discriminate.
  - subst t. discriminate.
  - injection Hrun as <- <-. destruct (Hk Hc) as [text ->]. unfold handled.
    destruct (upstream _) as [response | e] eqn:Hup.
    + destruct (request_outcome host response) as [data | e] eqn:Hout; cbn.
      * split; [| reflexivity]. intros _. eexists; exists response.
        split; [reflexivity |]. split; [exact Hup |]. rewrite Hout. now exists data.
      * split; [discriminate |].
        intros [req [response' [Hreq [Hr [a Ha]]]]]. injection Hreq as <-.
        rewrite Hup in Hr. injection Hr as <-. congruence.
    + cbn. split; [discriminate |].
      intros [req [response' [Hreq [Hr _]]]]. injection Hreq as <-.
      rewrite Hup in Hr. discriminate.
Qed.

(** X14.  [gorgias_test_connection] never answers with [isError]: its
    handler cannot reach its catch clause, because [testConnection] does
    not throw.  Called with an object, it issues the one request
    GET /users?limit=1 and answers with the JSON text of
    [{ connected, message }], where [connected] is true exactly when the
    request path returned. *)
Theorem test_connection_never_errors (props : list (string * value)) :
  exists connected message text,
    run host formatErrorForLogging upstream credentials TestConnection (VObj props)
    = ([the_request credentials "/users?limit=1" GET],
       Completed (Return {| content := [Some text]; isError := None |})) /\
    JSON_stringify_2 (VObj [("connected", VBool connected); ("message", VStr message)])
    = Some text /\
    (connected = true <->
     exists response,
       upstream (the_request credentials "/users?limit=1" GET) = Return response /\
       returns (request_outcome host response)).
Proof.
  destruct (test_connection_outcome (VObj props))
    as [[path [code [_ H]]] | [connected [message [H Hc]]]].
  - now destruct (H props).
  - exists connected, message. eexists. split; [exact H |]. split; [reflexivity | exact Hc].
Qed.

End ToolFacts.

Section RoutingFacts.
Import Env Worker.

Lemma or_undefined_some (x : option string) (s : string) :
  or_undefined x = Some s <-> x = Some s /\ s <> "".
Proof.
  unfold or_undefined. destruct x as [t |].
  - destruct (String.eqb_spec t "") as [-> | Hne].
    + split; [discriminate | intros [H Hs]; congruence].
    + split; [intros H; injection H as <-; auto | intros [H _]; exact H].
  - split; [discriminate | intros [H _]; discriminate].
Qed.

Lemma validate_returns (p : PartialCredentials) (c : GorgiasCredentials) :
  validateGorgiasCredentials p = Return c <->
  p_domain p = Some (domain c) /\ domain c <> "" /\
  p_email p = Some (email c) /\ email c <> "" /\
  p_apiKey p = Some (apiKey c) /\ apiKey c <> "".
Proof.
  unfold validateGorgiasCredentials, falsy. destruct p as [d e k], c as [d' e' k'].
  cbn [p_domain p_email p_apiKey domain email apiKey].
  destruct d as [d |], e as [e |], k as [k |];
    repeat match goal with
           | |- context [(?s =? "")%string] => destruct (String.eqb_spec s "")
           end;
    cbn; split;
    try discriminate;
    try (intros H; injection H as <- <- <-; repeat split; assumption);
    try (intros [H1 [H2 [H3 [H4 [H5 H6]]]]];
         first [discriminate | congruence
               | injection H1 as <-; injection H3 as <-; injection H5 as <-; congruence
               | injection H1 as <-; injection H3 as <-; injection H5 as <-; reflexivity]).
Qed.

Lemma fetch_serves (request : Request) (c : GorgiasCredentials) :
  fetch request = ServeMcp c <->
  pathname request = "/mcp" /\
  method request = "POST" /\
  Headers_get (headers request) "X-Gorgias-Domain" = Some (domain c) /\
  domain c <> "" /\
  Headers_get (headers request) "X-Gorgias-Email" = Some (email c) /\
  email c <> "" /\
  Headers_get (headers request) "X-Gorgias-API-Key" = Some (apiKey c) /\
  apiKey c <> "".
Proof.
  assert (Hv := validate_returns (parseGorgiasCredentials (headers request)) c).
  unfold parseGorgiasCredentials in Hv. cbn [p_domain p_email p_apiKey] in Hv.
  rewrite !or_undefined_some in Hv.
  unfold fetch.
  destruct (String.eqb_spec (pathname request) "/health") as [Hh | Hh].
  { split; [discriminate | intros [Hp _]; congruence]. }
  destruct (String.eqb_spec (pathname request) "/mcp") as [Hp | Hp];
    destruct (String.eqb_spec (method request) "POST") as [Hm | Hm]; cbn [andb].
  - unfold parseGorgiasCredentials in *.
    destruct (validateGorgiasCredentials _) as [c' | e] eqn:Hval.
    + split.
      * intros H. injection H as ->. split; [exact Hp |]. split; [exact Hm |].
        destruct Hv as [Hv _]. specialize (Hv eq_refl). tauto.
      * intros [_ [_ H]]. destruct Hv as [_ Hv].
        assert (Hc : Return c' = Return c) by (apply Hv; tauto).
        injection Hc as ->. reflexivity.
    + split; [discriminate |]. intros [_ [_ H]]. destruct Hv as [_ Hv].
      assert (Hc : @Throw GorgiasCredentials e = Return c) by (apply Hv; tauto).
      discriminate.
  - destruct (pathname request =? "/sse")%string;
      (split; [discriminate | intros [_ [H _]]; congruence]).
  - destruct (pathname request =? "/sse")%string;
      (split; [discriminate | intros [H _]; congruence]).
  - destruct (pathname request =? "/sse")%string;
      (split; [discriminate | intros [H _]; congruence]).
Qed.

(** X15.  [fetch] hands a request to the MCP server exactly when it is
    a POST to /mcp whose three credential headers are present and not
    empty, and the credentials it builds the tenant's client with are
    the values of those headers, unchanged. *)
Theorem fetch_serves_tenant_of_headers (request : Request) (c : GorgiasCredentials) :
  fetch request = ServeMcp c <->
  pathname request = "/mcp" /\
  method request = "POST" /\
  Headers_get (headers request) "X-Gorgias-Domain" = Some (domain c) /\
  domain c <> "" /\
  Headers_get (headers request) "X-Gorgias-Email" = Some (email c) /\
  email c <> "" /\
  Headers_get (headers request) "X-Gorgias-API-Key" = Some (apiKey c) /\
  apiKey c <> "".
Proof. apply fetch_serves. Qed.

(** X16.  Only a POST to /mcp reads the headers: any other request is
    answered by [fetch] itself, with the same response whatever its
    headers, and never with status 401. *)
Theorem other_routes_ignore_headers (request : Request) (other : Headers) :
  pathname request <> "/mcp" \/ method request <> "POST" ->
  exists r,
    fetch request = Respond r /\
    fetch {| pathname := pathname request; method := method request; headers := other |}
    = Respond r /\
    status r <> 401.
Proof.
  intros Hroute. unfold fetch. cbn [pathname method headers].
  destruct (pathname request =? "/health")%string.
  { eexists. split; [reflexivity |]. split; [reflexivity | discriminate]. }
  assert (Hmcp : ((pathname request =? "/mcp") && (method request =? "POST"))%string = false).
  { apply andb_false_iff.
    destruct Hroute as [H | H]; [left | right]; now apply String.eqb_neq. }
  rewrite Hmcp.
  destruct (pathname request =? "/sse")%string;
    (eexists; split; [reflexivity |]; split; [reflexivity | discriminate]).
Qed.

End RoutingFacts.

Section TenantFacts.
Import Env Worker Http Client Lists TenantSpec.

Lemma call_refused {A} (schema : value -> Zod.parsed A)
      (handler : A -> Eff Formatters.ToolResponse) (args : value)
      (issued : list HttpRequest) (path code : string) :
  Tools.call schema handler args = (issued, Tools.InvalidParams path code) -> issued = [].
Proof.
  unfold Tools.call. destruct (schema args) as [a | p c].
  - destruct (handler a). discriminate.
  - intros H. now injection H as <-.
Qed.

Lemma plain_tool_requests (host : Host) (formatErrorForLogging : exn -> value)
      (upstream : Upstream) (c : GorgiasCredentials) (t : plain_tool) (args : value)
      (r : HttpRequest) :
  In r (fst (run_plain_tool host formatErrorForLogging upstream c t args)) ->
  exists op, In r (calls (run_plain host upstream c op)).
Proof.
  destruct (run_plain_tool host formatErrorForLogging upstream c t args)
    as [issued [path code | res]] eqn:Hrun; cbn [fst].
  - assert (Hnone : issued = []).
    { destruct t; cbn [run_plain_tool] in Hrun;
        unfold Tools.gorgias_list_teams, Tools.gorgias_list_tags,
          Tools.gorgias_list_integrations, Tools.gorgias_list_views,
          Tools.gorgias_list_custom_fields, Tools.gorgias_list_widgets in Hrun;
        exact (call_refused _ _ _ _ _ _ Hrun). }
    rewrite Hnone. intros [].
  - destruct (plain_tool_forwards host formatErrorForLogging upstream c t args)
      as [_ H].
    destruct (H issued res Hrun) as [op ->]. intros Hin. now exists op.
Qed.

(** X17.  For a request that [fetch] hands to the MCP server, the
    client is built with the credentials of its headers, and every
    upstream request that any of the 72 operations of that client
    issues goes to https://{X-Gorgias-Domain}.gorgias.com/api and
    carries the Basic authorization built from the X-Gorgias-Email and
    X-Gorgias-API-Key headers of that same request; the header values
    are used as they are, without validation or encoding.  The same
    holds of every request of the 25 tool handlers that are modelled
    (the 19 of [Catalog.tool] and the six of [plain_tool]), which reach
    the upstream through these operations. *)
Theorem served_tenant_is_the_one_called
        (host : Host) (formatErrorForLogging : exn -> value) (upstream : Upstream)
        (request : Request) (c : GorgiasCredentials) (d e k : string) :
  fetch request = ServeMcp c ->
  Headers_get (headers request) "X-Gorgias-Domain" = Some d ->
  Headers_get (headers request) "X-Gorgias-Email" = Some e ->
  Headers_get (headers request) "X-Gorgias-API-Key" = Some k ->
  (forall op r, In r (calls (Calls.run host upstream c op)) -> addressed d e k r)
  /\
  (forall t args r,
      In r (fst (Catalog.run host formatErrorForLogging upstream c t args)) ->
      addressed d e k r)
  /\
  (forall t args r,
      In r (fst (run_plain_tool host formatErrorForLogging upstream c t args)) ->
      addressed d e k r).
Proof.
  intros Hserve Hd He Hk.
  apply fetch_serves in Hserve.
  destruct Hserve as [_ [_ [Hd' [_ [He' [_ [Hk' _]]]]]]].
  rewrite Hd in Hd'. rewrite He in He'. rewrite Hk in Hk'.
  injection Hd' as ->. injection He' as ->. injection Hk' as ->.
  assert (Hreq : forall endpoint options,
             addressed (domain c) (email c) (apiKey c) (the_request c endpoint options)).
  { intros endpoint options. split; [| reflexivity].
    exists endpoint. unfold the_request, getBaseUrl. cbn [url].
    now rewrite !append_assoc3. }
  assert (Hop : forall op r, In r (calls (Calls.run host upstream c op)) ->
                             addressed (domain c) (email c) (apiKey c) r).
  { intros op r Hin.
    destruct (operation_request host upstream c op) as [endpoint [options Hcalls]].
    rewrite Hcalls in Hin. destruct Hin as [<- | []]. apply Hreq. }
  split; [exact Hop |]. split.
  - intros t args r Hin.
    destruct (tool_requests host formatErrorForLogging upstream c t args r Hin)
      as [[endpoint [options ->]] _].
    apply Hreq.
  - intros t args r Hin.
    destruct (plain_tool_requests host formatErrorForLogging upstream c t args r Hin)
      as [op Hin'].
    apply (Hop (Calls.ListAll op)). exact Hin'.
Qed.

End TenantFacts.

Section MappingEdges.
Import Http Client Entities Lists Calls.

Lemma returns_bind_inv {A B} (c : completion A) (k : A -> completion B) :
  returns (bind c k) -> exists a, c = Return a /\ returns (k a).
Proof.
  destruct c as [a | e]; simpl; intros H; [now exists a |].
  exfalso. revert H. apply not_returns_throw.
Qed.

Lemma eval_props_returns_inv (raw : value) (props : list (string * init)) :
  returns (eval_props raw props) ->
  Forall (fun p => returns (eval_init raw (snd p))) props.
Proof.
  induction props as [| [k i] props IH]; [constructor |].
  cbn [eval_props]. intros H.
  apply returns_bind_inv in H. destruct H as [v [Hv H]].
  apply returns_bind_inv in H. destruct H as [vs [Hvs _]].
  constructor; [cbn; rewrite Hv; apply returns_return |].
  apply IH. rewrite Hvs. apply returns_return.
Qed.

Lemma object_literal_returns_inv (raw : value) (props : list (string * init)) :
  returns (object_literal raw props) ->
  Forall (fun p => returns (eval_init raw (snd p))) props.
Proof.
  unfold object_literal. intros H. apply returns_bind_inv in H.
  destruct H as [fields [Hf _]]. apply eval_props_returns_inv. rewrite Hf.
  apply returns_return.
Qed.

Lemma get_returns_inv (raw : value) (w : string) :
  returns (get raw w) -> nullish raw = false.
Proof.
  destruct raw; try reflexivity; cbn; intros H; exfalso; revert H;
    apply not_returns_throw.
Qed.

Lemma object_literal_not_nullish (raw : value) (k w : string)
      (rest : list (string * init)) :
  returns (object_literal raw ((k, Read w) :: rest)) -> nullish raw = false.
Proof.
  intros H. apply object_literal_returns_inv in H. inversion H as [| p l Hp _]; subst.
  cbn in Hp. now apply get_returns_inv in Hp.
Qed.

Lemma array_map_returns_inv (expr : string) (f : value -> completion value)
      (arr : value) :
  returns (array_map expr f arr) ->
  exists elems, arr = VArr elems /\ Forall (fun x => returns (f x)) elems.
Proof.
  destruct arr; cbn; intros H;
    try (exfalso; revert H; apply not_returns_throw).
  exists elems. split; [reflexivity |].
  apply returns_bind_inv in H. destruct H as [l [Hl _]].
  apply mapM_returns_iff. rewrite Hl. apply returns_return.
Qed.

Lemma read_map_returns_inv (raw : value) (w : string) (f : value -> completion value) :
  nullish raw = false ->
  returns (eval_init raw (ReadMap w f)) ->
  exists elems, get_opt raw w = VArr elems /\ Forall (fun x => returns (f x)) elems.
Proof.
  intros Hraw. cbn [eval_init]. rewrite get_returns by exact Hraw. cbn [bind].
  apply array_map_returns_inv.
Qed.

Lemma records_of_returns (f : value -> completion value) (v : value) :
  (forall x, returns (f x) -> nullish x = false) ->
  (exists elems, v = VArr elems /\ Forall (fun x => returns (f x)) elems) ->
  array_of_records v = true.
Proof.
  intros Hf [elems [-> Hall]]. cbn. apply forallb_forall. intros x Hx.
  rewrite Forall_forall in Hall. apply negb_true_iff. apply Hf. now apply Hall.
Qed.

Lemma map_attachment_not_nullish (a : value) :
  returns (map_attachment a) -> nullish a = false.
Proof. apply object_literal_not_nullish. Qed.

Lemma map_channel_not_nullish (c : value) :
  returns (map_channel c) -> nullish c = false.
Proof. apply object_literal_not_nullish. Qed.

Lemma mapper_not_nullish (k : kind) (raw : value) :
  returns (mapper k raw) -> nullish raw = false.
Proof.
  rewrite mapper_literal. destruct k; cbn [props_of];
    try (unfold mapTicketWithMessages_props, mapTicket_props; cbn [app]);
    apply object_literal_not_nullish.
Qed.

Ltac the_prop H key :=
  let Hin := fresh "Hin" in
  rewrite Forall_forall in H;
  match goal with
  | H : forall x, In x ?props -> _ |- _ =>
      match props with
      | context [(key, ?i)] =>
          assert (Hin : In (key, i) props)
            by (unfold mapTicketWithMessages_props, mapTicket_props, mapMessage_props,
                  mapCustomer_props, statistic_props; cbn [app];
                repeat first [left; reflexivity | right]);
          specialize (H _ Hin); cbn [snd] in H
      end
  end.

Lemma mapMessage_nested (m : value) :
  returns (mapMessage m) ->
  nullish m = false /\ array_of_records (get_opt m "attachments") = true.
Proof.
  intros H. pose proof (mapper_not_nullish Message m H) as Hm. split; [exact Hm |].
  apply object_literal_returns_inv in H. unfold mapMessage_props in H.
  the_prop H "attachments".
  apply (records_of_returns map_attachment); [apply map_attachment_not_nullish |].
  now apply read_map_returns_inv.
Qed.

Lemma mapper_nested (k : kind) (raw : value) :
  returns (mapper k raw) -> nested_ok k raw = true.
Proof.
  intros H. pose proof (mapper_not_nullish k raw H) as Hraw.
  rewrite mapper_literal in H. apply object_literal_returns_inv in H.
  destruct k; cbn [nested_ok props_of] in *; try reflexivity.
  - (* TicketWithMessages *)
    unfold mapTicketWithMessages_props, mapTicket_props in H. cbn [app] in H.
    the_prop H "messages".
    apply read_map_returns_inv in H; [| exact Hraw].
    destruct H as [messages [-> Hall]]. apply forallb_forall. intros m Hm.
    rewrite Forall_forall in Hall. specialize (Hall m Hm).
    apply mapMessage_nested in Hall. destruct Hall as [H1 H2].
    rewrite H1, H2. reflexivity.
  - (* Message *)
    unfold mapMessage_props in H. the_prop H "attachments".
    apply (records_of_returns map_attachment); [apply map_attachment_not_nullish |].
    now apply read_map_returns_inv.
  - (* Customer *)
    unfold mapCustomer_props in H. the_prop H "channels".
    apply (records_of_returns map_channel); [apply map_channel_not_nullish |].
    now apply read_map_returns_inv.
  - (* Statistic *)
    unfold statistic_props in H. the_prop H "meta".
    cbn [eval_init] in H. rewrite get_returns in H by exact Hraw. cbn [bind] in H.
    apply negb_true_iff. revert H. apply object_literal_not_nullish.
Qed.

Lemma mapper_returns (k : kind) (raw : value) :
  returns (mapper k raw) <-> nullish raw = false /\ nested_ok k raw = true.
Proof.
  split.
  - intros H. split; [now apply (mapper_not_nullish k) | now apply mapper_nested].
  - intros [Hraw Hn]. rewrite mapper_literal. unfold object_literal.
    destruct (eval_props_returns raw _ (props_return_of_kind k raw Hraw Hn))
      as [fields [Hf _]].
    rewrite Hf. apply returns_return.
Qed.

(** X18.  A mapping function returns exactly when the wire record is
    neither null nor undefined and the arrays it converts element by
    element (the attachments of a message, the channels of a customer,
    the messages of a ticket) are arrays with no null or undefined
    element, and for a statistic its meta is neither; otherwise it
    throws.  A field that is only copied may be missing. *)
Theorem mapper_returns_iff (k : kind) (raw : value) :
  (returns (mapper k raw) <-> nullish raw = false /\ nested_ok k raw = true) /\
  (nullish raw = true \/ nested_ok k raw = false -> exists e, mapper k raw = Throw e).
Proof.
  split; [apply mapper_returns |].
  intros Hbad. destruct (mapper k raw) as [v | e] eqn:Hm; [| now exists e].
  assert (Hr : returns (mapper k raw)) by (rewrite Hm; apply returns_return).
  apply mapper_returns in Hr. destruct Hr as [H1 H2].
  destruct Hbad; congruence.
Qed.

Lemma page_returns_iff (f : value -> completion value) (data : value) :
  returns (paginated f data) <->
  nullish data = false /\
  exists rows, get_opt data "data" = VArr rows /\ Forall (fun x => returns (f x)) rows.
Proof.
  unfold paginated. split.
  - intros H. apply returns_bind_inv in H. destruct H as [rows [Hrows H]].
    assert (Hn : nullish data = false).
    { apply (get_returns_inv data "data"). rewrite Hrows. apply returns_return. }
    split; [exact Hn |].
    rewrite get_returns in Hrows by exact Hn. injection Hrows as <-.
    apply returns_bind_inv in H. destruct H as [items [Hitems _]].
    apply (array_map_returns_inv "data.data"). rewrite Hitems. apply returns_return.
  - intros [Hn [rows [Hget Hall]]]. rewrite !get_returns by exact Hn.
    cbn [bind]. rewrite Hget. cbn [array_map].
    apply mapM_returns_iff in Hall. destruct Hall as [l ->]. cbn [bind].
    apply returns_return.
Qed.

Variable host : Host.
Variable upstream : Upstream.
Variable credentials : Env.GorgiasCredentials.

Lemma run_paginated_result (op : paginated_operation) :
  exists endpoint,
    run_paginated host upstream credentials op
    = (data <-- request host upstream credentials endpoint GET ;;
       pure (paginated (mapper (row_kind op)) data)).
Proof.
  destruct op; cbn [run_paginated row_kind];
    unfold listTickets, listMessages, listCustomers, listUsers, listMacros, listRules,
      listViewItems, listSatisfactionSurveys, listEvents, listJobs;
    cbv zeta; eexists; reflexivity.
Qed.

(** X19.  A list operation that returns a page returns all its rows or
    none.  On a success status other than 204 with a JSON body, it
    returns exactly when the body is neither null nor undefined, its
    [data] member is an array, and every row can be mapped (it is
    neither null nor undefined, and its embedded arrays are arrays of
    such elements); [meta] may be missing.  On a 204 it throws, since
    there is no body to read [data] from. *)
Theorem list_page_returns_iff (op : paginated_operation) (response : HttpResponse)
        (body : value) :
  (forall r, upstream r = Return response) ->
  200 <= Http.status response <= 299 ->
  (Http.status response <> 204 ->
   JSON_parse host (resp_body response) = Some body ->
   (returns (result (run_paginated host upstream credentials op)) <->
    nullish body = false /\
    exists rows,
      get_opt body "data" = VArr rows /\
      Forall (fun row => nullish row = false /\ nested_ok (row_kind op) row = true) rows))
  /\
  (Http.status response = 204 ->
   result (run_paginated host upstream credentials op)
   = Throw (TypeError "Cannot read properties of undefined (reading 'data')")).
Proof.
  intros Hup Hok. destruct (run_paginated_result op) as [endpoint ->].
  rewrite (request_then host upstream credentials), Hup. split.
  - intros H204 Hparse.
    rewrite (decoded_body host response body Hok H204 Hparse). cbn [bind].
    rewrite page_returns_iff. split.
    + intros [Hn [rows [Hget Hall]]]. split; [exact Hn |]. exists rows.
      split; [exact Hget |]. revert Hall. apply Forall_impl. intros row.
      apply mapper_returns.
    + intros [Hn [rows [Hget Hall]]]. split; [exact Hn |]. exists rows.
      split; [exact Hget |]. revert Hall. apply Forall_impl. intros row.
      apply mapper_returns.
  - intros H204. unfold request_outcome, ok. rewrite H204. reflexivity.
Qed.

End MappingEdges.

Section FormatterEdges.
Import Formatters.
Variable host : Host.

Lemma length_append (a b : string) :
  String.length (a ++ b) = (String.length a + String.length b)%nat.
Proof. induction a as [| c a IH]; simpl; [reflexivity | now rewrite IH]. Qed.

Lemma length_substring (k : nat) (s : string) :
  (k <= String.length s)%nat -> String.length (substring 0 k s) = k.
Proof.
  revert s. induction k as [| k IH]; intros s Hk.
  - destruct s; reflexivity.
  - destruct s as [| c s]; simpl in *; [lia |]. rewrite IH by lia. reflexivity.
Qed.

(** X20.  [truncate] leaves a string that fits the budget unchanged.
    A longer string is cut to the first [maxLength - 3] characters
    followed by three dots, so that the result has exactly [maxLength]
    characters when the budget is at least 3; for a smaller budget the
    result is the three dots alone, which is longer than the budget. *)
Theorem truncate_within_budget (s : string) (maxLength : Z) :
  exists t,
    truncate host (VStr s) maxLength = Return (VStr t) /\
    str_length t <= Z.max maxLength 3 /\
    (str_length s <= maxLength -> t = s) /\
    (maxLength < str_length s ->
     t = substring 0 (Z.to_nat (maxLength - 3)) s ++ "..." /\
     (3 <= maxLength -> str_length t = maxLength) /\
     (maxLength <= 3 -> t = "...")).
Proof.
  unfold truncate. cbn [get]. cbn [String.eqb Ascii.eqb Bool.eqb bind le].
  destruct (Z.leb_spec (str_length s) maxLength) as [Hfit | Hlong].
  - exists s. split; [reflexivity |]. split; [lia |]. split; [reflexivity | lia].
  - eexists. split; [reflexivity |].
    assert (Hcut : 3 <= maxLength ->
                   str_length (substring 0 (Z.to_nat (maxLength - 3)) s ++ "...")
                   = maxLength).
    { intros H3. unfold str_length in *. rewrite length_append, length_substring by lia.
      simpl. lia. }
    assert (Hdots : maxLength <= 3 ->
                    substring 0 (Z.to_nat (maxLength - 3)) s ++ "..." = "...").
    { intros H3. replace (Z.to_nat (maxLength - 3)) with 0%nat by lia.
      destruct s; reflexivity. }
    split; [| split; [lia | split; [reflexivity | split; assumption]]].
    destruct (Z.le_gt_cases 3 maxLength) as [H3 | H3].
    + rewrite Hcut by exact H3. lia.
    + rewrite Hdots by lia. cbn. lia.
Qed.

(** X21.  [formatObjectAsMarkdown] leaves out the members that are
    null or undefined: an object is rendered like the object without
    them. *)
Theorem formatObject_skips_nullish (data : list (string * value)) (entityType : string) :
  formatObjectAsMarkdown data entityType
  = formatObjectAsMarkdown (filter (fun entry => negb (nullish (snd entry))) data)
      entityType.
Proof.
  unfold formatObjectAsMarkdown. f_equal. f_equal.
  induction data as [| [key v] data IH]; [reflexivity |].
  cbn [filter flat_map snd fst]. destruct v; cbn [nullish negb]; try exact IH;
    cbn [flat_map snd fst]; rewrite IH; reflexivity.
Qed.

End FormatterEdges.

Section UpdateFacts.
Import Records.

Lemma assoc_assign (k key : string) (v : value) (cond : bool)
      (body : list (string * value)) :
  assoc k (assign_if cond key v body)
  = match assoc k body with
    | Some x => Some x
    | None => if cond && (k =? key)%string then Some v else None
    end.
Proof.
  unfold assign_if. destruct cond; cbn [andb]; [| now destruct (assoc k body)].
  induction body as [| [k' v'] body IH]; cbn [app assoc].
  - destruct (k =? key)%string; reflexivity.
  - destruct (k =? k')%string; [reflexivity | exact IH].
Qed.

(** X22.  The body that [updateTicket] sends holds a member only for
    what the input sets.  An input member that is undefined is not
    sent.  A status or priority is sent when it is not empty.  An
    assignee that is null or 0 is sent as null, which unassigns; another
    number [n] is sent as [{ id: n }].  A snooze date is sent as it is,
    null included. *)
Theorem updateTicket_sends_what_is_set (input : TicketUpdateInput) :
  exists body,
    updateTicket_body input = VObj body /\
    assoc "status" body
    = (if truthy (u_status input) then Some (u_status input) else None) /\
    assoc "priority" body
    = (if truthy (u_priority input) then Some (u_priority input) else None) /\
    assoc "assignee_user" body
    = (match u_assigneeUserId input with
       | VUndefined => None
       | x => Some (if truthy x then VObj [("id", x)] else VNull)
       end) /\
    assoc "assignee_team" body
    = (match u_assigneeTeamId input with
       | VUndefined => None
       | x => Some (if truthy x then VObj [("id", x)] else VNull)
       end) /\
    assoc "snooze_datetime" body
    = (match u_snoozeUntilDatetime input with
       | VUndefined => None
       | x => Some x
       end) /\
    (forall k, In k (map fst body) ->
               In k ["status"; "priority"; "assignee_user"; "assignee_team";
                     "snooze_datetime"]).
Proof.
  unfold updateTicket_body. cbv zeta. eexists. split; [reflexivity |].
  repeat split.
  - rewrite !assoc_assign. cbn. rewrite ?andb_false_r, ?andb_true_r.
    destruct (truthy (u_status input)); reflexivity.
  - rewrite !assoc_assign. cbn. rewrite ?andb_false_r, ?andb_true_r.
    destruct (truthy (u_priority input)); reflexivity.
  - rewrite !assoc_assign. cbn. rewrite ?andb_false_r, ?andb_true_r. unfold id_ref.
    destruct (u_assigneeUserId input); reflexivity.
  - rewrite !assoc_assign. cbn. rewrite ?andb_false_r, ?andb_true_r. unfold id_ref.
    destruct (u_assigneeTeamId input); reflexivity.
  - rewrite !assoc_assign. cbn. rewrite ?andb_false_r, ?andb_true_r.
    destruct (u_snoozeUntilDatetime input); reflexivity.
  - intros k. unfold assign_if.
    destruct (truthy (u_status input)), (truthy (u_priority input)),
      (defined (u_assigneeUserId input)), (defined (u_assigneeTeamId input)),
      (defined (u_snoozeUntilDatetime input)); cbn; tauto.
Qed.

End UpdateFacts.

Section RegistryFacts.

Lemma included (l l' : list string) :
  forallb (fun x => existsb (String.eqb x) l') l = true ->
  forall x, In x l -> In x l'.
Proof.
  intros H x Hx. rewrite forallb_forall in H. specialize (H x Hx).
  apply existsb_exists in H. destruct H as [y [Hy Heq]].
  apply String.eqb_eq in Heq. now subst y.
Qed.

(** X23.  The tools that the information response of the worker lists
    are exactly the tools that [createStatelessServer] registers: the
    72 names are the same, and no name is registered twice. *)
Theorem advertised_tools_are_registered :
  NoDup Registry.createStatelessServer /\
  NoDup Worker.tool_names /\
  List.length Registry.createStatelessServer = 72%nat /\
  (forall name, In name Registry.createStatelessServer <-> In name Worker.tool_names) /\
  (forall t, In (Catalog.name t) Registry.createStatelessServer).
Proof.
  split; [apply distinct_NoDup; reflexivity |].
  split; [apply distinct_NoDup; reflexivity |].
  split; [reflexivity |]. split.
  - intros name. split; apply included; reflexivity.
  - intros t. destruct t as [t | | | | | | | | |]; try destruct t; cbn; tauto.
Qed.

End RegistryFacts.

Section RenderingFacts.
Import Http Client Entities Lists Formatters FormatterSpec Catalog AnswerSpec.
Variable host : Host.
Variable formatErrorForLogging : exn -> value.
Variable upstream : Upstream.
Variable credentials : Env.GorgiasCredentials.

Lemma mapM_items {A B} (f : A -> completion B) (l : list A) (items : list B) :
  mapM f l = Return items -> Forall2 (fun x y => f x = Return y) l items.
Proof.
  revert items. induction l as [| x l IH]; cbn [mapM]; intros items H.
  - injection H as <-. constructor.
  - destruct (f x) as [y |] eqn:Hy; [| discriminate]. cbn [bind] in H.
    destruct (mapM f l) as [ys |]; [| discriminate]. cbn [bind] in H.
    injection H as <-. constructor; [exact Hy | now apply IH].
Qed.

Lemma page_items (f : value -> completion value) (body page : value) :
  paginated f body = Return page ->
  exists rows items nextCursor,
    get_opt body "data" = VArr rows /\
    Forall2 (fun row item => f row = Return item) rows items /\
    page = VObj [("items", VArr items); ("nextCursor", nextCursor)].
Proof.
  intros H.
  assert (Hr : returns (paginated f body)) by (rewrite H; apply returns_return).
  apply page_returns_iff in Hr. destruct Hr as [Hn [rows [Hget _]]].
  unfold paginated in H. rewrite !get_returns in H by exact Hn. cbn [bind] in H.
  rewrite Hget in H. cbn [array_map] in H.
  destruct (mapM f rows) as [items |] eqn:Hitems; [| discriminate]. cbn [bind] in H.
  injection H as <-. exists rows, items. eexists.
  split; [exact Hget |]. split; [now apply mapM_items | reflexivity].
Qed.

Lemma format_parsed (args : value) (format : ResponseFormat) :
  Zod.member Zod.format_default_json args "format" = Zod.Valid format ->
  (format = markdown <-> get_opt args "format" = VStr "markdown").
Proof.
  unfold Zod.member, Zod.format_default_json.
  destruct (get_opt args "format") as [| | | | s | |]; try discriminate.
  - intros H. injection H as <-. split; discriminate.
  - destruct (String.eqb_spec s "json") as [-> | Hj].
    + intros H. injection H as <-. split; discriminate.
    + destruct (String.eqb_spec s "markdown") as [-> | Hm]; [| discriminate].
      intros H. injection H as <-. split; reflexivity.
Qed.

Lemma answer_formatted (args : value) (format : ResponseFormat) (entityType : string)
      (data : value) :
  (format = markdown <-> get_opt args "format" = VStr "markdown") ->
  data <> VUndefined ->
  formatted host formatErrorForLogging args entityType data
    (match formatResponse host data format entityType with
     | Return r => r
     | Throw e => formatError formatErrorForLogging e
     end).
Proof.
  intros Hformat Hdata. split.
  - intros Hjson. destruct format; [| now destruct Hjson; apply Hformat].
    cbn [formatResponse]. apply stringify_defined in Hdata. destruct Hdata as [text Ht].
    exists text. rewrite Ht. split; reflexivity.
  - intros Hmd. apply Hformat in Hmd. subst format. cbn [formatResponse]. split.
    + intros Hok. apply (markdown_returns host) in Hok. destruct Hok as [text Ht].
      exists text. rewrite Ht. split; reflexivity.
    + intros Hno. destruct (formatAsMarkdown host data entityType) as [text | e] eqn:Hmd.
      * assert (Hyes : markdown_ok host entityType data = true).
        { apply markdown_returns. rewrite Hmd. apply returns_return. }
        congruence.
      * exists e. repeat split.
Qed.

Ltac parse_arguments H :=
  repeat match type of H with
         | Zod.andThen ?p _ = Zod.Valid _ =>
             let E := fresh "E" in
             destruct p eqn:E; cbn [Zod.andThen] in H; [| discriminate H]
         end.

Ltac answered Hrun Hup Hout Hpage :=
  match type of Hrun with
  | context [match ?schema with Zod.Valid _ => _ | Zod.Invalid _ _ => _ end] =>
      let Hschema := fresh "Hschema" in
      destruct schema as [a | path code] eqn:Hschema; [| discriminate Hrun];
      unfold Tools.page_schema, Tools.format_schema in Hschema;
      parse_arguments Hschema; injection Hschema as <-
  end;
  unfold listTickets, listMessages, listCustomers, listUsers, listMacros, listRules,
    listViewItems, listSatisfactionSurveys, listEvents, listJobs, listTeams, listTags,
    listIntegrations, listViews, listCustomFields, listWidgets in Hrun;
  cbv zeta in Hrun; rewrite guarded_request in Hrun;
  injection Hrun as _ <-; unfold handled; rewrite Hup, Hout; cbn [bind fst snd];
  rewrite Hpage; cbn [bind];
  apply answer_formatted;
  [ match goal with
    | E : Zod.member Zod.format_default_json _ "format" = Zod.Valid _ |- _ =>
        exact (format_parsed _ _ E)
    end
  | ].

(** X24.  What a list tool answers when the upstream answers its
    request and the client returns the page or the array.  In json
    format the tool answers with the JSON text of the page, without
    [isError], whatever the rows hold.  In markdown format it answers
    with the rendering, without [isError], exactly when the formatter
    returns on the page; when the formatter throws (a row whose shown
    value cannot be converted to a string, or whose truncated field has
    no fitting length), the tool answers with [formatError] of what was
    thrown: one such row fails the whole call, and the failure is
    reported, not thrown.  The ten tools that return a page pass it as
    it is, the six others wrap the array as [{ items }]; the items of a
    view are rendered as tickets, and events, jobs, integrations, views,
    custom fields and widgets by the generic table. *)
Theorem list_tool_answers (args : value) (response : HttpResponse) (body : value) :
  (forall q, upstream q = Return response) ->
  request_outcome host response = Return body ->
  (forall t issued r page,
      run_tool host formatErrorForLogging upstream credentials t args
      = (issued, Tools.Completed (Return r)) ->
      paginated (mapper (rows_of t)) body = Return page ->
      formatted host formatErrorForLogging args (table_of t) page r)
  /\
  (forall t issued r rows,
      run_plain_tool host formatErrorForLogging upstream credentials t args
      = (issued, Tools.Completed (Return r)) ->
      mapped (mapper (plain_rows_of t)) body = Return rows ->
      formatted host formatErrorForLogging args (plain_table_of t)
        (VObj [("items", rows)]) r).
Proof.
  intros Hup Hout. split.
  - intros t issued r page Hrun Hpage.
    assert (Hdata : page <> VUndefined).
    { destruct (page_items _ _ _ Hpage) as [rows [items [c [_ [_ ->]]]]]. discriminate. }
    destruct t; cbn [run_tool rows_of table_of mapper] in *;
      unfold Tools.gorgias_list_tickets, Tools.gorgias_list_messages,
        Tools.gorgias_list_customers, Tools.gorgias_list_users, Tools.gorgias_list_macros,
        Tools.gorgias_list_rules, Tools.gorgias_list_view_items,
        Tools.gorgias_list_satisfaction_surveys, Tools.gorgias_list_events,
        Tools.gorgias_list_jobs, Tools.call in Hrun;
      answered Hrun Hup Hout Hpage; exact Hdata.
  - intros t issued r rows Hrun Hrows.
    destruct t; cbn [run_plain_tool plain_rows_of plain_table_of mapper] in *;
      unfold Tools.gorgias_list_teams, Tools.gorgias_list_tags,
        Tools.gorgias_list_integrations, Tools.gorgias_list_views,
        Tools.gorgias_list_custom_fields, Tools.gorgias_list_widgets, Tools.call in Hrun;
      answered Hrun Hup Hout Hrows; discriminate.
Qed.

End RenderingFacts.

Section CursorFacts.
Import Http Client Entities Lists Calls QuerySpec.
Variable host : Host.
Variable upstream : Upstream.
Variable credentials : Env.GorgiasCredentials.

Lemma set_Forall (P : string * string -> Prop) (name v : string) (q : URLSearchParams) :
  P (name, v) -> Forall P q -> Forall P (URLSearchParams_set name v q).
Proof.
  intros Hp. induction 1 as [| [k old] q Hk Hq IH].
  - constructor; [exact Hp | constructor].
  - rewrite set_cons. destruct (k =? name)%string.
    + constructor; [exact Hp |].
      apply Forall_forall. intros p Hin. apply filter_In in Hin.
      rewrite Forall_forall in Hq. apply Hq. tauto.
    + constructor; assumption.
Qed.

Lemma set_keeps_page_first (name v : string) (n : Z) (c : string) (q : URLSearchParams) :
  name <> "limit" -> name <> "cursor" ->
  page_first n c q -> page_first n c (URLSearchParams_set name v q).
Proof.
  intros Hl Hc [rest [-> Hrest]]. rewrite !set_cons.
  destruct (String.eqb_spec "limit" name) as [Heq | _]; [congruence |].
  destruct (String.eqb_spec "cursor" name) as [Heq | _]; [congruence |].
  eexists. split; [reflexivity |]. apply set_Forall; [cbn; auto | exact Hrest].
Qed.

Lemma set_string_keeps_page (name : string) (x : option string) (n : Z) (c : string)
      (q : URLSearchParams) :
  name <> "limit" -> name <> "cursor" ->
  page_first n c q -> page_first n c (set_string name x q).
Proof.
  intros Hl Hc Hq. unfold set_string. destruct x as [v |]; [| exact Hq].
  destruct (v =? "")%string; [exact Hq | now apply set_keeps_page_first].
Qed.

Lemma set_number_keeps_page (name : string) (x : option Z) (n : Z) (c : string)
      (q : URLSearchParams) :
  name <> "limit" -> name <> "cursor" ->
  page_first n c q -> page_first n c (set_number name x q).
Proof.
  intros Hl Hc Hq. unfold set_number. destruct x as [v |]; [| exact Hq].
  destruct (v =? 0); [exact Hq | now apply set_keeps_page_first].
Qed.

Lemma set_page (n : Z) (c : string) :
  n <> 0 -> c <> "" ->
  page_first n c (set_string "cursor" (Some c) (set_number "limit" (Some n) [])).
Proof.
  intros Hn Hc. unfold set_number, set_string.
  apply Z.eqb_neq in Hn. apply String.eqb_neq in Hc. rewrite Hn, Hc. cbn.
  eexists. split; [reflexivity | constructor].
Qed.

Ltac page_first_chain Hn Hc :=
  repeat first [ apply set_string_keeps_page; [discriminate | discriminate |]
               | apply set_number_keeps_page; [discriminate | discriminate |] ];
  apply set_page; [exact Hn | exact Hc].

(** X25.  Pagination continues where the upstream says.  The
    [nextCursor] of a page is the [meta.next_cursor] of the body,
    unchanged (undefined when [meta] or the cursor is missing), and a
    list operation called with a limit and a cursor sends them as the
    first two query parameters, [limit] then [cursor], with no second
    value for either. *)
Theorem cursor_is_passed_through (op : paginated_operation) :
  (forall body page,
      paginated (mapper (row_kind op)) body = Return page ->
      get_opt page "nextCursor" = get_opt (get_opt body "meta") "next_cursor")
  /\
  (forall n c,
      limit (page_of op) = Some n -> n <> 0 ->
      cursor (page_of op) = Some c -> c <> "" ->
      exists rest,
        Forall (fun p => fst p <> "limit" /\ fst p <> "cursor") rest /\
        map url (calls (run_paginated host upstream credentials op))
        = [ getBaseUrl credentials
            ++ (path_of op ++ "?"
                ++ URLSearchParams_toString
                     (("limit", Z_to_string n) :: ("cursor", c) :: rest)) ]).
Proof.
  split.
  - intros body page H.
    assert (Hr : returns (paginated (mapper (row_kind op)) body))
      by (rewrite H; apply returns_return).
    apply page_returns_iff in Hr. destruct Hr as [Hn [rows [Hget _]]].
    unfold paginated in H. rewrite !get_returns in H by exact Hn. cbn [bind] in H.
    destruct (array_map _ _ _); [| discriminate]. cbn [bind] in H.
    injection H as <-. reflexivity.
  - intros n c Hlimit Hn Hcursor Hc.
    destruct op; cbn [run_paginated page_of path_of] in *;
      unfold listTickets, listMessages, listCustomers, listUsers, listMacros, listRules,
        listViewItems, listSatisfactionSurveys, listEvents, listJobs;
      cbv zeta; rewrite request_calls; unfold the_request; cbn [map url];
      rewrite Hlimit, Hcursor;
      match goal with
      | |- context [URLSearchParams_toString ?q] =>
          let H := fresh in
          assert (H : page_first n c q) by page_first_chain Hn Hc;
          destruct H as [rest [-> Hrest]]; exists rest; split; [exact Hrest |]
      end;
      try reflexivity.
    rewrite !append_assoc3. reflexivity.
Qed.

End CursorFacts.

Lemma testConnection_never_throws_witness :
  Http.result (Records.testConnection Sample.host Sample.empty_upstream Sample.credentials)
  = Return (VObj [ ("connected", VBool true);
                   ("message", VStr "Successfully connected to Gorgias") ]).
Proof.
  destruct (testConnection_never_throws Sample.host Sample.empty_upstream
              Sample.credentials) as [connected [message [Hr [_ [Hc Hm]]]]].
  assert (H : connected = true).
  { apply Hc. eexists. split; [reflexivity |]. eexists. reflexivity. }
  rewrite Hr, (Hm H), H. reflexivity.
Defined.

Lemma upstream_failure_is_reported_witness :
  snd (RecordTools.gorgias_get_ticket Sample.host Sample.formatErrorForLogging
         (Sample.always
            (Sample.json_reply 404
               ("{" ++ dq ++ "message" ++ dq ++ ": " ++ dq ++ "Not found" ++ dq ++ "}")))
         Sample.credentials (VObj [("id", VNum 12)]))
  = Tools.Completed
      (Return (Formatters.formatError Sample.formatErrorForLogging
                 (GorgiasApiError "Not found" 404))).
Proof.
  destruct (RecordTools.gorgias_get_ticket Sample.host Sample.formatErrorForLogging
              (Sample.always
                 (Sample.json_reply 404
                    ("{" ++ dq ++ "message" ++ dq ++ ": " ++ dq ++ "Not found" ++ dq
                     ++ "}")))
              Sample.credentials (VObj [("id", VNum 12)])) as [issued res] eqn:Hrun.
  assert (Hissued : issued = [Lists.the_request Sample.credentials "/tickets/12" Client.GET]).
  { apply (f_equal fst) in Hrun. symmetry. exact Hrun. }
  assert (Hres : exists r, res = Tools.Completed r).
  { apply (f_equal snd) in Hrun. cbn [snd] in Hrun. rewrite <- Hrun. eexists. reflexivity. }
  destruct Hres as [r ->]. cbn [snd]. f_equal.
  apply (upstream_failure_is_reported Sample.host Sample.formatErrorForLogging
           (Sample.always
              (Sample.json_reply 404
                 ("{" ++ dq ++ "message" ++ dq ++ ": " ++ dq ++ "Not found" ++ dq ++ "}")))
           Sample.credentials Catalog.GetTicket (VObj [("id", VNum 12)]) issued r
           (Lists.the_request Sample.credentials "/tickets/12" Client.GET)).
  - reflexivity.
  - exact Hrun.
  - rewrite Hissued. left. reflexivity.
  - right. eexists. split; reflexivity.
Defined.

Lemma confirmation_means_accepted_witness :
  exists issued r,
    RecordTools.gorgias_delete_ticket Sample.host Sample.formatErrorForLogging
      (Sample.always {| Http.status := 204; Http.resp_headers := []; Http.resp_body := "" |})
      Sample.credentials (VObj [("id", VNum 12)])
    = (issued, Tools.Completed (Return r)) /\
    Formatters.isError r = None.
Proof.
  eexists. eexists. split; [reflexivity |].
  refine (proj2 (confirmation_means_accepted Sample.host Sample.formatErrorForLogging
                   (Sample.always {| Http.status := 204; Http.resp_headers := [];
                                     Http.resp_body := "" |})
                   Sample.credentials Catalog.DeleteTicket (VObj [("id", VNum 12)])
                   _ _ eq_refl eq_refl) _).
  eexists. eexists. split; [reflexivity |]. split; [reflexivity |].
  eexists. reflexivity.
Defined.

Lemma other_routes_ignore_headers_witness :
  exists r,
    Worker.fetch {| Worker.pathname := "/health"; Worker.method := "POST";
                    Worker.headers := [] |}
    = Worker.Respond r /\
    Worker.fetch {| Worker.pathname := "/health"; Worker.method := "POST";
                    Worker.headers := [("X-Gorgias-Domain", "acme")] |}
    = Worker.Respond r /\
    Worker.status r <> 401.
Proof.
  apply (other_routes_ignore_headers
           {| Worker.pathname := "/health"; Worker.method := "POST";
              Worker.headers := [] |} [("X-Gorgias-Domain", "acme")]).
  left. discriminate.
Defined.

Lemma served_tenant_is_the_one_called_witness :
  TenantSpec.addressed "acme" "agent@acme.io" "secret"
    (Lists.the_request Sample.credentials "/tickets/12" Client.DELETE).
Proof.
  refine (proj1 (served_tenant_is_the_one_called Sample.host Sample.formatErrorForLogging
                   Sample.empty_upstream
                   {| Worker.pathname := "/mcp"; Worker.method := "POST";
                      Worker.headers := [ ("X-Gorgias-Domain", "acme");
                                          ("X-Gorgias-Email", "agent@acme.io");
                                          ("X-Gorgias-API-Key", "secret") ] |}
                   Sample.credentials "acme" "agent@acme.io" "secret"
                   eq_refl eq_refl eq_refl eq_refl)
            (Calls.DeleteTicket 12) _ _).
  left. reflexivity.
Defined.

Lemma list_page_returns_iff_witness :
  returns
    (Http.result
       (Client.listUsers Sample.host
          (Sample.always
             (Sample.json_reply 200
                ("{" ++ dq ++ "data" ++ dq ++ ": [{" ++ dq ++ "id" ++ dq ++ ": 1}]}")))
          Sample.credentials {| Client.limit := Some 20; Client.cursor := None |})).
Proof.
  refine (proj2
            (proj1
               (list_page_returns_iff Sample.host
                  (Sample.always
                     (Sample.json_reply 200
                        ("{" ++ dq ++ "data" ++ dq ++ ": [{" ++ dq ++ "id" ++ dq
                         ++ ": 1}]}")))
                  Sample.credentials
                  (Lists.ListUsers {| Client.limit := Some 20; Client.cursor := None |})
                  (Sample.json_reply 200
                     ("{" ++ dq ++ "data" ++ dq ++ ": [{" ++ dq ++ "id" ++ dq ++ ": 1}]}"))
                  (VObj [("data", VArr [VObj [("id", VNum 1)]])])
                  (fun _ => eq_refl) _)
               _ eq_refl)
            _).
  - cbn. lia.
  - cbn. discriminate.
  - split; [reflexivity |]. eexists. split; [reflexivity |].
    constructor; [split; reflexivity | constructor].
Defined.

Lemma list_tool_answers_witness :
  AnswerSpec.formatted Sample.host Sample.formatErrorForLogging
    (VObj [("format", VStr "markdown")]) "teams"
    (VObj [("items", VArr [VObj [ ("id", VNum 1); ("name", VUndefined);
                                  ("description", VNum 5);
                                  ("decoration", VUndefined); ("members", VUndefined);
                                  ("createdDatetime", VUndefined);
                                  ("uri", VUndefined) ]])])
    (Formatters.formatError Sample.formatErrorForLogging
       (TypeError "str.substring is not a function")).
Proof.
  refine (proj2 (list_tool_answers Sample.host Sample.formatErrorForLogging
                   (Sample.always
                      (Sample.json_reply 200
                         ("{" ++ dq ++ "data" ++ dq ++ ": [{" ++ dq ++ "id" ++ dq
                          ++ ": 1, " ++ dq ++ "description" ++ dq ++ ": 5}]}")))
                   Sample.credentials (VObj [("format", VStr "markdown")])
                   (Sample.json_reply 200
                      ("{" ++ dq ++ "data" ++ dq ++ ": [{" ++ dq ++ "id" ++ dq
                       ++ ": 1, " ++ dq ++ "description" ++ dq ++ ": 5}]}"))
                   (VObj [("data", VArr [VObj [("id", VNum 1); ("description", VNum 5)]])])
                   (fun _ => eq_refl) eq_refl)
            Lists.ToolListTeams _ _ _ eq_refl eq_refl).
Defined.

Section WriteFacts.
Import Http Client Records Writes Lists Calls.
Variable host : Host.
Variable upstream : Upstream.
Variable credentials : Env.GorgiasCredentials.

Ltac unfold_writes :=
  unfold createTicket, updateTicket, createMessage, createCustomer, updateCustomer,
    createTeam, updateTeam, createTag, createMacro, createRule, updateRule,
    createIntegration, createView, updateView, createSatisfactionSurvey,
    createCustomField, updateCustomField, createJob, createWidget, updateWidget;
  cbv zeta.

Ltac unfold_bodies :=
  unfold createTicket_body, updateTicket_body, createMessage_body, createCustomer_body,
    updateCustomer_body, createTeam_body, updateTeam_body, createTag_body,
    createRule_body, updateRule_body, createIntegration_body, createView_body,
    updateView_body, createSatisfactionSurvey_body, createCustomField_body,
    updateCustomField_body, createJob_body, createWidget_body, updateWidget_body,
    assign_if;
  cbv zeta.

(** X26.  Every key of the body that a create or update operation
    builds is a field of the wire record that the operation reads its
    answer as, with one exception: the operations write under the names
    that the mapping functions read, except that [createTicket] also
    writes [messages], which [RawTicket], the shape it reads the answer
    as, does not declare. *)
Theorem written_keys_are_wire_fields (op : operation) (kind : Entities.kind)
        (r : HttpRequest) (body : value) (key : string) :
  written_kind op = Some kind ->
  In r (calls (run host upstream credentials op)) ->
  req_body r = Some body ->
  In key (Entities.keys body) ->
  (In key (Entities.wire_fields kind)
   \/ ((exists input, op = CreateTicket input) /\ key = "messages"))
  /\
  ~ In "messages" (Entities.wire_fields Entities.Ticket)
  /\
  (forall input, In "messages" (Entities.keys (createTicket_body input))).
Proof.
  intros Hkind Hin Hbody Hkey. split; [| split].
  - destruct op; try discriminate Hkind; injection Hkind as <-;
      cbn [run] in Hin; revert Hin; unfold_writes; rewrite request_calls;
      intros [<- | []]; cbn [the_request req_body POST PUT init_body] in Hbody;
      injection Hbody as <-; revert Hkey; unfold_bodies;
      repeat match goal with
             | |- context [if ?c then _ else _] => destruct c
             end;
      cbn;
      first [ tauto
            | intros H;
              repeat (destruct H as [<- | H];
                      [first [ left; cbn; tauto
                             | right; split; [eexists; reflexivity | reflexivity] ] |]);
              destruct H ].
  - cbn. intuition discriminate.
  - intros input. unfold_bodies.
    repeat match goal with
           | |- context [if ?c then _ else _] => destruct c
           end;
      cbn; tauto.
Qed.

End WriteFacts.

Lemma written_keys_are_wire_fields_witness :
  In "snooze_datetime" (Entities.wire_fields Entities.Ticket)
  \/ ((exists input,
          Calls.UpdateTicket 12
            {| Records.u_status := VUndefined; Records.u_priority := VUndefined;
               Records.u_assigneeUserId := VUndefined;
               Records.u_assigneeTeamId := VUndefined;
               Records.u_snoozeUntilDatetime := VNull |}
          = Calls.CreateTicket input)
       /\ "snooze_datetime" = "messages").
Proof.
  apply (written_keys_are_wire_fields Sample.host Sample.empty_upstream Sample.credentials
           (Calls.UpdateTicket 12
              {| Records.u_status := VUndefined; Records.u_priority := VUndefined;
                 Records.u_assigneeUserId := VUndefined;
                 Records.u_assigneeTeamId := VUndefined;
                 Records.u_snoozeUntilDatetime := VNull |})
           Entities.Ticket
           (Lists.the_request Sample.credentials "/tickets/12"
              (Client.PUT (VObj [("snooze_datetime", VNull)])))
           (VObj [("snooze_datetime", VNull)])).
  - reflexivity.
  - left. reflexivity.
  - reflexivity.
  - left. reflexivity.
Defined.

Section RefusalFacts.
Import Env Worker.

(** X27.  The 401 answer of [fetch] tells which credential headers are
    missing and nothing else: two POST requests to /mcp that lack the
    same headers (absent or empty) get the same answer, whatever the
    values of the headers they do carry. *)
Theorem refusal_depends_on_missing_headers_only (hs1 hs2 : Headers) :
  (forall h, In h required_headers ->
             falsy (Headers_get hs1 h) = falsy (Headers_get hs2 h)) ->
  (exists h, In h required_headers /\ falsy (Headers_get hs1 h) = true) ->
  exists r,
    fetch {| pathname := "/mcp"; method := "POST"; headers := hs1 |} = Respond r /\
    fetch {| pathname := "/mcp"; method := "POST"; headers := hs2 |} = Respond r /\
    status r = 401.
Proof.
  intros Hsame [h [Hh Hmiss]].
  assert (Hf : forall hs x,
             falsy (or_undefined (Headers_get hs x)) = falsy (Headers_get hs x)).
  { intros hs x. destruct (Headers_get hs x) as [s |]; [| reflexivity].
    cbn. destruct (String.eqb_spec s ""); [reflexivity |].
    cbn. now apply String.eqb_neq. }
  pose proof (Hsame "X-Gorgias-Domain" ltac:(cbn; tauto)) as Hd.
  pose proof (Hsame "X-Gorgias-Email" ltac:(cbn; tauto)) as He.
  pose proof (Hsame "X-Gorgias-API-Key" ltac:(cbn; tauto)) as Hk.
  unfold fetch. cbn [pathname method headers String.eqb Ascii.eqb Bool.eqb andb].
  unfold validateGorgiasCredentials, parseGorgiasCredentials.
  cbn [p_domain p_email p_apiKey]. rewrite !Hf, <- Hd, <- He, <- Hk.
  destruct Hh as [<- | [<- | [<- | []]]]; rewrite Hmiss;
    repeat match goal with
           | |- context [falsy ?x] => destruct (falsy x)
           end;
    cbn; (eexists; split; [reflexivity |]; split; reflexivity).
Qed.

End RefusalFacts.

Section UpdateToolFacts.
Import Http Client Records Lists Formatters Tools RecordTools.
Variable host : Host.
Variable formatErrorForLogging : exn -> value.
Variable upstream : Upstream.
Variable credentials : Env.GorgiasCredentials.

Ltac parse_members H :=
  repeat match type of H with
         | Zod.andThen ?p _ = Zod.Valid _ =>
             let E := fresh "E" in
             destruct p eqn:E; cbn [Zod.andThen] in H; [| discriminate H]
         end.

(** X28.  [gorgias_update_ticket] forwards what it is given.  For
    arguments that its schema accepts, it issues the one request
    PUT /tickets/{id} whose body is the body that [updateTicket] builds
    from the arguments of the same names, each passed on unchanged
    (null included); [id] is in the path only. *)
Theorem update_ticket_tool_forwards (args : value) (a : UpdateTicketArgs) :
  update_ticket_schema args = Zod.Valid a ->
  get_opt args "id" = VNum (arg_id a) /\
  u_status (arg_input a) = get_opt args "status" /\
  u_priority (arg_input a) = get_opt args "priority" /\
  u_assigneeUserId (arg_input a) = get_opt args "assigneeUserId" /\
  u_assigneeTeamId (arg_input a) = get_opt args "assigneeTeamId" /\
  u_snoozeUntilDatetime (arg_input a) = get_opt args "snoozeUntilDatetime" /\
  fst (gorgias_update_ticket host formatErrorForLogging upstream credentials args)
  = [ the_request credentials ("/tickets/" ++ Z_to_string (arg_id a))
        (PUT (updateTicket_body (arg_input a))) ].
Proof.
  intros Hschema. pose proof Hschema as Hparse.
  unfold update_ticket_schema in Hparse. parse_members Hparse.
  injection Hparse as <-. cbn [arg_id arg_input u_status u_priority u_assigneeUserId
                                 u_assigneeTeamId u_snoozeUntilDatetime].
  unfold Zod.member, Zod.number_int, Zod.enum_optional, number_int_nullable_optional,
    string_nullable_optional in *.
  repeat split.
  all: try (match goal with
            | |- context [get_opt ?x ?member] => destruct (get_opt x member)
            end;
            try discriminate;
            try (destruct (existsb _ _); [| discriminate]);
            repeat match goal with
                   | H : Zod.Valid _ = Zod.Valid _ |- _ => injection H as <-
                   end;
            reflexivity).
  - unfold gorgias_update_ticket, Tools.call. rewrite Hschema.
    unfold updateTicket. cbv zeta. rewrite guarded_request. reflexivity.
Qed.

End UpdateToolFacts.

Lemma refusal_depends_on_missing_headers_only_witness :
  exists r,
    Worker.fetch {| Worker.pathname := "/mcp"; Worker.method := "POST";
                    Worker.headers := [ ("X-Gorgias-Domain", "acme");
                                        ("X-Gorgias-API-Key", "secret") ] |}
    = Worker.Respond r /\
    Worker.fetch {| Worker.pathname := "/mcp"; Worker.method := "POST";
                    Worker.headers := [ ("X-Gorgias-Domain", "other");
                                        ("X-Gorgias-Email", "");
                                        ("X-Gorgias-API-Key", "k") ] |}
    = Worker.Respond r /\
    Worker.status r = 401.
Proof.
  apply (refusal_depends_on_missing_headers_only
           [("X-Gorgias-Domain", "acme"); ("X-Gorgias-API-Key", "secret")]
           [("X-Gorgias-Domain", "other"); ("X-Gorgias-Email", "");
            ("X-Gorgias-API-Key", "k")]).
  - intros h [<- | [<- | [<- | []]]]; reflexivity.
  - exists "X-Gorgias-Email". split; [cbn; tauto | reflexivity].
Defined.

Lemma update_ticket_tool_forwards_witness :
  fst (RecordTools.gorgias_update_ticket Sample.host Sample.formatErrorForLogging
         Sample.empty_upstream Sample.credentials
         (VObj [("id", VNum 12); ("assigneeUserId", VNull)]))
  = [ Lists.the_request Sample.credentials "/tickets/12"
        (Client.PUT (VObj [("assignee_user", VNull)])) ].
Proof.
  refine (proj2 (proj2 (proj2 (proj2 (proj2 (proj2
            (update_ticket_tool_forwards Sample.host Sample.formatErrorForLogging
               Sample.empty_upstream Sample.credentials
               (VObj [("id", VNum 12); ("assigneeUserId", VNull)])
               {| RecordTools.arg_id := 12;
                  RecordTools.arg_input :=
                    {| Records.u_status := VUndefined; Records.u_priority := VUndefined;
                       Records.u_assigneeUserId := VNull;
                       Records.u_assigneeTeamId := VUndefined;
                       Records.u_snoozeUntilDatetime := VUndefined |} |}
               eq_refl))))))).
Defined.
